(** * AIOps host agent: command execution, script materialisation,
      identity switch and credential checks

    A shallow embedding of [agent/src/executor.py], [agent/src/user_switch.py],
    [agent/src/script_executor.py] and [agent/src/security.py], followed by the
    properties of the design document that can be stated on it.

    Python [str] values are sequences of Unicode code points; child processes,
    the file system, the clock, the random source and the logger are the
    effects of the code and are threaded through an explicit world state. *)

From Stdlib Require Import ZArith NArith List Ascii String Bool Lia.
From stdpp Require Import base option list gmap pretty.

Local Open Scope Z_scope.
Local Open Scope list_scope.

(* ===================================================================== *)
(** * Python strings *)
(* ===================================================================== *)

Module PyStr.

(** A Python [str]: its code points, in order. *)
Abbreviation pystr := (list N).

(** Literals are written as UTF-8 text and decoded to code points, so that
    the messages of the source can be written the way the source has them. *)
Fixpoint utf8_decode (s : string) (pending : nat) (acc : N) : pystr :=
  match s with
  | EmptyString => []
  | String a rest =>
      let b := N_of_ascii a in
      match pending with
      | O =>
          if (b <? 128)%N then b :: utf8_decode rest 0 0%N
          else if (b <? 224)%N then utf8_decode rest 1 (b - 192)%N
          else if (b <? 240)%N then utf8_decode rest 2 (b - 224)%N
          else utf8_decode rest 3 (b - 240)%N
      | S O => (acc * 64 + (b - 128))%N :: utf8_decode rest 0 0%N
      | S k => utf8_decode rest k (acc * 64 + (b - 128))%N
      end
  end.

Definition py (s : string) : pystr := utf8_decode s 0 0%N.
#[global] Opaque py.

(** Number of bytes of a code point, and of a text, once encoded as UTF-8. *)
Definition utf8_width (c : N) : nat :=
  if (c <? 128)%N then 1%nat
  else if (c <? 2048)%N then 2%nat
  else if (c <? 65536)%N then 3%nat
  else 4%nat.

Definition utf8_len (s : pystr) : nat := sum_list_with utf8_width s.

(** Lone surrogates cannot be encoded as UTF-8: [str.encode] and a text-mode
    [write] raise [UnicodeEncodeError] on them. *)
Definition is_surrogate (c : N) : bool := (55296 <=? c)%N && (c <=? 57343)%N.
Definition encodable (s : pystr) : bool := forallb (fun c => negb (is_surrogate c)) s.

Definition nl : pystr := [10%N].   (* '\n' *)
Definition sq : pystr := [39%N].   (* single quote *)
Definition dq : pystr := [34%N].   (* double quote *)

(** [str.isspace] on one code point: the characters [str.strip()] removes. *)
Definition is_space (c : N) : bool :=
  ((9 <=? c) && (c <=? 13) || (28 <=? c) && (c <=? 32)
   || (c =? 133) || (c =? 160) || (c =? 5760)
   || (8192 <=? c) && (c <=? 8202)
   || (c =? 8232) || (c =? 8233) || (c =? 8239) || (c =? 8287)
   || (c =? 12288))%N.

Fixpoint lstrip (s : pystr) : pystr :=
  match s with
  | [] => []
  | c :: s' => if is_space c then lstrip s' else s
  end.

Definition rstrip (s : pystr) : pystr := rev (lstrip (rev s)).

(** [s.strip()] *)
Definition strip (s : pystr) : pystr := rstrip (lstrip s).

(** [s.startswith(p)] *)
Fixpoint startswith (s p : pystr) : bool :=
  match p, s with
  | [], _ => true
  | _ :: _, [] => false
  | c :: p', d :: s' => (c =? d)%N && startswith s' p'
  end.

(** [p in s] for strings: substring search. *)
Fixpoint contains (s p : pystr) : bool :=
  startswith s p ||
  match s with
  | [] => false
  | _ :: s' => contains s' p
  end.

(** [s.split(sep)] for a one-character separator: never empty. *)
Fixpoint split (sep : N) (s : pystr) : list pystr :=
  match s with
  | [] => [[]]
  | c :: s' =>
      if (c =? sep)%N then [] :: split sep s'
      else match split sep s' with
           | l :: ls => (c :: l) :: ls
           | [] => [[c]]
           end
  end.

(** [s[:n]] with Python's meaning of a negative bound. *)
Definition slice_to (s : pystr) (n : Z) : pystr :=
  if 0 <=? n then take (Z.to_nat n) s
  else take (Z.to_nat (Z.of_nat (length s) + n)) s.

(** [str(n)] for an integer. *)
Definition str_of_Z (n : Z) : pystr := py (pretty n).

(** Truthiness of an optional string: [None] and [''] are false. *)
Definition truthy (o : option pystr) : bool :=
  match o with
  | Some (_ :: _) => true
  | _ => false
  end.

(** [sep.join(parts)] *)
Fixpoint join (sep : pystr) (parts : list pystr) : pystr :=
  match parts with
  | [] => []
  | [p] => p
  | p :: rest => p ++ sep ++ join sep rest
  end.

(** [s.split(sep)] for a separator of any positive length: occurrences are
    taken from the left and do not overlap. [skip] counts the characters of
    an occurrence still to pass, [cur] is the piece being read, reversed. *)
Fixpoint split_str_go (sep : pystr) (skip : nat) (s cur : pystr) : list pystr :=
  match s with
  | [] => [rev cur]
  | c :: s' =>
      match skip with
      | S k => split_str_go sep k s' cur
      | O =>
          if startswith s sep
          then rev cur :: split_str_go sep (length sep - 1) s' []
          else split_str_go sep 0 s' (c :: cur)
      end
  end.

Definition split_str (sep s : pystr) : list pystr := split_str_go sep 0 s [].

(** [s.split()]: the maximal runs of characters that are not whitespace. *)
Fixpoint split_ws_go (s cur : pystr) : list pystr :=
  match s with
  | [] => match cur with [] => [] | _ => [rev cur] end
  | c :: s' =>
      if is_space c
      then match cur with [] => split_ws_go s' [] | _ => rev cur :: split_ws_go s' [] end
      else split_ws_go s' (c :: cur)
  end.

Definition split_ws (s : pystr) : list pystr := split_ws_go s [].

(** [parts[-1]] of a list that is not empty. *)
Definition last_part (parts : list pystr) : pystr := List.last parts [].

(** [parts[i]] of a list that is long enough. *)
Definition part (parts : list pystr) (i : nat) : pystr := default [] (parts !! i).

(** [s.replace(old, new)] for [old] of positive length. *)
Fixpoint replace_go (old new : pystr) (skip : nat) (s : pystr) : pystr :=
  match s with
  | [] => []
  | c :: s' =>
      match skip with
      | S k => replace_go old new k s'
      | O =>
          if startswith s old
          then new ++ replace_go old new (length old - 1) s'
          else c :: replace_go old new 0 s'
      end
  end.

Definition replace (s old new : pystr) : pystr := replace_go old new 0 s.

(** [f.readline()] in text mode, up to the line end: a line ends at a line
    feed or at a carriage return. *)
Fixpoint readline (s : pystr) : pystr :=
  match s with
  | [] => []
  | c :: s' => if (c =? 10)%N || (c =? 13)%N then [] else c :: readline s'
  end.

(** ** UTF-8 *)

(** [%x] of a number, padded with zeros to [width] digits. *)
Definition hex_digit (d : N) : N := if (d <? 10)%N then (48 + d)%N else (87 + d)%N.

Fixpoint hex_go (fuel : nat) (n : N) (acc : pystr) : pystr :=
  match fuel with
  | O => acc
  | S k => if (n =? 0)%N then acc else hex_go k (n / 16)%N (hex_digit (n mod 16)%N :: acc)
  end.

Definition hex (width : nat) (n : N) : pystr :=
  let digits := hex_go (N.size_nat n) n [] in
  replicate (width - length digits) 48%N ++ digits.

(** The UTF-8 bytes of one code point that is not a surrogate. *)
Definition utf8_bytes (c : N) : list N :=
  (if c <? 128 then [c]
   else if c <? 2048 then [192 + c / 64; 128 + c mod 64]
   else if c <? 65536 then [224 + c / 4096; 128 + (c / 64) mod 64; 128 + c mod 64]
   else [240 + c / 262144; 128 + (c / 4096) mod 64; 128 + (c / 64) mod 64; 128 + c mod 64])%N.

(** The surrogates at the head of a text: the encoder reports the whole run. *)
Fixpoint surrogate_run (s : pystr) : nat :=
  match s with
  | c :: s' => if is_surrogate c then S (surrogate_run s') else O
  | [] => O
  end.

(** [str(e)] of the [UnicodeEncodeError] for a run of [run] surrogates that
    starts with [c] at index [pos]. *)
Definition encode_error (c : N) (pos run : nat) : pystr :=
  match run with
  | 1%nat =>
      py "'utf-8' codec can't encode character '\u" ++ hex 4 c ++ py "' in position "
        ++ str_of_Z (Z.of_nat pos) ++ py ": surrogates not allowed"
  | _ =>
      py "'utf-8' codec can't encode characters in position " ++ str_of_Z (Z.of_nat pos)
        ++ py "-" ++ str_of_Z (Z.of_nat (pos + run - 1)) ++ py ": surrogates not allowed"
  end.

Fixpoint str_encode_go (s : pystr) (pos : nat) : pystr + list N :=
  match s with
  | [] => inr []
  | c :: s' =>
      if is_surrogate c then inl (encode_error c pos (surrogate_run s))
      else match str_encode_go s' (S pos) with
           | inr b => inr (utf8_bytes c ++ b)
           | inl e => inl e
           end
  end.

(** [s.encode()]: the UTF-8 bytes of a text, or the message of the
    [UnicodeEncodeError] it raises. *)
Definition str_encode (s : pystr) : pystr + list N := str_encode_go s 0.

Definition is_continuation (b : N) : bool := ((128 <=? b) && (b <? 192))%N.

(** [str(e)] of the [UnicodeDecodeError] for [len] bytes that start with
    [first] at index [pos]. *)
Definition decode_error (first : N) (pos len : nat) (reason : pystr) : pystr :=
  match len with
  | 1%nat =>
      py "'utf-8' codec can't decode byte 0x" ++ hex 2 first ++ py " in position "
        ++ str_of_Z (Z.of_nat pos) ++ py ": " ++ reason
  | _ =>
      py "'utf-8' codec can't decode bytes in position " ++ str_of_Z (Z.of_nat pos)
        ++ py "-" ++ str_of_Z (Z.of_nat (pos + len - 1)) ++ py ": " ++ reason
  end.

Definition decoded (c : N) (r : pystr + pystr) : pystr + pystr :=
  match r with
  | inr s => inr (c :: s)
  | inl e => inl e
  end.

Fixpoint bytes_decode_go (b : list N) (pos : nat) : pystr + pystr :=
  let cut len := inl (decode_error (hd 0%N b) pos len (py "unexpected end of data")) in
  let bad len := inl (decode_error (hd 0%N b) pos len (py "invalid continuation byte")) in
  match b with
  | [] => inr []
  | c :: rest =>
      if (c <? 128)%N then decoded c (bytes_decode_go rest (S pos))
      else if (c <? 194)%N then inl (decode_error c pos 1 (py "invalid start byte"))
      else if (c <? 224)%N then
        match rest with
        | [] => cut 1%nat
        | c2 :: rest =>
            if negb (is_continuation c2) then bad 1%nat
            else decoded ((c - 192) * 64 + (c2 - 128))%N (bytes_decode_go rest (2 + pos))
        end
      else if (c <? 240)%N then
        match rest with
        | [] => cut 1%nat
        | c2 :: rest =>
            if negb (is_continuation c2)
               || (if (c2 <? 160)%N then (c =? 224)%N else (c =? 237)%N)
            then bad 1%nat
            else match rest with
                 | [] => cut 2%nat
                 | c3 :: rest =>
                     if negb (is_continuation c3) then bad 2%nat
                     else decoded ((c - 224) * 4096 + (c2 - 128) * 64 + (c3 - 128))%N
                            (bytes_decode_go rest (3 + pos))
                 end
        end
      else if (c <? 245)%N then
        match rest with
        | [] => cut 1%nat
        | c2 :: rest =>
            if negb (is_continuation c2)
               || (if (c2 <? 144)%N then (c =? 240)%N else (c =? 244)%N)
            then bad 1%nat
            else match rest with
                 | [] => cut 2%nat
                 | c3 :: rest =>
                     if negb (is_continuation c3) then bad 2%nat
                     else match rest with
                          | [] => cut 3%nat
                          | c4 :: rest =>
                              if negb (is_continuation c4) then bad 3%nat
                              else decoded ((c - 240) * 262144 + (c2 - 128) * 4096
                                            + (c3 - 128) * 64 + (c4 - 128))%N
                                     (bytes_decode_go rest (4 + pos))
                          end
                 end
        end
      else inl (decode_error c pos 1 (py "invalid start byte"))
  end.

(** [b.decode()]: the text of UTF-8 bytes, or the message of the
    [UnicodeDecodeError] it raises. *)
Definition bytes_decode (b : list N) : pystr + pystr := bytes_decode_go b 0.

(** The UTF-8 bytes of a text without surrogates. *)
Definition utf8 (s : pystr) : list N := flat_map utf8_bytes s.

End PyStr.
Import PyStr.

(* ===================================================================== *)
(** * The host: processes, files, clock, randomness, logging *)
(* ===================================================================== *)

Module Host.

(** Configuration dictionary: every entry may be missing, the readers below
    apply the defaults of the [.get(key, default)] calls. *)
Record config := {
  cfg_timeout : option Z;            (* execution.timeout *)
  cfg_max_output_size : option Z;    (* execution.max_output_size *)
  cfg_temp_dir : option pystr;       (* execution.temp_dir *)
  cfg_jwt_secret : option pystr;     (* security.jwt_secret *)
  cfg_jwt_expire_hours : option Z;   (* security.jwt_expire_hours *)
  cfg_aes_key : option pystr         (* security.aes_key *)
}.

Inductive level := INFO | WARNING | ERROR.

(** The exceptions the code distinguishes: [subprocess.TimeoutExpired], and
    every other [Exception] with its [str(e)]. *)
Inductive py_exception :=
  | TimeoutExpired (cmd : pystr) (seconds : Z)
  | Exception (msg : pystr).

Definition exn_str (e : py_exception) : pystr :=
  match e with
  | TimeoutExpired cmd seconds =>
      py "Command '" ++ cmd ++ py "' timed out after " ++ str_of_Z seconds ++ py " seconds"
  | Exception msg => msg
  end.

Record file := { content : pystr; mode : N }.

(** A child process request: [Popen(command, shell=True, cwd, env)] or
    [subprocess.run(argv)]. *)
Inductive invocation :=
  | Shell (command : pystr) (cwd : option pystr) (env : gmap pystr pystr)
  | Argv (argv : list pystr).

(** What a child does: it exits with its decoded output and a return code,
    it is still running when the caller stops waiting, or it cannot be
    started (or its output cannot be read) and the call raises. *)
Inductive child :=
  | Exits (stdout stderr : pystr) (returncode : Z)
  | Outlives
  | FailsToStart (msg : pystr).

Inductive fs_op :=
  | OpOpen (path : pystr)
  | OpWrite (path : pystr)
  | OpChmod (path : pystr)
  | OpRemove (path : pystr).

(** Everything the code reads from its environment. [run_child] is the
    behaviour of a child (given the deadline of the wait, if any) and its
    effect on the files; [fs_fault] says which file operations raise. *)
Record host := {
  platform_system : pystr;                 (* platform.system().lower() *)
  os_environ : gmap pystr pystr;
  run_child : invocation -> option Z -> gmap pystr file -> child * gmap pystr file;
  random_choices : nat -> pystr;           (* the n-th draw: 8 characters *)
  urandom_b64 : nat -> pystr;              (* the n-th draw: 32 bytes, base64url *)
  time_time : nat -> Z;                    (* the n-th reading of int(time.time()) *)
  fs_fault : fs_op -> option pystr;
  create_mode : N                          (* 0o666 & ~umask *)
}.

Record world := {
  fs : gmap pystr file;
  spawned : list invocation;
  killed : list invocation;
  logged : list (level * pystr);
  draws : nat;
  ticks : nat
}.

Definition set_fs (f : gmap pystr file) (w : world) : world :=
  {| fs := f; spawned := spawned w; killed := killed w;
     logged := logged w; draws := draws w; ticks := ticks w |}.

Definition add_spawned (inv : invocation) (w : world) : world :=
  {| fs := fs w; spawned := spawned w ++ [inv]; killed := killed w;
     logged := logged w; draws := draws w; ticks := ticks w |}.

Definition add_killed (inv : invocation) (w : world) : world :=
  {| fs := fs w; spawned := spawned w; killed := killed w ++ [inv];
     logged := logged w; draws := draws w; ticks := ticks w |}.

Definition add_logged (l : level) (msg : pystr) (w : world) : world :=
  {| fs := fs w; spawned := spawned w; killed := killed w;
     logged := logged w ++ [(l, msg)]; draws := draws w; ticks := ticks w |}.

Definition next_draw (w : world) : world :=
  {| fs := fs w; spawned := spawned w; killed := killed w;
     logged := logged w; draws := S (draws w); ticks := ticks w |}.

Definition next_tick (w : world) : world :=
  {| fs := fs w; spawned := spawned w; killed := killed w;
     logged := logged w; draws := draws w; ticks := S (ticks w) |}.

Inductive outcome (A : Type) :=
  | Return (a : A)
  | Raise (e : py_exception)
  | Hang.
Arguments Return {A} a.
Arguments Raise {A} e.
Arguments Hang {A}.

Definition M (A : Type) : Type := world -> outcome A * world.

#[export] Instance M_ret : MRet M := fun A a w => (Return a, w).

#[export] Instance M_bind : MBind M := fun A B f m w =>
  match m w with
  | (Return a, w') => f a w'
  | (Raise e, w') => (Raise e, w')
  | (Hang, w') => (Hang, w')
  end.

Definition raise {A} (e : py_exception) : M A := fun w => (Raise e, w).

(** [try: body  except ... as e: handler e] *)
Definition try_except {A} (body : M A) (handler : py_exception -> M A) : M A :=
  fun w =>
    match body w with
    | (Raise e, w') => handler e w'
    | r => r
    end.

(** [self.logger.info/warning/error(msg)] *)
Definition log (l : level) (msg : pystr) : M unit := fun w =>
  (Return tt, add_logged l msg w).

(** A started child: what it will do and the files it leaves. *)
Record process := {
  proc_inv : invocation;
  proc_child : child;
  proc_fs : gmap pystr file
}.

(** [subprocess.Popen(...)] *)
Definition popen (h : host) (inv : invocation) (deadline : option Z) : M process := fun w =>
  let w' := add_spawned inv w in
  match run_child h inv deadline (fs w) with
  | (FailsToStart msg, _) => (Raise (Exception msg), w')
  | (c, f) => (Return {| proc_inv := inv; proc_child := c; proc_fs := f |}, w')
  end.

Definition inv_text (inv : invocation) : pystr :=
  match inv with
  | Shell command _ _ => command
  | Argv argv => concat argv
  end.

(** [process.communicate(timeout=deadline)]: output and return code. *)
Definition communicate (p : process) (deadline : option Z) : M (pystr * pystr * Z) := fun w =>
  let w' := set_fs (proc_fs p) w in
  match proc_child p, deadline with
  | Exits out err rc, _ => (Return (out, err, rc), w')
  | Outlives, Some t => (Raise (TimeoutExpired (inv_text (proc_inv p)) t), w')
  | Outlives, None => (Hang, w')
  | FailsToStart msg, _ => (Raise (Exception msg), w')
  end.

(** [process.kill(); process.wait()] *)
Definition kill_wait (p : process) : M unit := fun w =>
  (Return tt, add_killed (proc_inv p) w).

(** [os.path.exists(path)] *)
Definition path_exists (path : pystr) : M bool := fun w =>
  (Return (bool_decide (is_Some (fs w !! path))), w).

(** [os.remove(path)] *)
Definition os_remove (h : host) (path : pystr) : M unit := fun w =>
  match fs_fault h (OpRemove path) with
  | Some msg => (Raise (Exception msg), w)
  | None =>
      match fs w !! path with
      | Some _ => (Return tt, set_fs (delete path (fs w)) w)
      | None => (Raise (Exception (py "[Errno 2] No such file or directory")), w)
      end
  end.

(** [os.chmod(path, m)] *)
Definition os_chmod (h : host) (path : pystr) (m : N) : M unit := fun w =>
  match fs_fault h (OpChmod path) with
  | Some msg => (Raise (Exception msg), w)
  | None =>
      match fs w !! path with
      | Some f => (Return tt, set_fs (<[path := {| content := content f; mode := m |}]> (fs w)) w)
      | None => (Raise (Exception (py "[Errno 2] No such file or directory")), w)
      end
  end.

(** [s.encode()] and [b.decode()] as calls that may raise. *)
Definition encode_utf8 (s : pystr) : M (list N) :=
  match str_encode s with
  | inr b => mret b
  | inl msg => raise (Exception msg)
  end.

Definition decode_utf8 (b : list N) : M pystr :=
  match bytes_decode b with
  | inr s => mret s
  | inl msg => raise (Exception msg)
  end.

(** What a text-mode write hands to the encoder: on Windows every line feed
    has become carriage return and line feed by then, which moves the
    position an encoding error reports. *)
Definition written (h : host) (text : pystr) : pystr :=
  if bool_decide (platform_system h = py "windows") then replace text nl [13%N; 10%N]
  else text.

(** [str(e)] of the [UnicodeEncodeError] that encoding a text raises. *)
Definition encode_error_of (text : pystr) : pystr :=
  match str_encode text with
  | inl msg => msg
  | inr _ => []
  end.

(** [with open(path, 'w', encoding='utf-8') as f: f.write(text)]: the file is
    created (or emptied, keeping its mode) when it is opened; the text is
    encoded when it is written, and a text with a lone surrogate cannot be.
    The content is kept as the text that was written. *)
Definition write_text (h : host) (path : pystr) (text : pystr) : M unit := fun w =>
  match fs_fault h (OpOpen path) with
  | Some msg => (Raise (Exception msg), w)
  | None =>
      let m := match fs w !! path with Some f => mode f | None => create_mode h end in
      let opened := set_fs (<[path := {| content := []; mode := m |}]> (fs w)) w in
      if negb (encodable text) then
        (Raise (Exception (encode_error_of (written h text))), opened)
      else
        match fs_fault h (OpWrite path) with
        | Some msg => (Raise (Exception msg), opened)
        | None => (Return tt, set_fs (<[path := {| content := text; mode := m |}]> (fs w)) w)
        end
  end.

(** [''.join(random.choices(string.ascii_lowercase + string.digits, k=8))] *)
Definition random_name (h : host) : M pystr := fun w =>
  (Return (random_choices h (draws w)), next_draw w).

(** [base64.urlsafe_b64encode(os.urandom(32)).decode()] *)
Definition random_key (h : host) : M pystr := fun w =>
  (Return (urandom_b64 h (draws w)), next_draw w).

(** [int(time.time())] *)
Definition time_now (h : host) : M Z := fun w =>
  (Return (time_time h (ticks w)), next_tick w).

(** [os.path.join(dir, name)] on POSIX, for a relative [name]. *)
Definition path_join (dir name : pystr) : pystr :=
  match dir with
  | [] => name
  | _ => if startswith (rev dir) (py "/") then dir ++ name else dir ++ py "/" ++ name
  end.

(** The dictionary every executor returns. *)
Record result := {
  success : bool;
  output : pystr;
  error : pystr;
  return_code : Z
}.

End Host.
Import Host.

(* ===================================================================== *)
(** * executor.py: [CommandExecutor] *)
(* ===================================================================== *)

Module CommandExecutor.
Section Methods.
Context (h : host) (cfg : config).

Definition timeout : Z := default 300 (cfg_timeout cfg).
Definition max_output_size : Z := default 1048576 (cfg_max_output_size cfg).
Definition platform : pystr := platform_system h.

Definition stdout_marker : pystr := nl ++ py "[输出被截断...]".
Definition stderr_marker : pystr := nl ++ py "[错误输出被截断...]".

(** The size cap of [_run_command], for one stream. *)
Definition limit_output (text marker : pystr) : pystr :=
  if Z.of_nat (length text) >? max_output_size
  then slice_to text max_output_size ++ marker
  else text.

(** [cmd_env = os.environ.copy(); if env: cmd_env.update(env)] *)
Definition merged_env (env : option (gmap pystr pystr)) : gmap pystr pystr :=
  match env with
  | Some e => if bool_decide (e = ∅) then os_environ h else e ∪ os_environ h
  | None => os_environ h
  end.

Definition _run_command (command : pystr) (working_dir : option pystr)
    (env : option (gmap pystr pystr)) : M (pystr * pystr * Z) :=
  let cmd_env := merged_env env in
  process ← popen h (Shell command working_dir cmd_env) (Some timeout);
  try_except
    ('(stdout, stderr, return_code) ← communicate process (Some timeout);
     let stdout := limit_output stdout stdout_marker in
     let stderr := limit_output stderr stderr_marker in
     mret (stdout, stderr, return_code))
    (fun e =>
       match e with
       | TimeoutExpired _ _ => kill_wait process;; raise e
       | _ => raise e
       end).

Definition _prepare_command_with_user (command user : pystr) : M pystr :=
  if bool_decide (platform = py "linux") then
    mret (py "su - " ++ user ++ py " -c '" ++ command ++ py "'")
  else if bool_decide (platform = py "windows") then
    log WARNING (py "Windows平台用户切换需要使用专门的user_switch模块");;
    mret command
  else
    log WARNING (py "不支持的平台: " ++ platform);;
    mret command.

(** [execute]: the handler of [TimeoutExpired] names the command as it is
    after the identity rewrite, the one [command] is bound to by then. *)
Definition execute (command : pystr) (user working_dir : option pystr)
    (env : option (gmap pystr pystr)) : M result :=
  log INFO (py "执行命令: " ++ command);;
  try_except
    (command ← (if truthy user
                then _prepare_command_with_user command (default [] user)
                else mret command);
     try_except
       (r ← _run_command command working_dir env;
        mret {| success := true;
                output := r.1.1;
                error := r.1.2;
                return_code := r.2 |})
       (fun e =>
          match e with
          | TimeoutExpired _ _ =>
              log ERROR (py "命令执行超时: " ++ command);;
              mret {| success := false;
                      output := [];
                      error := py "命令执行超时（超过 " ++ str_of_Z timeout ++ py " 秒）";
                      return_code := -1 |}
          | _ => raise e
          end))
    (fun e =>
       log ERROR (py "命令执行失败: " ++ exn_str e);;
       mret {| success := false;
               output := [];
               error := exn_str e;
               return_code := -1 |}).

Definition dangerous_patterns : list pystr :=
  [py "rm -rf /"; py "mkfs"; py "dd if=/dev/zero"].

(** The advisory scan of [validate_command]: one warning per pattern found. *)
Fixpoint scan_patterns (lower : pystr -> pystr) (patterns : list pystr)
    (command : pystr) : M unit :=
  match patterns with
  | [] => mret tt
  | pattern :: rest =>
      (if contains (lower command) pattern
       then log WARNING (py "检测到危险命令模式: " ++ pattern)
       else mret tt);;
      scan_patterns lower rest command
  end.

(** [validate_command]; [lower] is [str.lower], Unicode case mapping. *)
Definition validate_command (lower : pystr -> pystr) (command : pystr) : M bool :=
  if match command with [] => true | _ => false end
     || match strip command with [] => true | _ => false end
  then mret false
  else
    scan_patterns lower dangerous_patterns command;;
    mret true.

End Methods.
End CommandExecutor.

(* ===================================================================== *)
(** * user_switch.py: [UserSwitch] *)
(* ===================================================================== *)

Module UserSwitch.
Section Methods.
Context (h : host) (cfg : config).

Definition platform : pystr := platform_system h.

(** [subprocess.run(['id', user], ...)] and its return code. *)
Definition _check_user_exists_linux (user : pystr) : M bool :=
  try_except
    (process ← popen h (Argv [py "id"; user]) None;
     '(_, _, returncode) ← communicate process None;
     mret (bool_decide (returncode = 0)))
    (fun _ => mret false).

Definition _execute_as_user_linux (command user : pystr)
    (working_dir : option pystr) (env : option (gmap pystr pystr))
    : M (pystr * pystr * Z) :=
  try_except
    (user_exists ← _check_user_exists_linux user;
     if negb user_exists then
       mret ([], py "用户不存在: " ++ user, -1)
     else
       let full_command :=
         if truthy working_dir
         then py "cd '" ++ default [] working_dir ++ py "' && " ++ command
         else command in
       let su_command := py "su -l " ++ user ++ py " -c '" ++ full_command ++ py "'" in
       process ← popen h (Shell su_command None (os_environ h)) None;
       communicate process None)
    (fun e =>
       log ERROR (py "Linux用户切换执行失败: " ++ exn_str e);;
       mret ([], exn_str e, -1)).

Definition _execute_as_user_windows (command user : pystr)
    (working_dir : option pystr) (env : option (gmap pystr pystr))
    : M (pystr * pystr * Z) :=
  try_except
    (log WARNING (py "Windows平台用户切换需要密码，当前实现有限");;
     let runas_command := py "runas /user:" ++ user ++ py " " ++ dq ++ command ++ dq in
     process ← popen h (Shell runas_command None (os_environ h)) None;
     communicate process None)
    (fun e =>
       log ERROR (py "Windows用户切换执行失败: " ++ exn_str e);;
       mret ([], exn_str e, -1)).

Definition execute_as_user (command user : pystr)
    (working_dir : option pystr) (env : option (gmap pystr pystr))
    : M (pystr * pystr * Z) :=
  log INFO (py "以用户 " ++ user ++ py " 身份执行命令: " ++ command);;
  if bool_decide (platform = py "linux") then
    _execute_as_user_linux command user working_dir env
  else if bool_decide (platform = py "windows") then
    _execute_as_user_windows command user working_dir env
  else
    log ERROR (py "不支持的平台: " ++ platform);;
    mret ([], py "不支持的平台: " ++ platform, -1).


(** [subprocess.run(['net', 'user', user], ...)] and its return code. *)
Definition _check_user_exists_windows (user : pystr) : M bool :=
  try_except
    (process ← popen h (Argv [py "net"; py "user"; user]) None;
     '(_, _, returncode) ← communicate process None;
     mret (bool_decide (returncode = 0)))
    (fun _ => mret false).

Definition _get_user_info_linux (user : pystr) : M (option (gmap pystr pystr)) :=
  try_except
    (process ← popen h (Argv [py "getent"; py "passwd"; user]) None;
     '(stdout, _, returncode) ← communicate process None;
     if negb (bool_decide (returncode = 0)) then mret None
     else
       let parts := split 58 (strip stdout) in
       if (length parts <? 7)%nat then mret None
       else
         mret (Some (<[py "shell" := part parts 6]>
                    (<[py "home" := part parts 5]>
                    (<[py "gecos" := part parts 4]>
                    (<[py "gid" := part parts 3]>
                    (<[py "uid" := part parts 2]>
                    (<[py "username" := part parts 0]> ∅))))))))
    (fun e =>
       log ERROR (py "获取Linux用户信息失败: " ++ exn_str e);;
       mret None).

(** One turn of the loop of [_get_user_info_windows]. *)
Definition read_account_line (info : gmap pystr pystr) (line : pystr) : gmap pystr pystr :=
  if contains line (py "User name") then
    <[py "username" := last_part (split_ws line)]> info
  else if contains line (py "Full Name") then
    <[py "full_name" := strip (last_part (split_str (py "Full Name") line))]> info
  else if contains line (py "Comment") then
    <[py "comment" := strip (last_part (split_str (py "Comment") line))]> info
  else info.

Definition _get_user_info_windows (user : pystr) : M (option (gmap pystr pystr)) :=
  try_except
    (process ← popen h (Argv [py "net"; py "user"; user]) None;
     '(stdout, _, returncode) ← communicate process None;
     if negb (bool_decide (returncode = 0)) then mret None
     else
       let lines := split 10 (strip stdout) in
       mret (Some (fold_left read_account_line lines ∅)))
    (fun e =>
       log ERROR (py "获取Windows用户信息失败: " ++ exn_str e);;
       mret None).

Definition get_user_info (user : pystr) : M (option (gmap pystr pystr)) :=
  if bool_decide (platform = py "linux") then _get_user_info_linux user
  else if bool_decide (platform = py "windows") then _get_user_info_windows user
  else mret None.

Definition _validate_user_permissions_linux (user : pystr) : M bool :=
  try_except
    (user_exists ← _check_user_exists_linux user;
     if negb user_exists then mret false else mret true)
    (fun e =>
       log ERROR (py "Linux用户权限验证失败: " ++ exn_str e);;
       mret false).

Definition _validate_user_permissions_windows (user : pystr) : M bool :=
  try_except
    (user_exists ← _check_user_exists_windows user;
     if negb user_exists then mret false else mret true)
    (fun e =>
       log ERROR (py "Windows用户权限验证失败: " ++ exn_str e);;
       mret false).

Definition validate_user_permissions (user : pystr) : M bool :=
  if bool_decide (platform = py "linux") then _validate_user_permissions_linux user
  else if bool_decide (platform = py "windows") then _validate_user_permissions_windows user
  else mret false.

(** The loop of [_get_available_users_linux]: the first field of each line. *)
Fixpoint first_fields (lines : list pystr) : list pystr :=
  match lines with
  | [] => []
  | line :: rest =>
      let parts := split 58 line in
      if (1 <=? length parts)%nat
      then part parts 0 :: first_fields rest
      else first_fields rest
  end.

Definition _get_available_users_linux : M (list pystr) :=
  try_except
    (process ← popen h (Argv [py "getent"; py "passwd"]) None;
     '(stdout, _, returncode) ← communicate process None;
     if negb (bool_decide (returncode = 0)) then mret []
     else
       let lines := split 10 (strip stdout) in
       mret (first_fields lines))
    (fun e =>
       log ERROR (py "获取Linux用户列表失败: " ++ exn_str e);;
       mret []).

(** The loop of [_get_available_users_windows] over the remaining lines:
    [start_parsing] and [users] are its two variables. *)
Fixpoint scan_accounts (start_parsing : bool) (users : list pystr) (lines : list pystr)
    : list pystr :=
  match lines with
  | [] => users
  | line :: rest =>
      if contains line (py "User accounts for") then scan_accounts true users rest
      else if start_parsing && negb (bool_decide (strip line = [])) then
        if contains line (py "---") then scan_accounts start_parsing users rest
        else if bool_decide (strip line = []) then scan_accounts start_parsing users rest
        else if contains line (py "The command completed successfully") then users
        else scan_accounts start_parsing (users ++ split_ws (strip line)) rest
      else scan_accounts start_parsing users rest
  end.

Definition _get_available_users_windows : M (list pystr) :=
  try_except
    (process ← popen h (Argv [py "net"; py "user"]) None;
     '(stdout, _, returncode) ← communicate process None;
     if negb (bool_decide (returncode = 0)) then mret []
     else
       let lines := split 10 (strip stdout) in
       mret (scan_accounts false [] lines))
    (fun e =>
       log ERROR (py "获取Windows用户列表失败: " ++ exn_str e);;
       mret []).

Definition get_available_users : M (list pystr) :=
  if bool_decide (platform = py "linux") then _get_available_users_linux
  else if bool_decide (platform = py "windows") then _get_available_users_windows
  else mret [].

End Methods.
End UserSwitch.

(* ===================================================================== *)
(** * script_executor.py: [ScriptExecutor] *)
(* ===================================================================== *)

Module ScriptExecutor.

(** The script kinds: the three strings the detectors return, and whatever
    else reaches the final [else] branches. *)
Inductive script_type := python | shell | powershell | generic.

(** The directive branch of both detectors: [None] when the nested tests
    fall through to the remaining rules. *)
Definition shebang_type (first_line : pystr) : option script_type :=
  if startswith first_line (py "#!/") then
    if contains first_line (py "python") then Some python
    else if contains first_line (py "bash") || contains first_line (py "sh") then Some shell
    else if contains first_line (py "powershell") || contains first_line (py "pwsh")
         then Some powershell
    else None
  else None.

Definition _detect_script_type_from_content (script_content : pystr) : script_type :=
  let lines := split 10 (strip script_content) in
  let directive :=
    match lines with
    | [] => None
    | line :: _ => shebang_type (strip line)
    end in
  match directive with
  | Some t => t
  | None =>
      if startswith (strip script_content) (py "import ")
         || contains script_content (py "def ") then python
      else if startswith (strip script_content) (py "#!")
              || contains script_content (py "echo") then shell
      else if contains script_content (py "Write-Host")
              || contains script_content (py "Get-") then powershell
      else shell
  end.

Definition extension (t : script_type) : pystr :=
  match t with
  | python => py ".py"
  | shell => py ".sh"
  | powershell => py ".ps1"
  | generic => py ".sh"
  end.

(** Joins the lines of a multi-line literal. *)
Definition unlines (ls : list pystr) : pystr := concat (map (fun l => l ++ nl) ls).

Section Methods.
Context (h : host) (cfg : config).

Definition temp_dir : pystr := default (py "/tmp/aiops") (cfg_temp_dir cfg).
Definition platform : pystr := platform_system h.

Definition _create_temp_script (script_content : pystr) (t : script_type) : M pystr :=
  random_str ← random_name h;
  let ext := extension t in
  let temp_path := path_join temp_dir (py "tmp_" ++ random_str ++ ext) in
  write_text h temp_path script_content;;
  os_chmod h temp_path 493%N;;      (* 0o755 *)
  mret temp_path.

Definition _execute_command (command : pystr) (user working_dir : option pystr)
    (env : option (gmap pystr pystr)) : M result :=
  CommandExecutor.execute h cfg command user working_dir env.

Definition _execute_python_script (script_path : pystr) (user working_dir : option pystr)
    (env : option (gmap pystr pystr)) : M result :=
  let command := py "python " ++ dq ++ script_path ++ dq in
  _execute_command command user working_dir env.

Definition _execute_shell_script (script_path : pystr) (user working_dir : option pystr)
    (env : option (gmap pystr pystr)) : M result :=
  let command := py "bash " ++ dq ++ script_path ++ dq in
  _execute_command command user working_dir env.

Definition _execute_powershell_script (script_path : pystr) (user working_dir : option pystr)
    (env : option (gmap pystr pystr)) : M result :=
  let command :=
    if bool_decide (platform = py "windows")
    then py "powershell -File " ++ dq ++ script_path ++ dq
    else py "pwsh -File " ++ dq ++ script_path ++ dq in
  _execute_command command user working_dir env.

Definition _execute_generic_script (script_path : pystr) (user working_dir : option pystr)
    (env : option (gmap pystr pystr)) : M result :=
  let command := dq ++ script_path ++ dq in
  _execute_command command user working_dir env.

Definition _cleanup_temp_file (file_path : pystr) : M unit :=
  try_except
    (present ← path_exists file_path;
     if (present : bool) then os_remove h file_path else mret tt)
    (fun e => log WARNING (py "清理临时文件失败: " ++ exn_str e)).

(** The dispatch on the script kind shared by the two entry points. *)
Definition run_by_type (t : script_type) (path : pystr) (user working_dir : option pystr)
    (env : option (gmap pystr pystr)) : M result :=
  match t with
  | python => _execute_python_script path user working_dir env
  | shell => _execute_shell_script path user working_dir env
  | powershell => _execute_powershell_script path user working_dir env
  | generic => _execute_generic_script path user working_dir env
  end.

Definition failure_result (e : py_exception) : result :=
  {| success := false; output := []; error := exn_str e; return_code := -1 |}.

Definition execute_script_content (script_content : pystr) (user working_dir : option pystr)
    (env : option (gmap pystr pystr)) : M result :=
  log INFO (py "执行动态脚本内容");;
  try_except
    (let script_type := _detect_script_type_from_content script_content in
     temp_script_path ← _create_temp_script script_content script_type;
     result ← run_by_type script_type temp_script_path user working_dir env;
     _cleanup_temp_file temp_script_path;;
     mret result)
    (fun e =>
       log ERROR (py "动态脚本执行失败: " ++ exn_str e);;
       mret (failure_result e)).

Definition _create_wrapper_script (script_content temp_script_path interpreter : pystr)
    : pystr :=
  nl ++ unlines
    [ py "import subprocess";
      py "import os";
      py "import sys";
      py "";
      py "script_content = " ++ dq ++ dq ++ dq ++ script_content ++ dq ++ dq ++ dq;
      py "";
      py "temp_script_path = " ++ dq ++ temp_script_path ++ dq;
      py "";
      py "# 写入原始脚本内容";
      py "with open(temp_script_path, 'w', encoding='utf-8') as f:";
      py "    f.write(script_content)";
      py "";
      py "# 添加执行权限";
      py "os.chmod(temp_script_path, 0o755)";
      py "";
      py "# 执行脚本";
      py "result = subprocess.run([" ++ dq ++ interpreter ++ dq ++ py ", temp_script_path],";
      py "                       capture_output=True, text=True, env=os.environ)";
      py "";
      py "# 输出结果";
      py "print(result.stdout)";
      py "if result.returncode != 0:";
      py "    print(result.stderr, file=sys.stderr)";
      py "";
      py "# 清理临时文件";
      py "os.remove(temp_script_path)";
      py "";
      py "sys.exit(result.returncode)" ].

Definition _execute_python_script_content (script_content : pystr)
    (user working_dir : option pystr) (env : option (gmap pystr pystr)) : M result :=
  temp_python_script ← _create_temp_script script_content python;
  result ← _execute_python_script temp_python_script user working_dir env;
  _cleanup_temp_file temp_python_script;;
  mret result.

Definition interpreter_of (t : script_type) : pystr :=
  match t with
  | python => py "python"
  | shell => py "bash"
  | powershell => if bool_decide (platform = py "windows") then py "powershell" else py "pwsh"
  | generic => py "bash"
  end.

Definition execute_dynamic_wrapper (script_content : pystr) (user working_dir : option pystr)
    (env : option (gmap pystr pystr)) : M result :=
  log INFO (py "执行动态脚本封装");;
  try_except
    (let original_type := _detect_script_type_from_content script_content in
     random_str ← random_name h;
     let ext := extension original_type in
     let interpreter := interpreter_of original_type in
     let temp_script_name := py "tmp_" ++ random_str ++ ext in
     let temp_script_path := path_join temp_dir temp_script_name in
     let wrapper_script := _create_wrapper_script script_content temp_script_path interpreter in
     result ← _execute_python_script_content wrapper_script user working_dir env;
     _cleanup_temp_file temp_script_path;;
     mret result)
    (fun e =>
       log ERROR (py "动态脚本封装执行失败: " ++ exn_str e);;
       mret (failure_result e)).


(** [Path(script_path).suffix] and [str.lower] are taken as given. *)
Context (path_suffix : pystr -> pystr) (lower : pystr -> pystr).

(** [with open(script_path, 'r', encoding='utf-8') as f: f.readline()] *)
Definition read_first_line (script_path : pystr) : M pystr := fun w =>
  match fs_fault h (OpOpen script_path) with
  | Some msg => (Raise (Exception msg), w)
  | None =>
      match fs w !! script_path with
      | Some f => (Return (readline (content f)), w)
      | None => (Raise (Exception (py "[Errno 2] No such file or directory")), w)
      end
  end.

Definition _detect_script_type (script_path : pystr) : M script_type :=
  let ext := lower (path_suffix script_path) in
  first_line ← try_except
                 (line ← read_first_line script_path; mret (strip line))
                 (fun _ => mret []);
  match shebang_type first_line with
  | Some t => mret t
  | None =>
      if bool_decide (ext = py ".py") then mret python
      else if bool_decide (ext ∈ [py ".sh"; py ".bash"]) then mret shell
      else if bool_decide (ext = py ".ps1") then mret powershell
      else mret shell
  end.

Definition execute_script_file (script_path : pystr) (user working_dir : option pystr)
    (env : option (gmap pystr pystr)) : M result :=
  log INFO (py "执行脚本文件: " ++ script_path);;
  present ← path_exists script_path;
  if negb present then
    mret {| success := false;
            output := [];
            error := py "脚本文件不存在: " ++ script_path;
            return_code := -1 |}
  else
    try_except
      (script_type ← _detect_script_type script_path;
       result ← run_by_type script_type script_path user working_dir env;
       mret result)
      (fun e =>
         log ERROR (py "脚本执行失败: " ++ exn_str e);;
         mret (failure_result e)).

End Methods.
End ScriptExecutor.

(* ===================================================================== *)
(** * security.py: [SecurityManager], the token part *)
(* ===================================================================== *)

Module SecurityManager.

(** The values a token payload carries here: strings, integers and lists of
    strings. *)
Inductive pyval :=
  | VStr (s : pystr)
  | VInt (n : Z)
  | VList (items : list pystr).

#[export] Instance pyval_eq_dec : EqDecision pyval.
Proof. solve_decision. Defined.

(** A token as [jwt.decode] sees it: three well-formed segments (the [alg] of
    the header, the claims, the signature), or any other string. *)
Inductive token :=
  | Compact (alg : pystr) (claims : gmap pystr pyval) (signature : pystr)
  | Malformed (raw : pystr).

(** The failures of [jwt.decode] that [verify_jwt_token] tells apart: an
    expired token, any other [InvalidTokenError] of the library, and an
    exception that is not the library's own (a [TypeError]). *)
Inductive jwt_error :=
  | ExpiredSignatureError
  | InvalidTokenError (msg : pystr)
  | TypeError (msg : pystr).

(** Truthiness of a claim value: the empty string, zero and the empty list
    are false. *)
Definition truthy_value (v : pyval) : bool :=
  match v with
  | VStr s => negb (bool_decide (s = []))
  | VInt n => negb (n =? 0)
  | VList items => negb (bool_decide (items = []))
  end.

Section Claims.
(** [int(s)] for a string: the integer it denotes, or nothing when [int]
    raises [ValueError]. The parser of the interpreter is taken as given. *)
Context (int_of_str : pystr -> option Z).

(** [int(payload[claim])], as the library reads a time claim: a
    [ValueError] becomes the library's error with the text [not_integer], a
    [TypeError] (text of Python 3.10 and later) is not caught. *)
Definition int_of_claim (v : pyval) (not_integer : pystr) : jwt_error + Z :=
  match v with
  | VInt n => inr n
  | VStr s =>
      match int_of_str s with
      | Some n => inr n
      | None => inl (InvalidTokenError not_integer)
      end
  | VList _ =>
      inl (TypeError (py "int() argument must be a string, a bytes-like object or a real number, not 'list'"))
  end.

(** Claim validation of [jwt.decode] with default options and no audience,
    issuer or subject asked for (PyJWT 2.10 and later): [iat] and [nbf] must
    not lie in the future, [exp] must lie in the future, an [aud] that is
    not empty is refused, [sub] and [jti] must be strings. *)
Definition check_iat (claims : gmap pystr pyval) (now : Z) : option jwt_error :=
  match claims !! py "iat" with
  | None => None
  | Some v =>
      match int_of_claim v (py "Issued At claim (iat) must be an integer.") with
      | inl e => Some e
      | inr iat =>
          if iat >? now then Some (InvalidTokenError (py "The token is not yet valid (iat)"))
          else None
      end
  end.

Definition check_nbf (claims : gmap pystr pyval) (now : Z) : option jwt_error :=
  match claims !! py "nbf" with
  | None => None
  | Some v =>
      match int_of_claim v (py "Not Before claim (nbf) must be an integer.") with
      | inl e => Some e
      | inr nbf =>
          if nbf >? now then Some (InvalidTokenError (py "The token is not yet valid (nbf)"))
          else None
      end
  end.

Definition check_exp (claims : gmap pystr pyval) (now : Z) : option jwt_error :=
  match claims !! py "exp" with
  | None => None
  | Some v =>
      match int_of_claim v (py "Expiration Time claim (exp) must be an integer.") with
      | inl e => Some e
      | inr exp => if exp <=? now then Some ExpiredSignatureError else None
      end
  end.

Definition check_aud (claims : gmap pystr pyval) : option jwt_error :=
  match claims !! py "aud" with
  | None => None
  | Some v =>
      if truthy_value v then Some (InvalidTokenError (py "Invalid audience")) else None
  end.

Definition check_sub (claims : gmap pystr pyval) : option jwt_error :=
  match claims !! py "sub" with
  | None | Some (VStr _) => None
  | Some _ => Some (InvalidTokenError (py "Subject must be a string"))
  end.

Definition check_jti (claims : gmap pystr pyval) : option jwt_error :=
  match claims !! py "jti" with
  | None | Some (VStr _) => None
  | Some _ => Some (InvalidTokenError (py "JWT ID must be a string"))
  end.

(** The first check that fails decides, in the order of the library. *)
Definition first_error (checks : list (option jwt_error)) : option jwt_error :=
  foldr (fun c rest => match c with Some e => Some e | None => rest end) None checks.

Definition validate_claims (claims : gmap pystr pyval) (now : Z)
    : jwt_error + gmap pystr pyval :=
  match first_error [check_iat claims now; check_nbf claims now; check_exp claims now;
                     check_aud claims; check_sub claims; check_jti claims] with
  | Some e => inl e
  | None => inr claims
  end.

End Claims.

(** [payload.get(key) != value] and the like compare optional values. *)
Definition get (payload : gmap pystr pyval) (key : pystr) : option pyval := payload !! key.

Section Methods.
Context (h : host) (cfg : config).
(** HMAC-SHA256 of the signing input (header and claims) under a key. *)
Context (hmac_sha256 : pystr -> pystr -> gmap pystr pyval -> pystr).
Context (int_of_str : pystr -> option Z).

Definition jwt_secret : pystr := default (py "your-jwt-secret-here") (cfg_jwt_secret cfg).
Definition jwt_expire_hours : Z := default 24 (cfg_jwt_expire_hours cfg).

(** The compact token of a payload signed with HS256. *)
Definition jwt_signed (payload : gmap pystr pyval) (key : pystr) : token :=
  Compact (py "HS256") payload (hmac_sha256 key (py "HS256") payload).

(** [jwt.encode(payload, key, algorithm='HS256')]: an issuer that is not a
    string is refused with a [TypeError] (PyJWT 2.10 and later). *)
Definition jwt_encode (payload : gmap pystr pyval) (key : pystr) : M token :=
  match payload !! py "iss" with
  | None | Some (VStr _) => mret (jwt_signed payload key)
  | Some _ => raise (Exception (py "Issuer (iss) must be a string."))
  end.

(** [jwt.decode(token, key, algorithms=['HS256'])]: structure, algorithm,
    signature, then the claims against the clock. *)
Definition jwt_decode (t : token) (key : pystr) : M (jwt_error + gmap pystr pyval) :=
  match t with
  | Malformed _ => mret (inl (InvalidTokenError (py "Not enough segments")))
  | Compact alg claims signature =>
      if negb (bool_decide (alg = py "HS256")) then
        mret (inl (InvalidTokenError (py "The specified alg value is not allowed")))
      else if negb (bool_decide (signature = hmac_sha256 key alg claims)) then
        mret (inl (InvalidTokenError (py "Signature verification failed")))
      else
        now ← time_now h;
        mret (validate_claims int_of_str claims now)
  end.

Definition generate_jwt_token (payload : gmap pystr pyval) : M token :=
  try_except
    (t_exp ← time_now h;
     let payload := <[py "exp" := VInt (t_exp + jwt_expire_hours * 3600)]> payload in
     t_iat ← time_now h;
     let payload := <[py "iat" := VInt t_iat]> payload in
     jwt_encode payload jwt_secret)
    (fun e =>
       log ERROR (py "生成JWT令牌失败: " ++ exn_str e);;
       raise e).

Definition verify_jwt_token (t : token) : M (option (gmap pystr pyval)) :=
  decoded ← jwt_decode t jwt_secret;
  match decoded with
  | inr payload => mret (Some payload)
  | inl ExpiredSignatureError =>
      log WARNING (py "JWT令牌已过期");;
      mret None
  | inl (InvalidTokenError msg) =>
      log WARNING (py "JWT令牌无效: " ++ msg);;
      mret None
  | inl (TypeError msg) =>
      log ERROR (py "JWT令牌验证失败: " ++ msg);;
      mret None
  end.

Definition generate_api_key (user_id : pystr) (permissions : list pystr)
    : M (pystr * token) :=
  try_except
    (api_key ← random_key h;
     let payload : gmap pystr pyval :=
       <[py "type" := VStr (py "api_key")]>
       (<[py "api_key" := VStr api_key]>
       (<[py "permissions" := VList permissions]>
       (<[py "user_id" := VStr user_id]> ∅))) in
     t ← generate_jwt_token payload;
     mret (api_key, t))
    (fun e =>
       log ERROR (py "生成API密钥失败: " ++ exn_str e);;
       raise e).

(** [not payload]: [None] and the empty dictionary are false. *)
Definition falsy (payload : option (gmap pystr pyval)) : bool :=
  match payload with
  | None => true
  | Some p => bool_decide (p = ∅)
  end.

Definition verify_api_key (api_key : pystr) (t : token) : M bool :=
  try_except
    (payload ← verify_jwt_token t;
     if falsy payload then mret false
     else
       let p := default ∅ payload in
       if negb (bool_decide (get p (py "api_key") = Some (VStr api_key))) then mret false
       else if negb (bool_decide (get p (py "type") = Some (VStr (py "api_key")))) then mret false
       else mret true)
    (fun e =>
       log ERROR (py "API密钥验证失败: " ++ exn_str e);;
       mret false).

(** [permission in user_permissions], by the kind of the container. *)
Definition py_in (x : pystr) (container : pyval) : M bool :=
  match container with
  | VList items => mret (bool_decide (x ∈ items))
  | VStr s => mret (contains s x)
  | VInt _ => raise (Exception (py "argument of type 'int' is not iterable"))
  end.

(** The loop of [validate_token_permissions] over the required list. *)
Fixpoint check_permissions (required_permissions : list pystr) (user_permissions : pyval)
    : M bool :=
  match required_permissions with
  | [] => mret true
  | permission :: rest =>
      held ← py_in permission user_permissions;
      if negb held then
        log WARNING (py "缺少权限: " ++ permission);;
        mret false
      else check_permissions rest user_permissions
  end.

Definition validate_token_permissions (t : token) (required_permissions : list pystr)
    : M bool :=
  try_except
    (payload ← verify_jwt_token t;
     if falsy payload then mret false
     else
       let user_permissions :=
         default (VList []) (get (default ∅ payload) (py "permissions")) in
       check_permissions required_permissions user_permissions)
    (fun e =>
       log ERROR (py "权限验证失败: " ++ exn_str e);;
       mret false).


(** The Fernet primitive is taken as given: the token it builds for a
    plaintext from its random draw and the clock, and what it recovers from a
    token, if anything. *)
Context (fernet_token : pystr -> nat -> Z -> pystr) (fernet_open : pystr -> option pystr).

(** [self.fernet.encrypt(data)] *)
Definition fernet_encrypt (data : pystr) : M pystr := fun w =>
  (Return (fernet_token data (draws w) (time_time h (ticks w))), next_tick (next_draw w)).

(** [self.fernet.decrypt(token)]: [InvalidToken] has an empty message. *)
Definition fernet_decrypt (data : pystr) : M pystr :=
  match fernet_open data with
  | Some plain => mret plain
  | None => raise (Exception [])
  end.

(** [with open(path, 'rb') as f: f.read()] *)
Definition read_bytes (path : pystr) : M pystr := fun w =>
  match fs_fault h (OpOpen path) with
  | Some msg => (Raise (Exception msg), w)
  | None =>
      match fs w !! path with
      | Some f => (Return (content f), w)
      | None => (Raise (Exception (py "[Errno 2] No such file or directory")), w)
      end
  end.

(** [with open(path, 'wb') as f: f.write(data)] *)
Definition write_bytes (path data : pystr) : M unit := fun w =>
  match fs_fault h (OpOpen path) with
  | Some msg => (Raise (Exception msg), w)
  | None =>
      let m := match fs w !! path with Some f => mode f | None => create_mode h end in
      match fs_fault h (OpWrite path) with
      | Some msg =>
          (Raise (Exception msg), set_fs (<[path := {| content := []; mode := m |}]> (fs w)) w)
      | None => (Return tt, set_fs (<[path := {| content := data; mode := m |}]> (fs w)) w)
      end
  end.

Definition encrypt_data (data : pystr) : M pystr :=
  try_except
    (plain ← encode_utf8 data;
     encrypted_data ← fernet_encrypt plain;
     decode_utf8 encrypted_data)
    (fun e =>
       log ERROR (py "数据加密失败: " ++ exn_str e);;
       raise e).

Definition decrypt_data (encrypted_data : pystr) : M pystr :=
  try_except
    (token ← encode_utf8 encrypted_data;
     decrypted_data ← fernet_decrypt token;
     decode_utf8 decrypted_data)
    (fun e =>
       log ERROR (py "数据解密失败: " ++ exn_str e);;
       raise e).

Definition encrypt_file (file_path : pystr) (output_path : option pystr) : M pystr :=
  try_except
    (let output_path :=
       if truthy output_path then default [] output_path else file_path ++ py ".enc" in
     file_data ← read_bytes file_path;
     encrypted_data ← fernet_encrypt file_data;
     write_bytes output_path encrypted_data;;
     mret output_path)
    (fun e =>
       log ERROR (py "文件加密失败: " ++ exn_str e);;
       raise e).

Definition decrypt_file (encrypted_file_path : pystr) (output_path : option pystr)
    : M pystr :=
  try_except
    (let output_path :=
       if truthy output_path then default [] output_path
       else replace encrypted_file_path (py ".enc") [] in
     encrypted_data ← read_bytes encrypted_file_path;
     decrypted_data ← fernet_decrypt encrypted_data;
     write_bytes output_path decrypted_data;;
     mret output_path)
    (fun e =>
       log ERROR (py "文件解密失败: " ++ exn_str e);;
       raise e).

End Methods.
End SecurityManager.

(* ===================================================================== *)
(** * Vocabulary of the properties *)
(* ===================================================================== *)

Module Terms.

(** Empty, or nothing but whitespace. *)
Definition blank (command : pystr) : Prop :=
  command = [] \/ Forall (fun c => is_space c = true) command.

(** POSIX shell, single quotes: the quoted text runs from the opening quote
    to the next single quote, no character can escape one in between.
    [until_quote s] is the text a shell reads when [s] follows an opening
    quote. *)
Fixpoint until_quote (s : pystr) : pystr :=
  match s with
  | [] => []
  | c :: s' => if (c =? 39)%N then [] else c :: until_quote s'
  end.

(** The text the shell finds between the quotes that the identity rewrite
    puts around the command, in a rewritten command line. *)
Definition wrapped_text (user rewritten : pystr) : pystr :=
  until_quote (drop (length (py "su - " ++ user ++ py " -c '")) rewritten).

(** What the size cap does to one stream: [returned] is [text] cut to its
    first [max_output_size] characters and marked, or [text] itself. *)
Definition capped (cfg : config) (text marker returned : pystr) : Prop :=
  let n := Z.to_nat (CommandExecutor.max_output_size cfg) in
  (Z.of_nat (length text) > CommandExecutor.max_output_size cfg ->
     returned = take n text ++ marker
     /\ length (take n text) = n
     /\ (Forall (fun c => (c < 128)%N) (take n text) -> utf8_len (take n text) = n))
  /\ (Z.of_nat (length text) <= CommandExecutor.max_output_size cfg -> returned = text).

(** The first line of a script text, as the content detector reads it. *)
Definition first_line (script_content : pystr) : pystr :=
  strip (hd [] (split 10 (strip script_content))).

(** The path [execute_script_content] gives to the file it creates. *)
Definition script_target (h : host) (cfg : config) (script_content : pystr) (w : world)
    : pystr :=
  path_join (ScriptExecutor.temp_dir cfg)
    (py "tmp_" ++ random_choices h (draws w)
       ++ ScriptExecutor.extension
            (ScriptExecutor._detect_script_type_from_content script_content)).

(** The path [execute_dynamic_wrapper] reserves for the original script. *)
Definition wrapper_target (h : host) (cfg : config) (script_content : pystr) (w : world)
    : pystr :=
  path_join (ScriptExecutor.temp_dir cfg)
    (py "tmp_" ++ random_choices h (draws w)
       ++ ScriptExecutor.extension
            (ScriptExecutor._detect_script_type_from_content script_content)).

(** The generated program [execute_dynamic_wrapper] runs. *)
Definition wrapper_text (h : host) (cfg : config) (script_content : pystr) (w : world)
    : pystr :=
  ScriptExecutor._create_wrapper_script script_content
    (wrapper_target h cfg script_content w)
    (ScriptExecutor.interpreter_of h
       (ScriptExecutor._detect_script_type_from_content script_content)).

(** The payload [generate_api_key] signs, given the key it drew and the two
    readings of the clock. *)
Definition issued_payload (cfg : config) (user_id : pystr) (permissions : list pystr)
    (api_key : pystr) (t_exp t_iat : Z) : gmap pystr SecurityManager.pyval :=
  <[py "iat" := SecurityManager.VInt t_iat]>
  (<[py "exp" := SecurityManager.VInt (t_exp + SecurityManager.jwt_expire_hours cfg * 3600)]>
  (<[py "type" := SecurityManager.VStr (py "api_key")]>
  (<[py "api_key" := SecurityManager.VStr api_key]>
  (<[py "permissions" := SecurityManager.VList permissions]>
  (<[py "user_id" := SecurityManager.VStr user_id]> ∅))))).

(** The command line [execute] hands to the shell: the identity rewrite is
    applied for a user that is neither [None] nor empty, and only on Linux. *)
Definition command_line (h : host) (command : pystr) (user : option pystr) : pystr :=
  if truthy user && bool_decide (platform_system h = py "linux")
  then py "su - " ++ default [] user ++ py " -c '" ++ command ++ py "'"
  else command.

(** The child [execute] starts. *)
Definition execute_child (h : host) (command : pystr) (user working_dir : option pystr)
    (env : option (gmap pystr pystr)) : invocation :=
  Shell (command_line h command user) working_dir (CommandExecutor.merged_env h env).

(** The child [UserSwitch] starts on Linux for a user that exists: a login
    shell of the user, after a change of directory when one is asked for. *)
Definition su_login (h : host) (command user : pystr) (working_dir : option pystr)
    : invocation :=
  Shell (py "su -l " ++ user ++ py " -c '"
           ++ (if truthy working_dir
               then py "cd '" ++ default [] working_dir ++ py "' && " ++ command
               else command)
           ++ py "'")
        None (os_environ h).

(** The child [UserSwitch] starts on Windows. *)
Definition runas (h : host) (command user : pystr) : invocation :=
  Shell (py "runas /user:" ++ user ++ py " " ++ dq ++ command ++ dq) None (os_environ h).

(** The outcome of waiting for a child without a deadline. *)
Definition waited (c : child) : outcome (pystr * pystr * Z) :=
  match c with
  | Exits out err rc => Return (out, err, rc)
  | Outlives => Hang
  | FailsToStart msg => Raise (Exception msg)
  end.

(** A computation that never ends with an exception, in any world. *)
Definition never_raises {A} (m : M A) : Prop :=
  forall w e w', m w <> (Raise e, w').

(** The command line the script executor builds for a script file of a
    kind. *)
Definition script_command (h : host) (t : ScriptExecutor.script_type) (path : pystr)
    : pystr :=
  match t with
  | ScriptExecutor.python => py "python " ++ dq ++ path ++ dq
  | ScriptExecutor.shell => py "bash " ++ dq ++ path ++ dq
  | ScriptExecutor.powershell =>
      if bool_decide (platform_system h = py "windows")
      then py "powershell -File " ++ dq ++ path ++ dq
      else py "pwsh -File " ++ dq ++ path ++ dq
  | ScriptExecutor.generic => dq ++ path ++ dq
  end.

(** A computation that ends with a value in every world: no exception, no
    endless wait. *)
Definition always_returns {A} (m : M A) : Prop :=
  forall w, exists a w', m w = (Return a, w').

End Terms.
Import Terms.

(** Two different literals are different strings. *)
Ltac py_neq := let H := fresh in intros H; vm_compute in H; discriminate H.

Ltac unfold_monad :=
  unfold mbind, mret, M_bind, M_ret, log, raise, try_except in *.

(* ===================================================================== *)
(** * Concrete hosts and inputs used in the examples *)
(* ===================================================================== *)

Module Examples.

Definition world0 : world :=
  {| fs := ∅; spawned := []; killed := []; logged := []; draws := 0%nat; ticks := 0%nat |}.

Definition cfg0 : config :=
  {| cfg_timeout := None; cfg_max_output_size := None; cfg_temp_dir := None;
     cfg_jwt_secret := None; cfg_jwt_expire_hours := None; cfg_aes_key := None |}.

(** [str.lower] restricted to what it does on ASCII letters. *)
Definition ascii_lower (s : pystr) : pystr :=
  map (fun c => if (65 <=? c)%N && (c <=? 90)%N then (c + 32)%N else c) s.

(** A host of the given platform whose children behave as [run] says; no
    file operation fails, the clock stands at [1700000000]. *)
Definition host_of (platform : pystr)
    (run : invocation -> gmap pystr file -> child * gmap pystr file) : host :=
  {| platform_system := platform;
     os_environ := ∅;
     run_child := fun inv _ f => run inv f;
     random_choices := fun _ => py "a1b2c3d4";
     urandom_b64 := fun _ => py "q83vEjRWeJASNFZ4kKvN7xI0VniQq83vEjRWeJASNFY=";
     time_time := fun _ => 1700000000;
     fs_fault := fun _ => None;
     create_mode := 420%N |}.

(** A Linux shell that does not know [invalid_command_xyz]. *)
Definition host_unknown_command : host :=
  host_of (py "linux") (fun inv f =>
    match inv with
    | Shell command _ _ =>
        if bool_decide (command = py "invalid_command_xyz")
        then (Exits [] (py "/bin/sh: 1: invalid_command_xyz: not found" ++ nl) 127, f)
        else (Exits [] [] 0, f)
    | Argv _ => (Exits [] [] 0, f)
    end).

(** A child that prints two CJK characters. *)
Definition host_cjk_output : host :=
  host_of (py "linux") (fun _ f => (Exits (py "中文") [] 0, f)).

Definition cfg_cap (n : Z) : config :=
  {| cfg_timeout := None; cfg_max_output_size := Some n; cfg_temp_dir := None;
     cfg_jwt_secret := None; cfg_jwt_expire_hours := None; cfg_aes_key := None |}.

(** The PowerShell script of [test_detect_script_type_from_content]. *)
Definition pwsh_script : pystr :=
  py "#!/usr/bin/env pwsh" ++ nl ++ py "Write-Host 'hello'".

(** A Linux host on which every child exits with code 0 and touches no
    file. *)
Definition host_quiet : host :=
  host_of (py "linux") (fun _ f => (Exits [] [] 0, f)).

(** The same host, on which files of the scratch directory cannot be
    deleted. *)
Definition host_remove_denied : host :=
  {| platform_system := platform_system host_quiet;
     os_environ := os_environ host_quiet;
     run_child := run_child host_quiet;
     random_choices := random_choices host_quiet;
     urandom_b64 := urandom_b64 host_quiet;
     time_time := time_time host_quiet;
     fs_fault := fun op =>
       match op with
       | OpRemove _ => Some (py "[Errno 13] Permission denied")
       | _ => None
       end;
     create_mode := create_mode host_quiet |}.

(** A script text with a lone surrogate, as [json.loads] builds it from the
    six characters backslash, u, d, 8, 0, 0 inside a string. *)
Definition surrogate_script : pystr := py "echo " ++ [55296%N].

Definition echo_script : pystr := py "#!/bin/bash" ++ nl ++ py "echo test".

(** A Linux host whose identity database has no user [ghost]: [id ghost]
    and [su - ghost ...] both exit with code 1. *)
Definition host_no_ghost : host :=
  host_of (py "linux") (fun inv f =>
    match inv with
    | Argv argv =>
        if bool_decide (argv = [py "id"; py "ghost"])
        then (Exits [] (py "id: 'ghost': no such user" ++ nl) 1, f)
        else (Exits [] [] 0, f)
    | Shell command _ _ =>
        if startswith command (py "su - ghost ") || startswith command (py "su -l ghost ")
        then (Exits [] (py "su: user ghost does not exist" ++ nl) 1, f)
        else (Exits [] [] 0, f)
    end).

(** A stand-in for HMAC-SHA256 in the examples: any function will do, the
    code only compares a recomputed tag with the one in the token. *)
Definition toy_hmac (key alg : pystr) (claims : gmap pystr SecurityManager.pyval) : pystr :=
  key ++ alg.

(** [int] restricted to what it does on plain decimal numerals: ASCII
    digits behind an optional sign. *)
Fixpoint digits_value (s : pystr) (acc : Z) : option Z :=
  match s with
  | [] => Some acc
  | c :: s' =>
      if ((48 <=? c) && (c <=? 57))%N then digits_value s' (acc * 10 + Z.of_N (c - 48))
      else None
  end.

Definition decimal_int (s : pystr) : option Z :=
  match s with
  | [] | [43%N] | [45%N] => None
  | 45%N :: digits => Z.opp <$> digits_value digits 0
  | 43%N :: digits => digits_value digits 0
  | digits => digits_value digits 0
  end.

(** A well-formed token that expired one second before the clock of the
    example hosts. *)
Definition stale_token : SecurityManager.token :=
  SecurityManager.Compact (py "HS256")
    (<[py "exp" := SecurityManager.VInt 1699999999]>
     (<[py "user_id" := SecurityManager.VStr (py "alice")]> ∅))
    (py "c2lnbmF0dXJl").

(** The token [generate_api_key] issues to [alice] for [exec:command]. *)
Definition alice_token : SecurityManager.token :=
  match (SecurityManager.generate_api_key host_quiet cfg0 toy_hmac (py "alice")
           [py "exec:command"] world0).1 with
  | Return (_, t) => t
  | _ => SecurityManager.Malformed []
  end.

(** A Linux host whose children never finish in time. *)
Definition host_sleepy : host :=
  host_of (py "linux") (fun _ f => (Outlives, f)).

(** A Linux host on which no child can be started. *)
Definition host_no_fork : host :=
  host_of (py "linux") (fun _ f =>
    (FailsToStart (py "[Errno 11] Resource temporarily unavailable"), f)).

(** A Windows host and a host of another platform; every child exits with
    code 0 and prints [ok]. *)
Definition host_windows : host :=
  host_of (py "windows") (fun _ f => (Exits (py "ok") [] 0, f)).

Definition host_darwin : host :=
  host_of (py "darwin") (fun _ f => (Exits (py "ok") [] 0, f)).

(** A Linux host that knows every user; a shell command prints [deploy]. *)
Definition host_login : host :=
  host_of (py "linux") (fun inv f =>
    match inv with
    | Argv _ => (Exits [] [] 0, f)
    | Shell _ _ _ => (Exits (py "deploy" ++ nl) [] 0, f)
    end).

(** A Linux host whose [getent passwd alice] prints the record of alice, and
    whose [getent passwd] prints three records. *)
Definition host_getent : host :=
  host_of (py "linux") (fun inv f =>
    match inv with
    | Argv argv =>
        if bool_decide (argv = [py "getent"; py "passwd"; py "alice"])
        then (Exits (py "alice:x:1000:1000:Alice Liddell,,,:/home/alice:/bin/bash" ++ nl) [] 0, f)
        else if bool_decide (argv = [py "getent"; py "passwd"])
        then (Exits (py "root:x:0:0:root:/root:/bin/bash" ++ nl
                     ++ py "daemon:x:1:1:daemon:/usr/sbin:/usr/sbin/nologin" ++ nl
                     ++ py "alice:x:1000:1000:Alice Liddell,,,:/home/alice:/bin/bash" ++ nl)
                    [] 0, f)
        else (Exits [] [] 2, f)
    | Shell _ _ _ => (Exits [] [] 0, f)
    end).

(** A host on which files of the scratch directory cannot be made
    executable. *)
Definition host_chmod_denied : host :=
  {| platform_system := platform_system host_quiet;
     os_environ := os_environ host_quiet;
     run_child := run_child host_quiet;
     random_choices := random_choices host_quiet;
     urandom_b64 := urandom_b64 host_quiet;
     time_time := time_time host_quiet;
     fs_fault := fun op =>
       match op with
       | OpChmod _ => Some (py "[Errno 1] Operation not permitted")
       | _ => None
       end;
     create_mode := create_mode host_quiet |}.


(** [Path(p).suffix] and [str.lower] for the paths of the examples. *)
Definition suffix_of_examples (p : pystr) : pystr :=
  if bool_decide (p = py "/opt/jobs/report.py") then py ".py" else [].

(** A token whose [permissions] entry is one string instead of a list. *)
Definition loose_token : SecurityManager.token :=
  match (SecurityManager.generate_jwt_token host_quiet cfg0 toy_hmac
           (<[py "permissions" := SecurityManager.VStr (py "exec:command")]>
              (<[py "user_id" := SecurityManager.VStr (py "test_user")]> ∅)) world0).1 with
  | Return t => t
  | _ => SecurityManager.Malformed []
  end.

(** A stand-in for Fernet in the examples: a token is the plaintext behind
    a version byte, and only such a token can be opened. *)
Definition toy_fernet_token (data : pystr) (draw : nat) (now : Z) : pystr := 128%N :: data.

Definition toy_fernet_open (token : pystr) : option pystr :=
  match token with
  | 128%N :: data => Some data
  | _ => None
  end.

(** A world with one file to encrypt. *)
Definition world_with_report : world :=
  {| fs := {[ py "/data/report.txt" := {| content := py "q3 figures"; mode := 420 |} ]};
     spawned := []; killed := []; logged := []; draws := 0%nat; ticks := 0%nat |}.

(** A world with one encrypted file that has been tampered with. *)
Definition world_with_damaged : world :=
  {| fs := {[ py "/data/report.txt.enc" := {| content := py "garbage"; mode := 420 |} ]};
     spawned := []; killed := []; logged := []; draws := 0%nat; ticks := 0%nat |}.

(** A world with an encrypted file in a directory whose name has [.enc] in
    it. *)
Definition world_with_nested : world :=
  {| fs := {[ py "/data/old.encrypted/a.txt.enc"
                := {| content := 128%N :: py "hello"; mode := 420 |} ]};
     spawned := []; killed := []; logged := []; draws := 0%nat; ticks := 0%nat |}.

End Examples.

(* ===================================================================== *)
(** * Properties *)
(* ===================================================================== *)

Import Examples.

(** ** Strings *)

Example py_ascii : py "su - " = [115; 117; 32; 45; 32]%N.
Proof. reflexivity. Qed.

Example py_cjk : py "用户" = [29992; 25143]%N.
Proof. reflexivity. Qed.

Example str_of_Z_300 : str_of_Z 300 = py "300".
Proof. vm_compute. reflexivity. Qed.

Example str_of_Z_neg : str_of_Z (-1) = py "-1".
Proof. vm_compute. reflexivity. Qed.

Lemma lstrip_nil (s : pystr) :
  lstrip s = [] <-> Forall (fun c => is_space c = true) s.
Proof.
  induction s as [|c s IH]; simpl.
  - split; auto.
  - destruct (is_space c) eqn:E.
    + rewrite IH. split.
      * intros H. constructor; assumption.
      * intros H. inversion H; assumption.
    + split; [discriminate|].
      intros H. inversion H; congruence.
Qed.

Lemma lstrip_head (s : pystr) c t : lstrip s = c :: t -> is_space c = false.
Proof.
  induction s as [|d s IH]; simpl; [discriminate|].
  destruct (is_space d) eqn:E; [exact IH|].
  intros [= -> _]. exact E.
Qed.

Lemma strip_nil (s : pystr) :
  strip s = [] <-> Forall (fun c => is_space c = true) s.
Proof.
  unfold strip, rstrip. split.
  - intros H.
    assert (Hl : lstrip (rev (lstrip s)) = []).
    { destruct (lstrip (rev (lstrip s))) as [|x l]; [reflexivity|].
      simpl in H. destruct (rev l); discriminate. }
    apply lstrip_nil in Hl.
    apply lstrip_nil.
    destruct (lstrip s) as [|c t] eqn:E; [reflexivity|].
    apply lstrip_head in E.
    rewrite Forall_forall in Hl.
    rewrite (Hl c) in E; [discriminate|].
    apply list_elem_of_In, in_rev. rewrite rev_involutive. left; reflexivity.
  - intros H. apply lstrip_nil in H. rewrite H. reflexivity.
Qed.

(** ** [validate_command] *)

Lemma scan_patterns_returns lower patterns command w :
  (CommandExecutor.scan_patterns lower patterns command w).1 = Return tt.
Proof.
  revert w. induction patterns as [|p ps IH]; intros w; simpl; [reflexivity|].
  unfold_monad. destruct (contains (lower command) p); simpl; apply IH.
Qed.

Lemma scan_patterns_keeps_log lower patterns command w entry :
  entry ∈ logged w ->
  entry ∈ logged (CommandExecutor.scan_patterns lower patterns command w).2.
Proof.
  revert w. induction patterns as [|p ps IH]; intros w Hin; simpl; [exact Hin|].
  unfold_monad. destruct (contains (lower command) p); simpl; apply IH; [|exact Hin].
  unfold add_logged; simpl. apply elem_of_app. left. exact Hin.
Qed.

Lemma scan_patterns_warns lower patterns command w pattern :
  pattern ∈ patterns ->
  contains (lower command) pattern = true ->
  (WARNING, py "检测到危险命令模式: " ++ pattern)
    ∈ logged (CommandExecutor.scan_patterns lower patterns command w).2.
Proof.
  revert w. induction patterns as [|p ps IH]; intros w Hin Hc.
  - inversion Hin.
  - simpl. unfold_monad.
    apply elem_of_cons in Hin as [->|Hin].
    + rewrite Hc. simpl. apply scan_patterns_keeps_log.
      unfold add_logged; simpl. apply elem_of_app. right. apply list_elem_of_singleton.
      reflexivity.
    + destruct (contains (lower command) p); simpl; apply IH; assumption.
Qed.

(** C9. [validate_command] answers [False] exactly for the empty text and for
    a text made only of whitespace. A text that is neither and that matches a
    pattern of the deny list is still accepted: the match only leaves a
    warning in the log. *)
Theorem validate_command_rejects_iff_blank
    (lower : pystr -> pystr) (command : pystr) (w : world) :
  ((CommandExecutor.validate_command lower command w).1 = Return false <-> blank command)
  /\ (~ blank command ->
      (CommandExecutor.validate_command lower command w).1 = Return true
      /\ forall pattern,
           pattern ∈ CommandExecutor.dangerous_patterns ->
           contains (lower command) pattern = true ->
           (WARNING, py "检测到危险命令模式: " ++ pattern)
             ∈ logged (CommandExecutor.validate_command lower command w).2).
Proof.
  unfold CommandExecutor.validate_command, blank.
  destruct command as [|c s].
  - simpl. split; [split; auto|]. intros H. exfalso. apply H. left; reflexivity.
  - cbn [orb].
    destruct (strip (c :: s)) as [|x l] eqn:E.
    + apply strip_nil in E. split; [split; auto|].
      intros H. exfalso. apply H. right; exact E.
    + assert (Hnb : ~ Forall (fun c0 : N => is_space c0 = true) (c :: s)).
      { intros H. apply strip_nil in H. congruence. }
      split.
      * split.
        -- unfold_monad.
           pose proof (scan_patterns_returns lower CommandExecutor.dangerous_patterns (c :: s) w) as Hr.
           destruct (CommandExecutor.scan_patterns lower CommandExecutor.dangerous_patterns (c :: s) w)
             as [[[]| |] w']; simpl in *; discriminate.
        -- intros [H|H]; [discriminate|contradiction].
      * intros _. unfold_monad.
        pose proof (scan_patterns_returns lower CommandExecutor.dangerous_patterns (c :: s) w) as Hr.
        split.
        -- destruct (CommandExecutor.scan_patterns lower CommandExecutor.dangerous_patterns (c :: s) w)
             as [[[]| |] w']; simpl in *; try discriminate; reflexivity.
        -- intros pattern Hin Hc.
           pose proof (scan_patterns_warns lower _ (c :: s) w pattern Hin Hc) as Hw.
           destruct (CommandExecutor.scan_patterns lower CommandExecutor.dangerous_patterns (c :: s) w)
             as [[[]| |] w']; simpl in *; try discriminate; exact Hw.
Qed.

Lemma validate_command_rejects_iff_blank_witness :
  (CommandExecutor.validate_command ascii_lower (py "RM -rf / --no-preserve-root") world0).1
    = Return true
  /\ (WARNING, py "检测到危险命令模式: rm -rf /")
       ∈ logged (CommandExecutor.validate_command ascii_lower
                   (py "RM -rf / --no-preserve-root") world0).2.
Proof.
  assert (Hnb : ~ blank (py "RM -rf / --no-preserve-root")).
  { intros [H|H]; [discriminate H|]. inversion H as [|? ? Hs _]. discriminate Hs. }
  destruct (validate_command_rejects_iff_blank ascii_lower
              (py "RM -rf / --no-preserve-root") world0) as [_ H].
  destruct (H Hnb) as [Hr Hl]. split; [exact Hr|].
  apply (Hl (py "rm -rf /")).
  - apply list_elem_of_In. left. reflexivity.
  - vm_compute. reflexivity.
Defined.

(** ** The identity rewrite of [CommandExecutor] *)

Lemma until_quote_app_quote (c : pystr) :
  until_quote (c ++ sq) = c <-> 39%N ∉ c.
Proof.
  induction c as [|x c IH]; simpl.
  - split; [intros _ H; inversion H | reflexivity].
  - destruct (N.eqb_spec x 39) as [->|Hne].
    + split; [discriminate|]. intros H. exfalso. apply H. left.
    + split.
      * intros [= H]. apply IH in H. intros Hin.
        apply elem_of_cons in Hin as [Hx|Hin]; [congruence|contradiction].
      * intros H. f_equal. apply IH. intros Hin. apply H. right. exact Hin.
Qed.

(** C10. On Linux the identity rewrite returns the user and the command put
    into the template [su - USER -c 'COMMAND'] as they are, without changing
    the world; the text a shell reads between the two quotes of the template
    is the command exactly when the command has no single quote, so for a
    command with a single quote it differs from the command. *)
Theorem prepare_command_with_user_linux
    (h : host) (command user : pystr) (w : world) :
  platform_system h = py "linux" ->
  let rewritten := py "su - " ++ user ++ py " -c '" ++ command ++ py "'" in
  CommandExecutor._prepare_command_with_user h command user w = (Return rewritten, w)
  /\ (39%N ∈ command -> wrapped_text user rewritten <> command)
  /\ (39%N ∉ command -> wrapped_text user rewritten = command).
Proof.
  intros Hp rewritten.
  assert (Hw : wrapped_text user rewritten = until_quote (command ++ sq)).
  { unfold wrapped_text, rewritten.
    replace (py "su - " ++ user ++ py " -c '" ++ command ++ py "'")
      with ((py "su - " ++ user ++ py " -c '") ++ (command ++ sq)).
    - rewrite drop_app_length. reflexivity.
    - rewrite <- !app_assoc. reflexivity. }
  split; [|split].
  - unfold CommandExecutor._prepare_command_with_user, CommandExecutor.platform.
    rewrite Hp. rewrite bool_decide_eq_true_2 by reflexivity. reflexivity.
  - intros Hin Heq. rewrite Hw in Heq. apply until_quote_app_quote in Heq. contradiction.
  - intros Hnin. rewrite Hw. apply until_quote_app_quote. exact Hnin.
Qed.

Lemma prepare_command_with_user_linux_witness :
  CommandExecutor._prepare_command_with_user host_unknown_command
      (py "echo 'hi' > /tmp/x") (py "deploy") world0
    = (Return (py "su - deploy -c 'echo 'hi' > /tmp/x'"), world0)
  /\ wrapped_text (py "deploy") (py "su - deploy -c 'echo 'hi' > /tmp/x'")
       <> py "echo 'hi' > /tmp/x".
Proof.
  destruct (prepare_command_with_user_linux host_unknown_command
              (py "echo 'hi' > /tmp/x") (py "deploy") world0 eq_refl) as (H1 & H2 & _).
  split; [exact H1|].
  apply H2. vm_compute. do 5 right. left.
Defined.

Example wrapped_text_cut :
  wrapped_text (py "deploy") (py "su - deploy -c 'echo 'hi' > /tmp/x'") = py "echo ".
Proof. reflexivity. Qed.

(** ** [_run_command] and [execute] *)

Section RunCommand.
Context (h : host) (cfg : config).
Context (command : pystr) (working_dir : option pystr) (env : option (gmap pystr pystr)).

Let inv : invocation := Shell command working_dir (CommandExecutor.merged_env h env).
Let deadline : option Z := Some (CommandExecutor.timeout cfg).

Lemma run_command_exits w out err rc f' :
  run_child h inv deadline (fs w) = (Exits out err rc, f') ->
  CommandExecutor._run_command h cfg command working_dir env w
  = (Return (CommandExecutor.limit_output cfg out CommandExecutor.stdout_marker,
             CommandExecutor.limit_output cfg err CommandExecutor.stderr_marker,
             rc),
     set_fs f' (add_spawned inv w)).
Proof.
  intros H. unfold CommandExecutor._run_command.
  unfold_monad. unfold popen, communicate. fold inv deadline.
  rewrite H. simpl. reflexivity.
Qed.

Lemma run_command_outlives w f' :
  run_child h inv deadline (fs w) = (Outlives, f') ->
  CommandExecutor._run_command h cfg command working_dir env w
  = (Raise (TimeoutExpired command (CommandExecutor.timeout cfg)),
     add_killed inv (set_fs f' (add_spawned inv w))).
Proof.
  intros H. unfold CommandExecutor._run_command.
  unfold_monad. unfold popen, communicate, kill_wait. fold inv deadline.
  rewrite H. simpl. reflexivity.
Qed.

Lemma run_command_fails_to_start w msg f' :
  run_child h inv deadline (fs w) = (FailsToStart msg, f') ->
  CommandExecutor._run_command h cfg command working_dir env w
  = (Raise (Exception msg), add_spawned inv w).
Proof.
  intros H. unfold CommandExecutor._run_command.
  unfold_monad. unfold popen. fold inv deadline.
  rewrite H. simpl. reflexivity.
Qed.

(** Without a target user, [execute] reports [success=True] whenever the
    child exits, whatever the return code is. *)
Lemma execute_exit_is_success w out err rc f' :
  run_child h inv deadline (fs (add_logged INFO (py "执行命令: " ++ command) w))
    = (Exits out err rc, f') ->
  (CommandExecutor.execute h cfg command None working_dir env w).1
  = Return {| success := true;
              output := CommandExecutor.limit_output cfg out CommandExecutor.stdout_marker;
              error := CommandExecutor.limit_output cfg err CommandExecutor.stderr_marker;
              return_code := rc |}.
Proof.
  intros H. unfold CommandExecutor.execute. simpl.
  unfold mbind at 1. unfold M_bind. unfold log at 1.
  unfold try_except at 1. unfold mbind at 1. unfold M_bind. unfold mret at 1. unfold M_ret.
  unfold try_except at 1. unfold mbind at 1. unfold M_bind.
  rewrite (run_command_exits _ out err rc f' H). reflexivity.
Qed.

End RunCommand.

(** C1. The design asks for [success == (exit_code == 0 and no internal
    error)], and [test_execute_failure] expects [success is False] for a child
    that returns 127. The code sets [success] to [True] on every path that
    does not raise: for the unknown command the result is [success=True] with
    return code 127. *)
Theorem execute_unknown_command_reports_success :
  (CommandExecutor.execute host_unknown_command cfg0
     (py "invalid_command_xyz") None None None world0).1
  = Return {| success := true;
              output := [];
              error := py "/bin/sh: 1: invalid_command_xyz: not found" ++ nl;
              return_code := 127 |}.
Proof. vm_compute. reflexivity. Qed.

(** ** The size cap of [_run_command] *)

Lemma utf8_len_ascii (s : pystr) :
  Forall (fun c => (c < 128)%N) s -> utf8_len s = length s.
Proof.
  induction 1 as [|c s Hc _ IH]; [reflexivity|].
  unfold utf8_len in *. simpl. rewrite IH.
  unfold utf8_width. apply N.ltb_lt in Hc. rewrite Hc. reflexivity.
Qed.

Lemma limit_output_over cfg text marker :
  0 <= CommandExecutor.max_output_size cfg ->
  Z.of_nat (length text) > CommandExecutor.max_output_size cfg ->
  let n := Z.to_nat (CommandExecutor.max_output_size cfg) in
  CommandExecutor.limit_output cfg text marker = take n text ++ marker
  /\ length (take n text) = n.
Proof.
  intros H0 Hgt n. unfold CommandExecutor.limit_output, slice_to.
  replace (_ >? _) with true by (symmetry; apply Z.gtb_lt; lia).
  replace (0 <=? _) with true by (symmetry; apply Z.leb_le; lia).
  split; [reflexivity|].
  rewrite length_take. unfold n. lia.
Qed.

Lemma limit_output_within cfg text marker :
  Z.of_nat (length text) <= CommandExecutor.max_output_size cfg ->
  CommandExecutor.limit_output cfg text marker = text.
Proof.
  intros Hle. unfold CommandExecutor.limit_output.
  destruct (Z.gtb_spec (Z.of_nat (length text)) (CommandExecutor.max_output_size cfg)); [lia|].
  reflexivity.
Qed.

Lemma capped_limit_output cfg text marker :
  0 <= CommandExecutor.max_output_size cfg ->
  capped cfg text marker (CommandExecutor.limit_output cfg text marker).
Proof.
  intros H0. unfold capped. split.
  - intros Hgt.
    destruct (limit_output_over cfg text marker H0 Hgt) as [Heq Hlen].
    split; [exact Heq|]. split; [exact Hlen|].
    intros Hascii. rewrite utf8_len_ascii by exact Hascii. exact Hlen.
  - intros Hle. apply limit_output_within. exact Hle.
Qed.

(** C5, as the code has it. With a non-negative [max_output_size], a stream
    of a child that exits is returned as its first [max_output_size]
    characters followed by the marker of that stream when it is longer than
    [max_output_size] characters, and unchanged otherwise; the two streams are
    cut independently. Characters are code points of the decoded text: the
    kept part is [max_output_size] bytes when it is ASCII. *)
Theorem run_command_truncates_by_characters
    (h : host) (cfg : config) (command : pystr) (working_dir : option pystr)
    (env : option (gmap pystr pystr)) (w : world) out err rc f' :
  0 <= CommandExecutor.max_output_size cfg ->
  run_child h (Shell command working_dir (CommandExecutor.merged_env h env))
    (Some (CommandExecutor.timeout cfg)) (fs w) = (Exits out err rc, f') ->
  exists out' err',
    (CommandExecutor._run_command h cfg command working_dir env w).1
      = Return (out', err', rc)
    /\ capped cfg out CommandExecutor.stdout_marker out'
    /\ capped cfg err CommandExecutor.stderr_marker err'.
Proof.
  intros H0 Hrun.
  rewrite (run_command_exits h cfg command working_dir env w out err rc f' Hrun).
  eexists _, _. split; [reflexivity|].
  split; apply capped_limit_output; exact H0.
Qed.

Lemma run_command_truncates_by_characters_witness :
  exists out' err',
    (CommandExecutor._run_command host_cjk_output (cfg_cap 1)
       (py "cat notes.txt") None None world0).1 = Return (out', err', 0)
    /\ capped (cfg_cap 1) (py "中文") CommandExecutor.stdout_marker out'
    /\ capped (cfg_cap 1) [] CommandExecutor.stderr_marker err'.
Proof.
  apply (run_command_truncates_by_characters host_cjk_output (cfg_cap 1)
           (py "cat notes.txt") None None world0 (py "中文") [] 0 ∅).
  - vm_compute. discriminate.
  - reflexivity.
Defined.

(** C5 as stated fails: the cap counts characters, not bytes. With a cap of
    1, an output of two CJK characters (six bytes) is cut to one character,
    which is three bytes. *)
Lemma run_command_cap_is_not_in_bytes :
  ~ (forall (h : host) (cfg : config) (command : pystr) (working_dir : option pystr)
       (env : option (gmap pystr pystr)) (w : world) out err rc f',
       run_child h (Shell command working_dir (CommandExecutor.merged_env h env))
         (Some (CommandExecutor.timeout cfg)) (fs w) = (Exits out err rc, f') ->
       Z.of_nat (utf8_len out) > CommandExecutor.max_output_size cfg ->
       exists kept err',
         (CommandExecutor._run_command h cfg command working_dir env w).1
           = Return (kept ++ CommandExecutor.stdout_marker, err', rc)
         /\ Z.of_nat (utf8_len kept) = CommandExecutor.max_output_size cfg).
Proof.
  intros claim.
  destruct (claim host_cjk_output (cfg_cap 1) (py "cat notes.txt") None None world0
              (py "中文") [] 0 ∅ eq_refl) as (kept & err' & Hrun & Hlen).
  - vm_compute. reflexivity.
  - assert (Hcode : (CommandExecutor._run_command host_cjk_output (cfg_cap 1)
                       (py "cat notes.txt") None None world0).1
                    = Return (py "中" ++ CommandExecutor.stdout_marker, [], 0))
      by (vm_compute; reflexivity).
    rewrite Hcode in Hrun. injection Hrun as Hkept _.
    apply app_inv_tail in Hkept. subst kept.
    vm_compute in Hlen. discriminate.
Qed.

(** The same six bytes under a cap of 4 come back whole and unmarked: two
    characters do not exceed the cap. *)
Example run_command_six_bytes_under_cap_4 :
  utf8_len (py "中文") = 6%nat
  /\ (CommandExecutor._run_command host_cjk_output (cfg_cap 4)
        (py "cat notes.txt") None None world0).1
     = Return (py "中文", [], 0).
Proof. vm_compute. split; reflexivity. Qed.

(** ** Script classification *)

Lemma startswith_spec (s p : pystr) :
  startswith s p = true <-> exists b, s = p ++ b.
Proof.
  revert s. induction p as [|c p IH]; intros s.
  - split; [intros _; exists s; reflexivity | intros _; destruct s; reflexivity].
  - destruct s as [|d s].
    + split; [discriminate | intros [b Hb]; discriminate Hb].
    + cbn [startswith]. rewrite andb_true_iff, IH, N.eqb_eq. split.
      * intros [-> [b ->]]. exists b. reflexivity.
      * intros [b [= -> ->]]. split; [reflexivity | exists b; reflexivity].
Qed.

Lemma contains_spec (s p : pystr) :
  contains s p = true <-> exists a b, s = a ++ p ++ b.
Proof.
  induction s as [|d s IH].
  - cbn [contains]. rewrite orb_false_r, startswith_spec. split.
    + intros [b Hb]. exists [], b. exact Hb.
    + intros (a & b & H). destruct a; [exists b; exact H | discriminate H].
  - cbn [contains]. rewrite orb_true_iff, IH, startswith_spec. split.
    + intros [[b Hb] | (a & b & ->)].
      * exists [], b. exact Hb.
      * exists (d :: a), b. reflexivity.
    + intros (a & b & H). destruct a as [|x a].
      * left. exists b. exact H.
      * right. injection H as _ ->. exists a, b. reflexivity.
Qed.

Lemma contains_part (s pre p post : pystr) :
  contains s (pre ++ p ++ post) = true -> contains s p = true.
Proof.
  rewrite !contains_spec. intros (a & b & ->).
  exists (a ++ pre), (post ++ b). rewrite <- !app_assoc. reflexivity.
Qed.

Lemma contains_pwsh_sh (s : pystr) :
  contains s (py "pwsh") = true -> contains s (py "sh") = true.
Proof.
  replace (py "pwsh") with (py "pw" ++ py "sh" ++ []) by (vm_compute; reflexivity).
  apply contains_part.
Qed.

Lemma contains_powershell_sh (s : pystr) :
  contains s (py "powershell") = true -> contains s (py "sh") = true.
Proof.
  replace (py "powershell") with (py "power" ++ py "sh" ++ py "ell")
    by (vm_compute; reflexivity).
  apply contains_part.
Qed.

Lemma contains_bash_sh (s : pystr) :
  contains s (py "bash") = true -> contains s (py "sh") = true.
Proof.
  replace (py "bash") with (py "ba" ++ py "sh" ++ []) by (vm_compute; reflexivity).
  apply contains_part.
Qed.

(** The directive branch never answers [powershell]: a line that contains
    [powershell] or [pwsh] contains [sh], which is tested before. *)
Lemma shebang_type_never_powershell (line : pystr) :
  ScriptExecutor.shebang_type line <> Some ScriptExecutor.powershell.
Proof.
  unfold ScriptExecutor.shebang_type.
  destruct (startswith line (py "#!/")); [|discriminate].
  destruct (contains line (py "python")); [discriminate|].
  destruct (contains line (py "sh")) eqn:Hsh.
  - rewrite orb_true_r. discriminate.
  - rewrite orb_false_r.
    destruct (contains line (py "bash")); [discriminate|].
    destruct (contains line (py "powershell")) eqn:Hp.
    { apply contains_powershell_sh in Hp. congruence. }
    destruct (contains line (py "pwsh")) eqn:Hw.
    { apply contains_pwsh_sh in Hw. congruence. }
    discriminate.
Qed.

Lemma detect_by_directive (script_content : pystr) t :
  ScriptExecutor.shebang_type (first_line script_content) = Some t ->
  ScriptExecutor._detect_script_type_from_content script_content = t.
Proof.
  unfold ScriptExecutor._detect_script_type_from_content, first_line.
  destruct (split 10 (strip script_content)) as [|l ls]; simpl.
  - intros H. vm_compute in H. discriminate H.
  - intros ->. reflexivity.
Qed.

(** What the detector does with a first line that starts with [#!/]: [python]
    wins, then [sh] (which every [bash], [pwsh] and [powershell] contains). *)
Lemma detect_directive_cases (script_content : pystr) :
  startswith (first_line script_content) (py "#!/") = true ->
  (contains (first_line script_content) (py "python") = true ->
     ScriptExecutor._detect_script_type_from_content script_content = ScriptExecutor.python)
  /\ (contains (first_line script_content) (py "python") = false ->
      contains (first_line script_content) (py "sh") = true ->
     ScriptExecutor._detect_script_type_from_content script_content = ScriptExecutor.shell).
Proof.
  intros Hs. split.
  - intros Hp. apply detect_by_directive. unfold ScriptExecutor.shebang_type.
    rewrite Hs, Hp. reflexivity.
  - intros Hp Hsh. apply detect_by_directive. unfold ScriptExecutor.shebang_type.
    rewrite Hs, Hp, Hsh, orb_true_r. reflexivity.
Qed.

(** C4. The design and [test_detect_script_type_from_content] classify a
    script whose directive names [pwsh] as powershell. The code answers
    [shell]: [sh] is a part of [pwsh] and is tested first. *)
Theorem detect_pwsh_directive_answers_shell :
  startswith (first_line pwsh_script) (py "#!") = true
  /\ contains (first_line pwsh_script) (py "pwsh") = true
  /\ ScriptExecutor._detect_script_type_from_content pwsh_script = ScriptExecutor.shell.
Proof. vm_compute. repeat split; reflexivity. Qed.

(** No directive that names [pwsh] or [powershell] is classified as
    powershell, whatever follows it. *)
Lemma detect_powershell_directive_unreachable (script_content : pystr) :
  startswith (first_line script_content) (py "#!/") = true ->
  contains (first_line script_content) (py "powershell") = true
  \/ contains (first_line script_content) (py "pwsh") = true ->
  ScriptExecutor._detect_script_type_from_content script_content <> ScriptExecutor.powershell.
Proof.
  intros Hs Hc.
  assert (Hsh : contains (first_line script_content) (py "sh") = true).
  { destruct Hc as [H|H]; [apply contains_powershell_sh | apply contains_pwsh_sh]; exact H. }
  destruct (detect_directive_cases script_content Hs) as [Hpy Hshell].
  destruct (contains (first_line script_content) (py "python")) eqn:Hp.
  - rewrite Hpy by reflexivity. discriminate.
  - rewrite Hshell by (reflexivity || exact Hsh). discriminate.
Qed.

Example detect_bash_directive :
  ScriptExecutor._detect_script_type_from_content (py "#!/bin/bash" ++ nl ++ py "echo test")
  = ScriptExecutor.shell.
Proof. vm_compute. reflexivity. Qed.

Example detect_python_directive :
  ScriptExecutor._detect_script_type_from_content
    (py "#!/usr/bin/env python" ++ nl ++ py "print('hello')")
  = ScriptExecutor.python.
Proof. vm_compute. reflexivity. Qed.

(** A directive that does not start with [#!/] is not read as one. *)
Example detect_directive_with_space :
  ScriptExecutor._detect_script_type_from_content
    (py "#! /usr/bin/python3" ++ nl ++ py "print('hello')")
  = ScriptExecutor.shell.
Proof. vm_compute. reflexivity. Qed.

(** ** [execute] always returns a result *)

Lemma prepare_command_returns h command user w :
  exists command' w',
    CommandExecutor._prepare_command_with_user h command user w = (Return command', w')
    /\ fs w' = fs w.
Proof.
  unfold CommandExecutor._prepare_command_with_user.
  repeat case_bool_decide; unfold_monad; eauto.
Qed.

Lemma run_command_cases h cfg command working_dir env w :
  (exists r w', CommandExecutor._run_command h cfg command working_dir env w = (Return r, w'))
  \/ (exists e w', CommandExecutor._run_command h cfg command working_dir env w = (Raise e, w')).
Proof.
  destruct (run_child h (Shell command working_dir (CommandExecutor.merged_env h env))
              (Some (CommandExecutor.timeout cfg)) (fs w)) as [[out err rc| |msg] f'] eqn:E.
  - left. rewrite (run_command_exits _ _ _ _ _ _ _ _ _ _ E). eauto.
  - right. rewrite (run_command_outlives _ _ _ _ _ _ _ E). eauto.
  - right. rewrite (run_command_fails_to_start _ _ _ _ _ _ _ _ E). eauto.
Qed.

(** No exception and no endless wait leaves [execute]: every path ends in a
    result dictionary. *)
Lemma execute_returns h cfg command user working_dir env w :
  exists r w', CommandExecutor.execute h cfg command user working_dir env w = (Return r, w').
Proof.
  unfold CommandExecutor.execute.
  unfold mbind at 1. unfold M_bind. unfold log at 1.
  set (w1 := add_logged _ _ w).
  unfold try_except at 1. unfold mbind at 1. unfold M_bind.
  assert (Hprep : exists command' w2,
            (if truthy user
             then CommandExecutor._prepare_command_with_user h command (default [] user)
             else mret command) w1 = (Return command', w2)).
  { destruct (truthy user).
    - destruct (prepare_command_returns h command (default [] user) w1) as (c & w2 & H & _).
      eauto.
    - unfold_monad. eauto. }
  destruct Hprep as (command' & w2 & ->).
  unfold try_except at 1. unfold mbind at 1. unfold M_bind.
  destruct (run_command_cases h cfg command' working_dir env w2)
    as [(r & w3 & ->) | (e & w3 & ->)].
  - unfold_monad. eauto.
  - destruct e; unfold_monad; eauto.
Qed.

(** ** The life of an ephemeral script file *)

Lemma cleanup_temp_file_spec h path w :
  exists w',
    ScriptExecutor._cleanup_temp_file h path w = (Return tt, w')
    /\ (fs_fault h (OpRemove path) = None -> fs w' !! path = None)
    /\ (forall q, fs w !! q = None -> fs w' !! q = None).
Proof.
  unfold ScriptExecutor._cleanup_temp_file, try_except, path_exists.
  unfold mbind, M_bind.
  destruct (fs w !! path) as [f|] eqn:E.
  - rewrite bool_decide_eq_true_2 by eauto.
    unfold os_remove. rewrite E.
    destruct (fs_fault h (OpRemove path)) as [msg|] eqn:F.
    + unfold log. eexists. split; [reflexivity|]. split; [discriminate|].
      intros q Hq. exact Hq.
    + eexists. split; [reflexivity|]. simpl. split.
      * intros _. apply lookup_delete_eq.
      * intros q Hq. destruct (decide (path = q)) as [->|Hne].
        -- apply lookup_delete_eq.
        -- rewrite lookup_delete_ne by exact Hne. exact Hq.
  - rewrite bool_decide_eq_false_2 by (intros [x Hx]; discriminate Hx).
    unfold mret, M_ret. eexists. split; [reflexivity|]. split; [intros _; exact E|].
    intros q Hq. exact Hq.
Qed.

Lemma run_by_type_returns h cfg t path user working_dir env w :
  exists r w', ScriptExecutor.run_by_type h cfg t path user working_dir env w = (Return r, w').
Proof.
  destruct t; simpl;
    unfold ScriptExecutor._execute_python_script, ScriptExecutor._execute_shell_script,
      ScriptExecutor._execute_powershell_script, ScriptExecutor._execute_generic_script,
      ScriptExecutor._execute_command;
    apply execute_returns.
Qed.

Lemma execute_script_content_cleans h cfg script_content user working_dir env w path w2 :
  ScriptExecutor._create_temp_script h cfg script_content
    (ScriptExecutor._detect_script_type_from_content script_content)
    (add_logged INFO (py "执行动态脚本内容") w) = (Return path, w2) ->
  exists r w',
    ScriptExecutor.execute_script_content h cfg script_content user working_dir env w
      = (Return r, w')
    /\ (fs_fault h (OpRemove path) = None -> fs w' !! path = None).
Proof.
  intros Hcreate.
  unfold ScriptExecutor.execute_script_content.
  unfold mbind at 1. unfold M_bind. unfold log at 1.
  unfold try_except at 1. unfold mbind at 1. unfold M_bind.
  rewrite Hcreate.
  unfold mbind at 1. unfold M_bind.
  destruct (run_by_type_returns h cfg
              (ScriptExecutor._detect_script_type_from_content script_content)
              path user working_dir env w2) as (r & w3 & ->).
  unfold mbind at 1. unfold M_bind.
  destruct (cleanup_temp_file_spec h path w3) as (w4 & -> & Hgone & _).
  unfold mret, M_ret. eauto.
Qed.

Lemma execute_dynamic_wrapper_cleans h cfg script_content user working_dir env w path w2 :
  ScriptExecutor._create_temp_script h cfg (wrapper_text h cfg script_content w)
    ScriptExecutor.python
    (next_draw (add_logged INFO (py "执行动态脚本封装") w)) = (Return path, w2) ->
  exists r w',
    ScriptExecutor.execute_dynamic_wrapper h cfg script_content user working_dir env w
      = (Return r, w')
    /\ (fs_fault h (OpRemove path) = None -> fs w' !! path = None)
    /\ (fs_fault h (OpRemove (wrapper_target h cfg script_content w)) = None ->
        fs w' !! wrapper_target h cfg script_content w = None).
Proof.
  intros Hcreate.
  unfold ScriptExecutor.execute_dynamic_wrapper.
  unfold mbind at 1. unfold M_bind. unfold log at 1.
  unfold try_except at 1. unfold mbind at 1. unfold M_bind.
  unfold random_name at 1. cbn [draws add_logged].
  unfold mbind at 1. unfold M_bind.
  unfold ScriptExecutor._execute_python_script_content.
  unfold mbind at 1. unfold M_bind.
  fold (wrapper_target h cfg script_content w).
  fold (wrapper_text h cfg script_content w).
  rewrite Hcreate.
  unfold mbind at 1. unfold M_bind.
  unfold ScriptExecutor._execute_python_script, ScriptExecutor._execute_command.
  destruct (execute_returns h cfg (py "python " ++ dq ++ path ++ dq)
              user working_dir env w2) as (r & w3 & ->).
  unfold mbind at 1. unfold M_bind.
  destruct (cleanup_temp_file_spec h path w3) as (w4 & -> & Hgone & _).
  unfold mret at 1. unfold M_ret.
  unfold mbind at 1. unfold M_bind.
  destruct (cleanup_temp_file_spec h (wrapper_target h cfg script_content w) w4)
    as (w5 & -> & Hgone' & Hkeep).
  unfold mret, M_ret. eexists _, _. split; [reflexivity|]. split.
  - intros Hf. apply Hkeep, Hgone, Hf.
  - exact Hgone'.
Qed.

(** C3, as the code has it. When the ephemeral file has been written and
    made executable without an error, [execute_script_content] returns a
    result whatever the execution did (exit code, timeout, failure to start)
    and has tried to delete the file; the file is gone when the deletion is
    not refused. The wrapped variant does the same for the file of the
    generated program and for the path it reserves for the original script. *)
Theorem script_file_removed_once_materialised
    (h : host) (cfg : config) (script_content : pystr) (user working_dir : option pystr)
    (env : option (gmap pystr pystr)) (w : world) :
  (forall path w2,
     ScriptExecutor._create_temp_script h cfg script_content
       (ScriptExecutor._detect_script_type_from_content script_content)
       (add_logged INFO (py "执行动态脚本内容") w) = (Return path, w2) ->
     fs_fault h (OpRemove path) = None ->
     exists r w',
       ScriptExecutor.execute_script_content h cfg script_content user working_dir env w
         = (Return r, w')
       /\ fs w' !! path = None)
  /\ (forall path w2,
        ScriptExecutor._create_temp_script h cfg (wrapper_text h cfg script_content w)
          ScriptExecutor.python
          (next_draw (add_logged INFO (py "执行动态脚本封装") w)) = (Return path, w2) ->
        fs_fault h (OpRemove path) = None ->
        fs_fault h (OpRemove (wrapper_target h cfg script_content w)) = None ->
        exists r w',
          ScriptExecutor.execute_dynamic_wrapper h cfg script_content user working_dir env w
            = (Return r, w')
          /\ fs w' !! path = None
          /\ fs w' !! wrapper_target h cfg script_content w = None).
Proof.
  split.
  - intros path w2 Hcreate Hrm.
    destruct (execute_script_content_cleans h cfg script_content user working_dir env w
                path w2 Hcreate) as (r & w' & Hrun & Hgone).
    exists r, w'. split; [exact Hrun | apply Hgone, Hrm].
  - intros path w2 Hcreate Hrm Hrm'.
    destruct (execute_dynamic_wrapper_cleans h cfg script_content user working_dir env w
                path w2 Hcreate) as (r & w' & Hrun & Hgone & Hgone').
    exists r, w'. split; [exact Hrun|]. split; [apply Hgone, Hrm | apply Hgone', Hrm'].
Qed.

Lemma script_file_removed_once_materialised_witness :
  (exists r w',
     ScriptExecutor.execute_script_content host_quiet cfg0 echo_script None None None world0
       = (Return r, w')
     /\ fs w' !! py "/tmp/aiops/tmp_a1b2c3d4.sh" = None)
  /\ (exists r w',
        ScriptExecutor.execute_dynamic_wrapper host_quiet cfg0 echo_script None None None world0
          = (Return r, w')
        /\ fs w' !! py "/tmp/aiops/tmp_a1b2c3d4.py" = None
        /\ fs w' !! wrapper_target host_quiet cfg0 echo_script world0 = None).
Proof.
  destruct (script_file_removed_once_materialised host_quiet cfg0 echo_script
              None None None world0) as [Hcontent Hwrapped].
  split.
  - eapply Hcontent; [vm_compute; reflexivity | reflexivity].
  - eapply Hwrapped; [vm_compute; reflexivity | reflexivity | reflexivity].
Defined.

(** C3 as stated fails, in two ways. On a host where no file operation
    fails, a script text with a lone surrogate is refused by the text-mode
    write after the file has been opened: the exception skips the cleanup and
    the (empty) file stays. And where deletion is refused, the file of a
    script that ran normally stays: [_cleanup_temp_file] only logs. *)
Lemma script_file_can_outlive_execution :
  ~ (forall (h : host) (cfg : config) (script_content : pystr)
       (user working_dir : option pystr) (env : option (gmap pystr pystr)) (w : world),
       (forall op, fs_fault h op = None) ->
       exists r w',
         ScriptExecutor.execute_script_content h cfg script_content user working_dir env w
           = (Return r, w')
         /\ fs w' !! script_target h cfg script_content w = None)
  /\ ~ (forall (h : host) (cfg : config) (script_content : pystr)
          (user working_dir : option pystr) (env : option (gmap pystr pystr)) (w : world),
          encodable script_content = true ->
          (forall path, fs_fault h (OpOpen path) = None
                        /\ fs_fault h (OpWrite path) = None
                        /\ fs_fault h (OpChmod path) = None) ->
          exists r w',
            ScriptExecutor.execute_script_content h cfg script_content user working_dir env w
              = (Return r, w')
            /\ fs w' !! script_target h cfg script_content w = None).
Proof.
  split.
  - intros claim.
    destruct (claim host_quiet cfg0 surrogate_script None None None world0)
      as (r & w' & Hrun & Hgone); [reflexivity|].
    vm_compute in Hrun. injection Hrun as _ <-.
    vm_compute in Hgone. discriminate Hgone.
  - intros claim.
    destruct (claim host_remove_denied cfg0 echo_script None None None world0)
      as (r & w' & Hrun & Hgone); [reflexivity | intros path; repeat split |].
    vm_compute in Hrun. injection Hrun as _ <-.
    vm_compute in Hgone. discriminate Hgone.
Qed.

Example surrogate_script_leaves_file :
  let '(r, w') := ScriptExecutor.execute_script_content host_quiet cfg0 surrogate_script
                    None None None world0 in
  r = Return {| success := false; output := [];
                error := py "'utf-8' codec can't encode character '\ud800' in position 5: surrogates not allowed";
                return_code := -1 |}
  /\ fs w' !! py "/tmp/aiops/tmp_a1b2c3d4.sh" = Some {| content := []; mode := 420 |}
  /\ spawned w' = [].
Proof. vm_compute. repeat split; reflexivity. Qed.

(** ** Switching to an identity that does not exist *)

Lemma check_user_exists_linux_missing h user w out err rc f' :
  run_child h (Argv [py "id"; user]) None (fs w) = (Exits out err rc, f') ->
  rc <> 0 ->
  UserSwitch._check_user_exists_linux h user w
  = (Return false, set_fs f' (add_spawned (Argv [py "id"; user]) w)).
Proof.
  intros Hid Hrc. unfold UserSwitch._check_user_exists_linux.
  unfold_monad. unfold popen, communicate. rewrite Hid. simpl.
  rewrite bool_decide_eq_false_2 by exact Hrc. reflexivity.
Qed.




Example execute_under_missing_identity :
  let '(r, w') := CommandExecutor.execute host_no_ghost cfg0 (py "whoami")
                    (Some (py "ghost")) None None world0 in
  r = Return {| success := true; output := [];
                error := py "su: user ghost does not exist" ++ nl;
                return_code := 1 |}
  /\ spawned w' = [Shell (py "su - ghost -c 'whoami'") None ∅].
Proof. vm_compute. repeat split; reflexivity. Qed.

(** ** Tokens *)

Section Tokens.
Import SecurityManager.
Context (h : host) (cfg : config).
Context (hmac_sha256 : pystr -> pystr -> gmap pystr pyval -> pystr).
Context (int_of_str : pystr -> option Z).

Lemma issued_payload_lookups user_id permissions api_key t_exp t_iat :
  let p := issued_payload cfg user_id permissions api_key t_exp t_iat in
  p !! py "iat" = Some (VInt t_iat)
  /\ p !! py "nbf" = None
  /\ p !! py "exp" = Some (VInt (t_exp + jwt_expire_hours cfg * 3600))
  /\ p !! py "user_id" = Some (VStr user_id)
  /\ p !! py "permissions" = Some (VList permissions).
Proof.
  unfold issued_payload. split; [|split; [|split; [|split]]].
  - apply lookup_insert_eq.
  - repeat (rewrite lookup_insert_ne by py_neq). apply lookup_empty.
  - rewrite lookup_insert_ne by py_neq. apply lookup_insert_eq.
  - repeat (rewrite lookup_insert_ne by py_neq). apply lookup_insert_eq.
  - repeat (rewrite lookup_insert_ne by py_neq). apply lookup_insert_eq.
Qed.

(** The payload of an issued token has none of the registered claims that
    the library checks besides [iat] and [exp]. *)
Lemma issued_payload_unregistered user_id permissions api_key t_exp t_iat :
  let p := issued_payload cfg user_id permissions api_key t_exp t_iat in
  p !! py "iss" = None /\ p !! py "aud" = None
  /\ p !! py "sub" = None /\ p !! py "jti" = None.
Proof.
  unfold issued_payload.
  split; [|split; [|split]];
    repeat (rewrite lookup_insert_ne by py_neq); apply lookup_empty.
Qed.

Lemma jwt_encode_without_issuer (p : gmap pystr pyval) key w :
  p !! py "iss" = None ->
  jwt_encode hmac_sha256 p key w = (Return (jwt_signed hmac_sha256 p key), w).
Proof. intros Hiss. unfold jwt_encode. rewrite Hiss. reflexivity. Qed.

Lemma generate_api_key_returns user_id permissions w :
  generate_api_key h cfg hmac_sha256 user_id permissions w
  = (Return (urandom_b64 h (draws w),
             jwt_signed hmac_sha256
               (issued_payload cfg user_id permissions (urandom_b64 h (draws w))
                  (time_time h (ticks w)) (time_time h (S (ticks w))))
               (jwt_secret cfg)),
     next_tick (next_tick (next_draw w))).
Proof.
  destruct (issued_payload_unregistered user_id permissions (urandom_b64 h (draws w))
              (time_time h (ticks w)) (time_time h (S (ticks w)))) as (Hiss & _).
  unfold generate_api_key, generate_jwt_token, random_key, time_now.
  unfold try_except, mbind, M_bind. cbn [draws ticks next_draw next_tick].
  fold (issued_payload cfg user_id permissions (urandom_b64 h (draws w))
          (time_time h (ticks w)) (time_time h (S (ticks w)))).
  rewrite jwt_encode_without_issuer by exact Hiss.
  reflexivity.
Qed.

(** Claims whose [iat] and [exp] are integers around the clock, and that
    carry no [nbf], [aud], [sub] or [jti], pass the validation. *)
Lemma validate_claims_in_window (p : gmap pystr pyval) now iat exp :
  p !! py "iat" = Some (VInt iat) ->
  p !! py "nbf" = None ->
  p !! py "exp" = Some (VInt exp) ->
  p !! py "aud" = None -> p !! py "sub" = None -> p !! py "jti" = None ->
  iat <= now < exp ->
  validate_claims int_of_str p now = inr p.
Proof.
  intros Hi Hn He Ha Hs Hj Hw.
  unfold validate_claims, check_iat, check_nbf, check_exp, check_aud, check_sub, check_jti.
  rewrite Hi, Hn, He, Ha, Hs, Hj. cbn [int_of_claim].
  replace (iat >? now) with false by (symmetry; rewrite Z.gtb_ltb; apply Z.ltb_ge; lia).
  replace (exp <=? now) with false by (symmetry; apply Z.leb_gt; lia).
  reflexivity.
Qed.

Lemma verify_signed_payload (p : gmap pystr pyval) w :
  validate_claims int_of_str p (time_time h (ticks w)) = inr p ->
  verify_jwt_token h cfg hmac_sha256 int_of_str (jwt_signed hmac_sha256 p (jwt_secret cfg)) w
  = (Return (Some p), next_tick w).
Proof.
  intros Hv. unfold verify_jwt_token, jwt_decode, jwt_signed.
  rewrite !bool_decide_eq_true_2 by reflexivity. cbn [negb].
  unfold_monad. unfold time_now. rewrite Hv. reflexivity.
Qed.

Lemma verify_expired (alg : pystr) claims signature exp w :
  claims !! py "exp" = Some (VInt exp) ->
  exp <= time_time h (ticks w) ->
  (verify_jwt_token h cfg hmac_sha256 int_of_str (Compact alg claims signature) w).1 = Return None.
Proof.
  intros Hexp Hle. unfold verify_jwt_token, jwt_decode.
  destruct (bool_decide (alg = py "HS256")); cbn [negb]; [|reflexivity].
  destruct (bool_decide (signature = hmac_sha256 (jwt_secret cfg) alg claims));
    cbn [negb]; [|reflexivity].
  unfold_monad. unfold time_now. unfold validate_claims. cbn [first_error foldr].
  destruct (check_iat int_of_str claims (time_time h (ticks w))) as [[|msg|msg]|];
    [reflexivity..|].
  destruct (check_nbf int_of_str claims (time_time h (ticks w))) as [[|msg|msg]|];
    [reflexivity..|].
  unfold check_exp. rewrite Hexp. cbn [int_of_claim].
  replace (exp <=? time_time h (ticks w)) with true by (symmetry; apply Z.leb_le; exact Hle).
  reflexivity.
Qed.

(** C7. A token issued by [generate_api_key] and verified while the clock is
    between its issue time and its expiry carries the subject and the
    capability list it was issued for; a well-formed token whose [exp] is not
    later than the clock is answered with [None], whatever its signature. *)
Theorem issued_token_round_trip
    (user_id : pystr) (permissions : list pystr) (w wv : world) :
  (time_time h (S (ticks w)) <= time_time h (ticks wv) ->
   time_time h (ticks wv) < time_time h (ticks w) + jwt_expire_hours cfg * 3600 ->
   exists api_key t w1 payload wv',
     generate_api_key h cfg hmac_sha256 user_id permissions w = (Return (api_key, t), w1)
     /\ verify_jwt_token h cfg hmac_sha256 int_of_str t wv = (Return (Some payload), wv')
     /\ payload !! py "user_id" = Some (VStr user_id)
     /\ payload !! py "permissions" = Some (VList permissions))
  /\ (forall (alg : pystr) claims signature exp,
        claims !! py "exp" = Some (VInt exp) ->
        exp <= time_time h (ticks wv) ->
        (verify_jwt_token h cfg hmac_sha256 int_of_str (Compact alg claims signature) wv).1
          = Return None).
Proof.
  split.
  - intros Hiat Hexp.
    rewrite generate_api_key_returns.
    set (p := issued_payload cfg user_id permissions (urandom_b64 h (draws w))
                (time_time h (ticks w)) (time_time h (S (ticks w)))).
    destruct (issued_payload_lookups user_id permissions (urandom_b64 h (draws w))
                (time_time h (ticks w)) (time_time h (S (ticks w))))
      as (Li & Ln & Le & Lu & Lp).
    fold p in Li, Ln, Le, Lu, Lp.
    exists (urandom_b64 h (draws w)), (jwt_signed hmac_sha256 p (jwt_secret cfg)),
      (next_tick (next_tick (next_draw w))), p, (next_tick wv).
    destruct (issued_payload_unregistered user_id permissions (urandom_b64 h (draws w))
                (time_time h (ticks w)) (time_time h (S (ticks w))))
      as (_ & La & Ls & Lj).
    fold p in La, Ls, Lj.
    split; [reflexivity|]. split; [|split; assumption].
    apply verify_signed_payload.
    apply (validate_claims_in_window p _ _ _ Li Ln Le La Ls Lj). lia.
  - intros alg claims signature exp. apply verify_expired.
Qed.

End Tokens.

Lemma issued_token_round_trip_witness :
  (exists api_key t w1 payload wv',
     SecurityManager.generate_api_key host_quiet cfg0 toy_hmac (py "alice")
       [py "exec:command"] world0 = (Return (api_key, t), w1)
     /\ SecurityManager.verify_jwt_token host_quiet cfg0 toy_hmac decimal_int t world0
        = (Return (Some payload), wv')
     /\ payload !! py "user_id" = Some (SecurityManager.VStr (py "alice"))
     /\ payload !! py "permissions" = Some (SecurityManager.VList [py "exec:command"]))
  /\ (SecurityManager.verify_jwt_token host_quiet cfg0 toy_hmac decimal_int stale_token world0).1
     = Return None.
Proof.
  destruct (issued_token_round_trip host_quiet cfg0 toy_hmac decimal_int (py "alice")
              [py "exec:command"] world0 world0) as [Hfresh Hstale].
  split.
  - apply Hfresh; vm_compute; [discriminate | reflexivity].
  - apply (Hstale (py "HS256") _ (py "c2lnbmF0dXJl") 1699999999).
    + vm_compute. reflexivity.
    + vm_compute. discriminate.
Defined.

(** ** Capability check *)

Section Capabilities.
Import SecurityManager.
Context (h : host) (cfg : config).
Context (hmac_sha256 : pystr -> pystr -> gmap pystr pyval -> pystr).
Context (int_of_str : pystr -> option Z).

Lemma check_permissions_list required caps w :
  (check_permissions required (VList caps) w).1
  = Return (forallb (fun c => bool_decide (c ∈ caps)) required).
Proof.
  revert w. induction required as [|c required IH]; intros w; [reflexivity|].
  cbn [check_permissions py_in forallb]. unfold_monad.
  destruct (bool_decide (c ∈ caps)); cbn [negb andb]; [apply IH | reflexivity].
Qed.

Lemma validate_token_permissions_verified t required w payload w1 caps :
  verify_jwt_token h cfg hmac_sha256 int_of_str t w = (Return (Some payload), w1) ->
  payload <> ∅ ->
  default (VList []) (payload !! py "permissions") = VList caps ->
  (validate_token_permissions h cfg hmac_sha256 int_of_str t required w).1
  = Return (forallb (fun c => bool_decide (c ∈ caps)) required).
Proof.
  intros Hv Hne Hcaps. unfold validate_token_permissions.
  unfold try_except at 1. unfold mbind at 1. unfold M_bind.
  rewrite Hv. unfold falsy. rewrite bool_decide_eq_false_2 by exact Hne.
  unfold get. change (default ∅ (Some payload)) with payload. rewrite Hcaps.
  pose proof (check_permissions_list required caps w1) as Hc.
  destruct (check_permissions required (VList caps) w1) as [[b|e|] w2];
    simpl in Hc; try discriminate Hc.
  exact Hc.
Qed.

Lemma validate_token_permissions_unverified t required w w1 :
  verify_jwt_token h cfg hmac_sha256 int_of_str t w = (Return None, w1) ->
  (validate_token_permissions h cfg hmac_sha256 int_of_str t required w).1 = Return false.
Proof.
  intros Hv. unfold validate_token_permissions.
  unfold try_except at 1. unfold mbind at 1. unfold M_bind.
  rewrite Hv. reflexivity.
Qed.

(** C6, as the code has it. For a token that [verify_jwt_token] accepts with
    a payload that is not empty and whose permissions are the list [caps]
    (no entry stands for the empty list): the check succeeds exactly when
    every required string is in [caps]; so it succeeds for the empty
    requirement, and for a single [c] exactly when [c] is in [caps]. For a
    token that is not accepted the check fails, whatever is required. *)
Theorem validate_token_permissions_of_verified_token (t : token) (w : world) :
  (forall (payload : gmap pystr pyval) (w1 : world) (caps : list pystr),
     verify_jwt_token h cfg hmac_sha256 int_of_str t w = (Return (Some payload), w1) ->
     payload <> ∅ ->
     default (VList []) (payload !! py "permissions") = VList caps ->
     (validate_token_permissions h cfg hmac_sha256 int_of_str t [] w).1 = Return true
     /\ (forall c,
           (validate_token_permissions h cfg hmac_sha256 int_of_str t [c] w).1 = Return true
           <-> c ∈ caps)
     /\ (forall required,
           (validate_token_permissions h cfg hmac_sha256 int_of_str t required w).1 = Return true
           <-> forall c, c ∈ required -> c ∈ caps))
  /\ (forall (w1 : world) (required : list pystr),
        verify_jwt_token h cfg hmac_sha256 int_of_str t w = (Return None, w1) ->
        (validate_token_permissions h cfg hmac_sha256 int_of_str t required w).1 = Return false).
Proof.
  split; [|intros w1 required Hv; exact (validate_token_permissions_unverified t required w w1 Hv)].
  intros payload w1 caps Hv Hne Hcaps.
  assert (Hall : forall required,
            (validate_token_permissions h cfg hmac_sha256 int_of_str t required w).1 = Return true
            <-> forall c, c ∈ required -> c ∈ caps).
  { intros required.
    rewrite (validate_token_permissions_verified t required w payload w1 caps Hv Hne Hcaps).
    split.
    - intros [= Hb] c Hc. rewrite forallb_forall in Hb.
      apply list_elem_of_In, Hb, bool_decide_eq_true in Hc. exact Hc.
    - intros Hsub. f_equal. apply forallb_forall. intros c Hc.
      apply bool_decide_eq_true, Hsub, list_elem_of_In, Hc. }
  split; [|split].
  - apply Hall. intros c Hc. inversion Hc.
  - intros c. rewrite Hall. split.
    + intros Hsub. apply Hsub. left.
    + intros Hc c' Hc'. apply list_elem_of_singleton in Hc'. subst c'. exact Hc.
  - exact Hall.
Qed.

End Capabilities.

Lemma validate_token_permissions_of_verified_token_witness :
  (SecurityManager.validate_token_permissions host_quiet cfg0 toy_hmac decimal_int alice_token
     [] world0).1 = Return true
  /\ (SecurityManager.validate_token_permissions host_quiet cfg0 toy_hmac decimal_int alice_token
        [py "exec:command"] world0).1 = Return true
  /\ (SecurityManager.validate_token_permissions host_quiet cfg0 toy_hmac decimal_int alice_token
        [py "admin:all"] world0).1 <> Return true.
Proof.
  destruct (validate_token_permissions_of_verified_token host_quiet cfg0 toy_hmac decimal_int
              alice_token world0) as [Haccepted _].
  edestruct Haccepted as (Hnone & Hone & _).
  - vm_compute. reflexivity.
  - intros Hempty. apply (f_equal (fun m => m !! py "user_id")) in Hempty.
    vm_compute in Hempty. discriminate Hempty.
  - vm_compute. reflexivity.
  - split; [exact Hnone|]. split.
    + apply Hone. left.
    + intros Hadmin. apply Hone in Hadmin.
      apply list_elem_of_singleton in Hadmin. vm_compute in Hadmin. discriminate Hadmin.
Defined.

(** C6 as stated fails: the check first verifies the token, and a token that
    is not accepted fails it even when nothing is required. *)
Lemma empty_requirement_fails_for_rejected_token :
  ~ (forall (h : host) (cfg : config)
       (hmac_sha256 : pystr -> pystr -> gmap pystr SecurityManager.pyval -> pystr)
       (int_of_str : pystr -> option Z)
       (t : SecurityManager.token) (w : world),
       (SecurityManager.validate_token_permissions h cfg hmac_sha256 int_of_str t [] w).1
       = Return true).
Proof.
  intros claim.
  specialize (claim host_quiet cfg0 toy_hmac decimal_int
                (SecurityManager.Malformed (py "not-a-token")) world0).
  vm_compute in claim. discriminate claim.
Qed.

Example empty_requirement_fails_for_stale_token :
  (SecurityManager.validate_token_permissions host_quiet cfg0 toy_hmac decimal_int stale_token
     [] world0).1 = Return false.
Proof. vm_compute. reflexivity. Qed.

(* ===================================================================== *)
(** * Further properties of the code *)
(* ===================================================================== *)

(** ** [execute]: one child, three outcomes *)

Lemma execute_prepares h command user w :
  exists w2,
    (if truthy user
     then CommandExecutor._prepare_command_with_user h command (default [] user)
     else mret command) w = (Return (command_line h command user), w2)
    /\ fs w2 = fs w /\ spawned w2 = spawned w /\ killed w2 = killed w.
Proof.
  unfold command_line.
  destruct (truthy user); cbn [andb].
  - unfold CommandExecutor._prepare_command_with_user, CommandExecutor.platform.
    destruct (bool_decide (platform_system h = py "linux")).
    + eexists. split; [reflexivity|]. auto.
    + destruct (bool_decide (platform_system h = py "windows"));
        unfold_monad; eexists; (split; [reflexivity|]); auto.
  - eexists. split; [reflexivity|]. auto.
Qed.

(** What [execute] does, by the behaviour of the one child it starts. *)
Lemma execute_by_child h cfg command user working_dir env w :
  let inv := execute_child h command user working_dir env in
  exists r w',
    CommandExecutor.execute h cfg command user working_dir env w = (Return r, w')
    /\ spawned w' = spawned w ++ [inv]
    /\ match run_child h inv (Some (CommandExecutor.timeout cfg)) (fs w) with
       | (Exits out err rc, f') =>
           r = {| success := true;
                  output := CommandExecutor.limit_output cfg out CommandExecutor.stdout_marker;
                  error := CommandExecutor.limit_output cfg err CommandExecutor.stderr_marker;
                  return_code := rc |}
           /\ killed w' = killed w /\ fs w' = f'
       | (Outlives, f') =>
           r = {| success := false;
                  output := [];
                  error := py "命令执行超时（超过 " ++ str_of_Z (CommandExecutor.timeout cfg)
                             ++ py " 秒）";
                  return_code := -1 |}
           /\ killed w' = killed w ++ [inv] /\ fs w' = f'
       | (FailsToStart msg, _) =>
           r = {| success := false; output := []; error := msg; return_code := -1 |}
           /\ killed w' = killed w /\ fs w' = fs w
       end.
Proof.
  intros inv.
  unfold CommandExecutor.execute.
  unfold mbind at 1. unfold M_bind. unfold log at 1.
  set (w1 := add_logged _ _ w).
  unfold try_except at 1. unfold mbind at 1. unfold M_bind.
  destruct (execute_prepares h command user w1) as (w2 & -> & Hfs & Hsp & Hk).
  change (fs w1) with (fs w) in Hfs. change (spawned w1) with (spawned w) in Hsp.
  change (killed w1) with (killed w) in Hk.
  unfold try_except at 1. unfold mbind at 1. unfold M_bind.
  fold (execute_child h command user working_dir env). fold inv.
  rewrite <- Hfs.
  destruct (run_child h inv (Some (CommandExecutor.timeout cfg)) (fs w2))
    as [[out err rc| |msg] f'] eqn:E.
  - rewrite (run_command_exits h cfg _ working_dir env w2 out err rc f' E).
    unfold_monad. eexists _, _. split; [reflexivity|]. cbn. rewrite Hsp, Hk. auto.
  - rewrite (run_command_outlives h cfg _ working_dir env w2 f' E).
    unfold_monad. eexists _, _. split; [reflexivity|]. cbn. rewrite Hsp, Hk. auto.
  - rewrite (run_command_fails_to_start h cfg _ working_dir env w2 msg f' E).
    unfold_monad. eexists _, _. split; [reflexivity|]. cbn. rewrite Hsp, Hk. auto.
Qed.

(** X1. A child that is still running at the deadline: [execute] kills it
    and answers with a failure that names the deadline. *)
Theorem execute_timeout_kills_and_reports
    (h : host) (cfg : config) (command : pystr) (user working_dir : option pystr)
    (env : option (gmap pystr pystr)) (w : world) f' :
  run_child h (execute_child h command user working_dir env)
    (Some (CommandExecutor.timeout cfg)) (fs w) = (Outlives, f') ->
  exists w',
    CommandExecutor.execute h cfg command user working_dir env w
    = (Return {| success := false;
                 output := [];
                 error := py "命令执行超时（超过 " ++ str_of_Z (CommandExecutor.timeout cfg)
                            ++ py " 秒）";
                 return_code := -1 |}, w')
    /\ killed w' = killed w ++ [execute_child h command user working_dir env]
    /\ spawned w' = spawned w ++ [execute_child h command user working_dir env].
Proof.
  intros Hrun.
  destruct (execute_by_child h cfg command user working_dir env w) as (r & w' & Hex & Hsp & Hcase).
  rewrite Hrun in Hcase. destruct Hcase as (-> & Hk & _).
  exists w'. auto.
Qed.

(** X2. A child that cannot be started: the exception does not leave
    [execute]; its text is the error of a failure result, nothing is killed
    and no file is touched. *)
Theorem execute_spawn_failure_is_a_result
    (h : host) (cfg : config) (command : pystr) (user working_dir : option pystr)
    (env : option (gmap pystr pystr)) (w : world) msg f' :
  run_child h (execute_child h command user working_dir env)
    (Some (CommandExecutor.timeout cfg)) (fs w) = (FailsToStart msg, f') ->
  exists w',
    CommandExecutor.execute h cfg command user working_dir env w
    = (Return {| success := false; output := []; error := msg; return_code := -1 |}, w')
    /\ killed w' = killed w
    /\ fs w' = fs w.
Proof.
  intros Hrun.
  destruct (execute_by_child h cfg command user working_dir env w) as (r & w' & Hex & Hsp & Hcase).
  rewrite Hrun in Hcase. destruct Hcase as (-> & Hk & Hfs).
  exists w'. auto.
Qed.

(** X3. [execute] never raises and never waits for ever: it returns a
    result after starting exactly one child, and a result that reports a
    failure has the return code -1 and no output. *)
Theorem execute_one_child_one_result
    (h : host) (cfg : config) (command : pystr) (user working_dir : option pystr)
    (env : option (gmap pystr pystr)) (w : world) :
  exists r w',
    CommandExecutor.execute h cfg command user working_dir env w = (Return r, w')
    /\ spawned w' = spawned w ++ [execute_child h command user working_dir env]
    /\ (success r = false -> return_code r = -1 /\ output r = []).
Proof.
  destruct (execute_by_child h cfg command user working_dir env w) as (r & w' & Hex & Hsp & Hcase).
  exists r, w'. split; [exact Hex|]. split; [exact Hsp|].
  destruct (run_child h _ _ (fs w)) as [[out err rc| |msg] f'];
    destruct Hcase as (-> & _ & _); cbn; intros Hs; (discriminate Hs || auto).
Qed.

(** X4. The environment of the child: a variable of the overlay has the
    value of the overlay, every other variable the value it has in the
    environment of the agent. *)
Theorem merged_env_overlays (h : host) (env : option (gmap pystr pystr)) (name : pystr) :
  CommandExecutor.merged_env h env !! name
  = match env with
    | Some e =>
        match e !! name with
        | Some v => Some v
        | None => os_environ h !! name
        end
    | None => os_environ h !! name
    end.
Proof.
  unfold CommandExecutor.merged_env. destruct env as [e|]; [|reflexivity].
  case_bool_decide as He.
  - subst e. rewrite lookup_empty. reflexivity.
  - rewrite lookup_union. destruct (e !! name), (os_environ h !! name); reflexivity.
Qed.

Lemma execute_timeout_kills_and_reports_witness :
  exists w',
    CommandExecutor.execute host_sleepy cfg0 (py "sleep 600") None None None world0
    = (Return {| success := false;
                 output := [];
                 error := py "命令执行超时（超过 300 秒）";
                 return_code := -1 |}, w')
    /\ killed w' = [Shell (py "sleep 600") None ∅]
    /\ spawned w' = [Shell (py "sleep 600") None ∅].
Proof.
  destruct (execute_timeout_kills_and_reports host_sleepy cfg0 (py "sleep 600")
              None None None world0 ∅ eq_refl) as (w' & Hex & Hk & Hsp).
  exists w'. split; [|split].
  - rewrite Hex. vm_compute. reflexivity.
  - rewrite Hk. vm_compute. reflexivity.
  - rewrite Hsp. vm_compute. reflexivity.
Defined.

Lemma execute_spawn_failure_is_a_result_witness :
  exists w',
    CommandExecutor.execute host_no_fork cfg0 (py "ls") None None None world0
    = (Return {| success := false; output := [];
                 error := py "[Errno 11] Resource temporarily unavailable";
                 return_code := -1 |}, w')
    /\ killed w' = []
    /\ fs w' = ∅.
Proof.
  apply (execute_spawn_failure_is_a_result host_no_fork cfg0 (py "ls")
           None None None world0 _ ∅ eq_refl).
Defined.






(** X7. A negative cap cuts every stream, also an empty one: the stream
    loses its last characters (as many as the cap is below zero) and gets the
    marker. *)
Theorem limit_output_negative_cap (cfg : config) (text marker : pystr) :
  CommandExecutor.max_output_size cfg < 0 ->
  CommandExecutor.limit_output cfg text marker
  = take (length text - Z.to_nat (- CommandExecutor.max_output_size cfg)) text ++ marker.
Proof.
  intros Hneg. unfold CommandExecutor.limit_output, slice_to.
  replace (_ >? _) with true by (symmetry; apply Z.gtb_lt; lia).
  replace (0 <=? _) with false by (symmetry; apply Z.leb_gt; lia).
  f_equal. f_equal. lia.
Qed.

Lemma limit_output_negative_cap_witness :
  CommandExecutor.limit_output (cfg_cap (-1)) (py "abc") CommandExecutor.stdout_marker
  = py "ab" ++ CommandExecutor.stdout_marker
  /\ CommandExecutor.limit_output (cfg_cap (-1)) [] CommandExecutor.stdout_marker
     = CommandExecutor.stdout_marker.
Proof.
  split.
  - rewrite (limit_output_negative_cap (cfg_cap (-1)) (py "abc")) by (vm_compute; reflexivity).
    vm_compute. reflexivity.
  - rewrite (limit_output_negative_cap (cfg_cap (-1)) []) by (vm_compute; reflexivity).
    reflexivity.
Defined.

(** ** [UserSwitch]: running a command as another user *)

Lemma check_user_exists_linux_found h user w out err f' :
  run_child h (Argv [py "id"; user]) None (fs w) = (Exits out err 0, f') ->
  UserSwitch._check_user_exists_linux h user w
  = (Return true, set_fs f' (add_spawned (Argv [py "id"; user]) w)).
Proof.
  intros Hid. unfold UserSwitch._check_user_exists_linux.
  unfold_monad. unfold popen, communicate. rewrite Hid. reflexivity.
Qed.

(** X8. On a platform that is neither Linux nor Windows [execute_as_user]
    refuses with the code -1 and the name of the platform, without starting
    any child. *)
Theorem execute_as_user_unsupported_platform
    (h : host) (command user : pystr) (working_dir : option pystr)
    (env : option (gmap pystr pystr)) (w : world) :
  platform_system h <> py "linux" ->
  platform_system h <> py "windows" ->
  exists w',
    UserSwitch.execute_as_user h command user working_dir env w
    = (Return ([], py "不支持的平台: " ++ platform_system h, -1), w')
    /\ spawned w' = spawned w /\ fs w' = fs w.
Proof.
  intros Hl Hw. unfold UserSwitch.execute_as_user, UserSwitch.platform.
  rewrite (bool_decide_eq_false_2 _ Hl), (bool_decide_eq_false_2 _ Hw).
  unfold_monad. eexists. split; [reflexivity|]. split; reflexivity.
Qed.

Lemma execute_as_user_unsupported_platform_witness :
  exists w',
    UserSwitch.execute_as_user host_darwin (py "ls -la") (py "testuser") None None world0
    = (Return ([], py "不支持的平台: darwin", -1), w')
    /\ spawned w' = [] /\ fs w' = ∅.
Proof.
  apply (execute_as_user_unsupported_platform host_darwin (py "ls -la") (py "testuser")
           None None world0); vm_compute; discriminate.
Defined.

(** X9. On Linux, for a user that [id] knows, [execute_as_user] starts one
    more child, the login shell of the user, without a deadline and without
    the environment overlay: it returns the output and the code of that child
    uncut, waits for ever when the child does not end, and turns a failure to
    start it into the code -1. *)
Theorem execute_as_user_runs_login_shell
    (h : host) (command user : pystr) (working_dir : option pystr)
    (env : option (gmap pystr pystr)) (w : world) out err f1 :
  platform_system h = py "linux" ->
  run_child h (Argv [py "id"; user]) None (fs w) = (Exits out err 0, f1) ->
  let su := su_login h command user working_dir in
  let c := (run_child h su None f1).1 in
  exists w',
    UserSwitch.execute_as_user h command user working_dir env w
    = (match c with
       | FailsToStart msg => Return ([], msg, -1)
       | _ => waited c
       end, w')
    /\ spawned w' = spawned w ++ [Argv [py "id"; user]; su]
    /\ killed w' = killed w.
Proof.
  intros Hp Hid su c.
  unfold UserSwitch.execute_as_user, UserSwitch.platform.
  rewrite Hp. rewrite bool_decide_eq_true_2 by reflexivity.
  unfold mbind at 1. unfold M_bind. unfold log at 1.
  unfold UserSwitch._execute_as_user_linux.
  unfold try_except at 1. unfold mbind at 1. unfold M_bind.
  rewrite (check_user_exists_linux_found h user
             (add_logged INFO (py "以用户 " ++ user ++ py " 身份执行命令: " ++ command) w)
             out err f1 Hid).
  cbn [negb]. fold (su_login h command user working_dir). fold su.
  unfold_monad. unfold popen, communicate. cbn [fs set_fs add_spawned].
  subst c. destruct (run_child h su None f1) as [[o e rc| |msg] f2]; cbn;
    (eexists; split; [reflexivity|]); cbn; rewrite <- ?app_assoc; auto.
Qed.

Lemma execute_as_user_runs_login_shell_witness :
  exists w',
    UserSwitch.execute_as_user host_login (py "whoami") (py "deploy") (Some (py "/srv"))
      (Some {[py "LANG" := py "C"]}) world0
    = (Return (py "deploy" ++ nl, [], 0), w')
    /\ spawned w'
       = [Argv [py "id"; py "deploy"];
          Shell (py "su -l deploy -c 'cd '/srv' && whoami'") None ∅]
    /\ killed w' = [].
Proof.
  destruct (execute_as_user_runs_login_shell host_login (py "whoami") (py "deploy")
              (Some (py "/srv")) (Some {[py "LANG" := py "C"]}) world0 [] [] ∅
              eq_refl eq_refl) as (w' & Hex & Hsp & Hk).
  exists w'. split; [|split].
  - rewrite Hex. vm_compute. reflexivity.
  - rewrite Hsp. vm_compute. reflexivity.
  - exact Hk.
Defined.

(** X10. On Windows [execute_as_user] looks nobody up: its only child is
    [runas /user:USER "COMMAND"], started without a deadline; the working
    directory and the environment overlay are not used. *)
Theorem execute_as_user_windows_runs_runas
    (h : host) (command user : pystr) (working_dir : option pystr)
    (env : option (gmap pystr pystr)) (w : world) :
  platform_system h = py "windows" ->
  let c := (run_child h (runas h command user) None (fs w)).1 in
  exists w',
    UserSwitch.execute_as_user h command user working_dir env w
    = (match c with
       | FailsToStart msg => Return ([], msg, -1)
       | _ => waited c
       end, w')
    /\ spawned w' = spawned w ++ [runas h command user]
    /\ killed w' = killed w.
Proof.
  intros Hp c.
  assert (Hl : platform_system h <> py "linux").
  { rewrite Hp. py_neq. }
  unfold UserSwitch.execute_as_user, UserSwitch.platform.
  rewrite (bool_decide_eq_false_2 _ Hl). rewrite Hp.
  rewrite bool_decide_eq_true_2 by reflexivity.
  unfold UserSwitch._execute_as_user_windows.
  fold (runas h command user).
  unfold_monad. unfold popen, communicate. cbn [fs set_fs add_spawned add_logged].
  subst c. destruct (run_child h (runas h command user) None (fs w)) as [[o e rc| |msg] f2];
    cbn; (eexists; split; [reflexivity|]); cbn; auto.
Qed.

Lemma execute_as_user_windows_runs_runas_witness :
  exists w',
    UserSwitch.execute_as_user host_windows (py "dir") (py "admin") (Some (py "C:\Temp"))
      None world0
    = (Return (py "ok", [], 0), w')
    /\ spawned w' = [Shell (py "runas /user:admin " ++ dq ++ py "dir" ++ dq) None ∅]
    /\ killed w' = [].
Proof.
  destruct (execute_as_user_windows_runs_runas host_windows (py "dir") (py "admin")
              (Some (py "C:\Temp")) None world0 eq_refl) as (w' & Hex & Hsp & Hk).
  exists w'. split; [|split].
  - rewrite Hex. vm_compute. reflexivity.
  - rewrite Hsp. vm_compute. reflexivity.
  - exact Hk.
Defined.

(** X11. [validate_user_permissions] is the existence check and nothing
    more: on Linux it answers whether [id USER] exits with code 0, with that
    query as its only child; on a platform that is neither Linux nor Windows
    it answers [False] without a child. *)
Theorem validate_user_permissions_is_existence
    (h : host) (user : pystr) (w : world) :
  (platform_system h = py "linux" ->
   forall out err rc f1,
     run_child h (Argv [py "id"; user]) None (fs w) = (Exits out err rc, f1) ->
     exists w',
       UserSwitch.validate_user_permissions h user w = (Return (bool_decide (rc = 0)), w')
       /\ spawned w' = spawned w ++ [Argv [py "id"; user]])
  /\ (platform_system h <> py "linux" ->
      platform_system h <> py "windows" ->
      UserSwitch.validate_user_permissions h user w = (Return false, w)).
Proof.
  unfold UserSwitch.validate_user_permissions, UserSwitch.platform. split.
  - intros Hp out err rc f1 Hid. rewrite Hp. rewrite bool_decide_eq_true_2 by reflexivity.
    unfold UserSwitch._validate_user_permissions_linux.
    unfold try_except at 1. unfold mbind at 1. unfold M_bind.
    destruct (decide (rc = 0)) as [->|Hrc].
    + rewrite (check_user_exists_linux_found h user w out err f1 Hid).
      eexists. split; [reflexivity|]. reflexivity.
    + rewrite (check_user_exists_linux_missing h user w out err rc f1 Hid Hrc).
      rewrite (bool_decide_eq_false_2 _ Hrc).
      eexists. split; [reflexivity|]. reflexivity.
  - intros Hl Hw.
    rewrite (bool_decide_eq_false_2 _ Hl), (bool_decide_eq_false_2 _ Hw). reflexivity.
Qed.

Lemma validate_user_permissions_is_existence_witness :
  (exists w',
     UserSwitch.validate_user_permissions host_no_ghost (py "ghost") world0
       = (Return false, w')
     /\ spawned w' = [Argv [py "id"; py "ghost"]])
  /\ UserSwitch.validate_user_permissions host_darwin (py "root") world0
     = (Return false, world0).
Proof.
  split.
  - destruct (validate_user_permissions_is_existence host_no_ghost (py "ghost") world0)
      as [Hlinux _].
    apply (Hlinux eq_refl [] (py "id: 'ghost': no such user" ++ nl) 1 ∅).
    vm_compute. reflexivity.
  - destruct (validate_user_permissions_is_existence host_darwin (py "root") world0)
      as [_ Hother].
    apply Hother; vm_compute; discriminate.
Defined.

(** ** [UserSwitch]: no exception leaves the queries *)

Lemma never_raises_mret {A} (a : A) : never_raises (mret a).
Proof. intros w e w'. unfold_monad. discriminate. Qed.

Lemma never_raises_bind {A B} (m : M A) (f : A -> M B) :
  never_raises m -> (forall a, never_raises (f a)) -> never_raises (m ≫= f).
Proof.
  intros Hm Hf w e w'. unfold mbind, M_bind.
  destruct (m w) as [[a|e0|] w0] eqn:E.
  - apply Hf.
  - exfalso. exact (Hm w e0 w0 E).
  - discriminate.
Qed.

Lemma never_raises_log l msg : never_raises (log l msg).
Proof. intros w e w'. unfold log. discriminate. Qed.

Lemma never_raises_try_except {A} (m : M A) handler :
  (forall e, never_raises (handler e)) -> never_raises (try_except m handler).
Proof.
  intros Hh w e w'. unfold try_except.
  destruct (m w) as [[a|e0|] w0]; [discriminate | apply Hh | discriminate].
Qed.

Lemma never_raises_log_then {A} l msg (a : A) : never_raises (log l msg;; mret a).
Proof. apply never_raises_bind; [apply never_raises_log | intros; apply never_raises_mret]. Qed.

(** X12. No exception leaves [execute_as_user], [get_user_info],
    [get_available_users] or [validate_user_permissions]: a child that cannot
    be started, or whose output cannot be read, ends in the error answer of
    the method. *)
Theorem user_switch_never_raises
    (h : host) (command user : pystr) (working_dir : option pystr)
    (env : option (gmap pystr pystr)) :
  never_raises (UserSwitch.execute_as_user h command user working_dir env)
  /\ never_raises (UserSwitch.get_user_info h user)
  /\ never_raises (UserSwitch.get_available_users h)
  /\ never_raises (UserSwitch.validate_user_permissions h user).
Proof.
  split; [|split; [|split]].
  - unfold UserSwitch.execute_as_user.
    apply never_raises_bind; [apply never_raises_log|]. intros _.
    repeat case_bool_decide.
    + apply never_raises_try_except. intros e. apply never_raises_log_then.
    + apply never_raises_try_except. intros e. apply never_raises_log_then.
    + apply never_raises_log_then.
  - unfold UserSwitch.get_user_info. repeat case_bool_decide.
    + apply never_raises_try_except. intros e. apply never_raises_log_then.
    + apply never_raises_try_except. intros e. apply never_raises_log_then.
    + apply never_raises_mret.
  - unfold UserSwitch.get_available_users. repeat case_bool_decide.
    + apply never_raises_try_except. intros e. apply never_raises_log_then.
    + apply never_raises_try_except. intros e. apply never_raises_log_then.
    + apply never_raises_mret.
  - unfold UserSwitch.validate_user_permissions. repeat case_bool_decide.
    + apply never_raises_try_except. intros e. apply never_raises_log_then.
    + apply never_raises_try_except. intros e. apply never_raises_log_then.
    + apply never_raises_mret.
Qed.

(** ** [UserSwitch]: reading the identity database *)

Lemma split_no_sep (sep : N) (p : pystr) : sep ∉ p -> split sep p = [p].
Proof.
  induction p as [|c p IH]; intros Hn; [reflexivity|].
  cbn [split]. destruct (N.eqb_spec c sep) as [->|Hne].
  - exfalso. apply Hn. left.
  - rewrite IH; [reflexivity|]. intros Hin. apply Hn. right. exact Hin.
Qed.

Lemma split_app_sep (sep : N) (p s : pystr) :
  sep ∉ p -> split sep (p ++ sep :: s) = p :: split sep s.
Proof.
  induction p as [|c p IH]; intros Hn.
  - cbn [app split]. rewrite N.eqb_refl. reflexivity.
  - cbn [app split]. destruct (N.eqb_spec c sep) as [->|Hne].
    + exfalso. apply Hn. left.
    + rewrite IH; [reflexivity|]. intros Hin. apply Hn. right. exact Hin.
Qed.

Lemma split_join (sep : N) (fields : list pystr) :
  fields <> [] ->
  Forall (fun f => sep ∉ f) fields ->
  split sep (join [sep] fields) = fields.
Proof.
  induction fields as [|p fields IH]; intros Hne Hall; [congruence|].
  apply Forall_cons in Hall as [Hp Hall].
  destruct fields as [|q fields].
  - cbn [join]. apply split_no_sep. exact Hp.
  - change (join [sep] (p :: q :: fields)) with (p ++ sep :: join [sep] (q :: fields)).
    rewrite split_app_sep by exact Hp. rewrite IH; [reflexivity|discriminate|exact Hall].
Qed.

(** X13. On Linux, when [getent passwd USER] exits with code 0 and prints a
    record of at least seven fields separated by colons, [get_user_info]
    returns the first field as the user name and the third to seventh as
    uid, gid, gecos, home and shell; the second field (the password) is not
    returned. *)
Theorem get_user_info_linux_reads_record
    (h : host) (user : pystr) (w : world) out err f1 (fields : list pystr) :
  platform_system h = py "linux" ->
  run_child h (Argv [py "getent"; py "passwd"; user]) None (fs w) = (Exits out err 0, f1) ->
  strip out = join (py ":") fields ->
  (7 <= length fields)%nat ->
  Forall (fun f => 58%N ∉ f) fields ->
  exists info w',
    UserSwitch.get_user_info h user w = (Return (Some info), w')
    /\ info !! py "username" = Some (part fields 0)
    /\ info !! py "uid" = Some (part fields 2)
    /\ info !! py "gid" = Some (part fields 3)
    /\ info !! py "gecos" = Some (part fields 4)
    /\ info !! py "home" = Some (part fields 5)
    /\ info !! py "shell" = Some (part fields 6)
    /\ (forall key, is_Some (info !! key) ->
          key ∈ [py "username"; py "uid"; py "gid"; py "gecos"; py "home"; py "shell"]).
Proof.
  intros Hp Hrun Hout Hlen Hsep.
  unfold UserSwitch.get_user_info, UserSwitch.platform.
  rewrite Hp. rewrite bool_decide_eq_true_2 by reflexivity.
  unfold UserSwitch._get_user_info_linux.
  unfold_monad. unfold popen, communicate. rewrite Hrun. cbn [proc_child negb].
  rewrite bool_decide_eq_true_2 by reflexivity. cbn [negb].
  rewrite Hout.
  change (py ":") with [58%N].
  rewrite split_join; [|intros ->; cbn in Hlen; lia|exact Hsep].
  replace (length fields <? 7)%nat with false by (symmetry; apply Nat.ltb_ge; exact Hlen).
  eexists _, _. split; [reflexivity|].
  repeat (split; [repeat (rewrite lookup_insert_ne by py_neq); apply lookup_insert_eq|]).
  intros key [v Hv].
  repeat (apply lookup_insert_Some in Hv as [[<- _]|[_ Hv]];
          [rewrite !list_elem_of_In; cbn; auto 10|]).
  rewrite lookup_empty in Hv. discriminate Hv.
Qed.

Lemma get_user_info_linux_reads_record_witness :
  exists info w',
    UserSwitch.get_user_info host_getent (py "alice") world0 = (Return (Some info), w')
    /\ info !! py "username" = Some (py "alice")
    /\ info !! py "uid" = Some (py "1000")
    /\ info !! py "gid" = Some (py "1000")
    /\ info !! py "gecos" = Some (py "Alice Liddell,,,")
    /\ info !! py "home" = Some (py "/home/alice")
    /\ info !! py "shell" = Some (py "/bin/bash")
    /\ (forall key, is_Some (info !! key) ->
          key ∈ [py "username"; py "uid"; py "gid"; py "gecos"; py "home"; py "shell"]).
Proof.
  apply (get_user_info_linux_reads_record host_getent (py "alice") world0
           (py "alice:x:1000:1000:Alice Liddell,,,:/home/alice:/bin/bash" ++ nl) [] ∅
           [py "alice"; py "x"; py "1000"; py "1000"; py "Alice Liddell,,,";
            py "/home/alice"; py "/bin/bash"]).
  - reflexivity.
  - vm_compute. reflexivity.
  - vm_compute. reflexivity.
  - cbn. lia.
  - repeat constructor; vm_compute; intros H;
      repeat (apply elem_of_cons in H as [H|H]; [discriminate H|]); inversion H.
Defined.

(** X14. [get_user_info] answers [None] for a record of fewer than seven
    fields, for a query that exits with another code than 0, and - without
    any child - on a platform that is neither Linux nor Windows. *)
Theorem get_user_info_absent (h : host) (user : pystr) (w : world) :
  (platform_system h = py "linux" ->
   forall out err rc f1,
     run_child h (Argv [py "getent"; py "passwd"; user]) None (fs w)
       = (Exits out err rc, f1) ->
     rc <> 0 \/ (length (split 58 (strip out)) < 7)%nat ->
     (UserSwitch.get_user_info h user w).1 = Return None)
  /\ (platform_system h <> py "linux" ->
      platform_system h <> py "windows" ->
      UserSwitch.get_user_info h user w = (Return None, w)).
Proof.
  unfold UserSwitch.get_user_info, UserSwitch.platform. split.
  - intros Hp out err rc f1 Hrun Hbad. rewrite Hp.
    rewrite bool_decide_eq_true_2 by reflexivity.
    unfold UserSwitch._get_user_info_linux.
    unfold_monad. unfold popen, communicate. rewrite Hrun. cbn [proc_child negb].
    case_bool_decide as Hrc; cbn [negb]; [|reflexivity].
    destruct Hbad as [Hne|Hshort]; [contradiction|].
    replace (_ <? 7)%nat with true by (symmetry; apply Nat.ltb_lt; exact Hshort).
    reflexivity.
  - intros Hl Hw.
    rewrite (bool_decide_eq_false_2 _ Hl), (bool_decide_eq_false_2 _ Hw). reflexivity.
Qed.

Lemma get_user_info_absent_witness :
  (UserSwitch.get_user_info host_getent (py "nobody") world0).1 = Return None
  /\ UserSwitch.get_user_info host_darwin (py "alice") world0 = (Return None, world0).
Proof.
  destruct (get_user_info_absent host_getent (py "nobody") world0) as [Hlinux _].
  destruct (get_user_info_absent host_darwin (py "alice") world0) as [_ Hother].
  split.
  - apply (Hlinux eq_refl [] [] 2 ∅); [vm_compute; reflexivity | left; discriminate].
  - apply Hother; vm_compute; discriminate.
Defined.

Lemma first_fields_records (records : list (pystr * pystr)) :
  Forall (fun r => 58%N ∉ r.1) records ->
  UserSwitch.first_fields (map (fun r => r.1 ++ py ":" ++ r.2) records) = map fst records.
Proof.
  induction 1 as [|[n r] records Hn _ IH]; [reflexivity|].
  cbn [map UserSwitch.first_fields fst snd].
  change (py ":" ++ r) with (58%N :: r).
  rewrite split_app_sep by exact Hn.
  cbn [length Nat.leb part lookup]. rewrite IH. reflexivity.
Qed.

(** X15. On Linux, when [getent passwd] exits with code 0 and prints one
    record per line, [get_available_users] returns the first field of every
    record, in order. When it prints nothing but whitespace the answer is
    not the empty list but a list that holds one empty name. *)
Theorem get_available_users_linux_lists_names
    (h : host) (w : world) out err f1 :
  platform_system h = py "linux" ->
  run_child h (Argv [py "getent"; py "passwd"]) None (fs w) = (Exits out err 0, f1) ->
  (forall records : list (pystr * pystr),
     records <> [] ->
     strip out = join nl (map (fun r => r.1 ++ py ":" ++ r.2) records) ->
     Forall (fun r => (58%N ∉ r.1) /\ (10%N ∉ r.1) /\ (10%N ∉ r.2)) records ->
     (UserSwitch.get_available_users h w).1 = Return (map fst records))
  /\ (Forall (fun c => is_space c = true) out ->
      (UserSwitch.get_available_users h w).1 = Return [[]]).
Proof.
  intros Hp Hrun.
  assert (Hcode : (UserSwitch.get_available_users h w).1
                  = Return (UserSwitch.first_fields (split 10 (strip out)))).
  { unfold UserSwitch.get_available_users, UserSwitch.platform.
    rewrite Hp. rewrite bool_decide_eq_true_2 by reflexivity.
    unfold UserSwitch._get_available_users_linux.
    unfold_monad. unfold popen, communicate. rewrite Hrun. cbn [proc_child negb].
    rewrite bool_decide_eq_true_2 by reflexivity. reflexivity. }
  rewrite Hcode. split.
  - intros records Hne Hout Hall. rewrite Hout.
    change nl with [10%N]. rewrite split_join.
    + f_equal. apply first_fields_records.
      eapply Forall_impl; [exact Hall|]. intros r (H & _). exact H.
    + destruct records; [congruence|discriminate].
    + apply Forall_map. eapply Forall_impl; [exact Hall|].
      intros [n r] (_ & Hn & Hr). cbn [fst snd]. intros Hin.
      apply elem_of_app in Hin as [Hin|Hin]; [contradiction|].
      change (py ":" ++ r) with (58%N :: r) in Hin.
      apply elem_of_cons in Hin as [Hin|Hin]; [discriminate Hin|contradiction].
  - intros Hblank. apply strip_nil in Hblank. rewrite Hblank. reflexivity.
Qed.

Lemma get_available_users_linux_lists_names_witness :
  (UserSwitch.get_available_users host_getent world0).1
  = Return [py "root"; py "daemon"; py "alice"].
Proof.
  destruct (get_available_users_linux_lists_names host_getent world0
              (py "root:x:0:0:root:/root:/bin/bash" ++ nl
               ++ py "daemon:x:1:1:daemon:/usr/sbin:/usr/sbin/nologin" ++ nl
               ++ py "alice:x:1000:1000:Alice Liddell,,,:/home/alice:/bin/bash" ++ nl)
              [] ∅ eq_refl) as [Hrecords _].
  - vm_compute. reflexivity.
  - apply (Hrecords [(py "root", py "x:0:0:root:/root:/bin/bash");
                     (py "daemon", py "x:1:1:daemon:/usr/sbin:/usr/sbin/nologin");
                     (py "alice", py "x:1000:1000:Alice Liddell,,,:/home/alice:/bin/bash")]).
    + discriminate.
    + vm_compute. reflexivity.
    + repeat constructor; cbn [fst snd]; vm_compute; intros H;
        repeat (apply elem_of_cons in H as [H|H]; [discriminate H|]); inversion H.
Defined.

(** ** [ScriptExecutor]: materialisation *)

Lemma run_by_type_is_execute h cfg t path user working_dir env :
  ScriptExecutor.run_by_type h cfg t path user working_dir env
  = CommandExecutor.execute h cfg (script_command h t path) user working_dir env.
Proof. destruct t; reflexivity. Qed.

Lemma create_temp_script_cases h cfg text t w :
  let path := path_join (ScriptExecutor.temp_dir cfg)
                (py "tmp_" ++ random_choices h (draws w) ++ ScriptExecutor.extension t) in
  (exists w',
     ScriptExecutor._create_temp_script h cfg text t w = (Return path, w')
     /\ fs w' = <[path := {| content := text; mode := 493 |}]> (fs w)
     /\ spawned w' = spawned w /\ killed w' = killed w /\ draws w' = S (draws w)
     /\ encodable text = true
     /\ fs_fault h (OpOpen path) = None /\ fs_fault h (OpWrite path) = None
     /\ fs_fault h (OpChmod path) = None)
  \/ (exists e w',
        ScriptExecutor._create_temp_script h cfg text t w = (Raise e, w')
        /\ spawned w' = spawned w /\ killed w' = killed w
        /\ (encodable text = false
            \/ is_Some (fs_fault h (OpOpen path)) \/ is_Some (fs_fault h (OpWrite path))
            \/ is_Some (fs_fault h (OpChmod path)))).
Proof.
  intros path. subst path.
  set (path := path_join (ScriptExecutor.temp_dir cfg)
                 (py "tmp_" ++ random_choices h (draws w) ++ ScriptExecutor.extension t)).
  assert (Hcode : ScriptExecutor._create_temp_script h cfg text t w
            = match fs_fault h (OpOpen path) with
              | Some msg => (Raise (Exception msg), next_draw w)
              | None =>
                  let m := match fs w !! path with Some f => mode f | None => create_mode h end in
                  let opened :=
                    set_fs (<[path := {| content := []; mode := m |}]> (fs w)) (next_draw w) in
                  if negb (encodable text) then
                    (Raise (Exception (encode_error_of (written h text))),
                     opened)
                  else
                    match fs_fault h (OpWrite path) with
                    | Some msg => (Raise (Exception msg), opened)
                    | None =>
                        match fs_fault h (OpChmod path) with
                        | Some msg =>
                            (Raise (Exception msg),
                             set_fs (<[path := {| content := text; mode := m |}]> (fs w))
                               (next_draw w))
                        | None =>
                            (Return path,
                             set_fs (<[path := {| content := text; mode := 493 |}]>
                                       (<[path := {| content := text; mode := m |}]> (fs w)))
                               (next_draw w))
                        end
                    end
              end).
  { unfold ScriptExecutor._create_temp_script, random_name, write_text, os_chmod.
    unfold mbind, M_bind, mret, M_ret. cbn [fs next_draw draws set_fs]. fold path.
    destruct (fs_fault h (OpOpen path)); [reflexivity|].
    destruct (negb (encodable text)); [reflexivity|].
    destruct (fs_fault h (OpWrite path)); [reflexivity|].
    destruct (fs_fault h (OpChmod path)); [reflexivity|].
    cbn [fs set_fs next_draw]. rewrite lookup_insert_eq. reflexivity. }
  rewrite Hcode. clear Hcode.
  destruct (fs_fault h (OpOpen path)) as [msg|] eqn:Fo.
  { right. eexists _, _. split; [reflexivity|]. cbn. eauto 10. }
  cbv zeta.
  destruct (encodable text) eqn:Enc; cbn [negb].
  2:{ right. eexists _, _. split; [reflexivity|]. cbn. eauto 10. }
  destruct (fs_fault h (OpWrite path)) as [msg|] eqn:Fw.
  { right. eexists _, _. split; [reflexivity|]. cbn. eauto 10. }
  destruct (fs_fault h (OpChmod path)) as [msg|] eqn:Fc.
  { right. eexists _, _. split; [reflexivity|]. cbn. eauto 10. }
  left. eexists. split; [reflexivity|]. cbn.
  rewrite insert_insert_eq. auto 10.
Qed.

(** X16. When [_create_temp_script] returns, it returns the path
    [tmp_RANDOM] plus the extension of the kind ([.py], [.sh], [.ps1]) under
    the scratch directory; the file at that path holds the script text as
    given, with mode 0o755; no other file is touched and no child is
    started. It returns whenever the text can be encoded and opening,
    writing and chmod are not refused. *)
Theorem create_temp_script_materialises
    (h : host) (cfg : config) (text : pystr) (t : ScriptExecutor.script_type) (w : world) :
  let path := path_join (ScriptExecutor.temp_dir cfg)
                (py "tmp_" ++ random_choices h (draws w) ++ ScriptExecutor.extension t) in
  (forall p w',
     ScriptExecutor._create_temp_script h cfg text t w = (Return p, w') ->
     p = path
     /\ fs w' = <[path := {| content := text; mode := 493 |}]> (fs w)
     /\ spawned w' = spawned w)
  /\ (encodable text = true ->
      fs_fault h (OpOpen path) = None ->
      fs_fault h (OpWrite path) = None ->
      fs_fault h (OpChmod path) = None ->
      exists w', ScriptExecutor._create_temp_script h cfg text t w = (Return path, w')).
Proof.
  intros path.
  destruct (create_temp_script_cases h cfg text t w)
    as [(w1 & Hc & Hfs & Hsp & _) | (e & w1 & Hc & _ & _ & Hwhy)]; fold path in Hc.
  - split.
    + intros p w' Hr. rewrite Hc in Hr. injection Hr as <- <-. auto.
    + intros _ _ _ _. eauto.
  - split.
    + intros p w' Hr. rewrite Hc in Hr. discriminate Hr.
    + intros He Ho Hw Hch. fold path in Hwhy. rewrite He, Ho, Hw, Hch in Hwhy.
      destruct Hwhy as [H|[[x H]|[[x H]|[x H]]]]; discriminate H.
Qed.

Lemma create_temp_script_materialises_witness :
  exists w',
    ScriptExecutor._create_temp_script host_quiet cfg0 echo_script ScriptExecutor.shell world0
    = (Return (py "/tmp/aiops/tmp_a1b2c3d4.sh"), w')
    /\ fs w' !! py "/tmp/aiops/tmp_a1b2c3d4.sh"
       = Some {| content := echo_script; mode := 493 |}.
Proof.
  destruct (create_temp_script_materialises host_quiet cfg0 echo_script
              ScriptExecutor.shell world0) as [Hinv Hret].
  destruct Hret as [w' Hw']; try reflexivity.
  exists w'. split.
  - rewrite Hw'. vm_compute. reflexivity.
  - destruct (Hinv _ _ Hw') as (_ & Hfs & _). rewrite Hfs. apply lookup_insert_eq.
Defined.

(** ** [ScriptExecutor]: running inline text *)

Lemma cleanup_temp_file_quiet h path w :
  exists w',
    ScriptExecutor._cleanup_temp_file h path w = (Return tt, w')
    /\ spawned w' = spawned w /\ killed w' = killed w.
Proof.
  unfold ScriptExecutor._cleanup_temp_file, try_except, path_exists.
  unfold mbind, M_bind.
  destruct (bool_decide (is_Some (fs w !! path))).
  - unfold os_remove.
    destruct (fs_fault h (OpRemove path)); [unfold log; eauto|].
    destruct (fs w !! path); unfold log; eauto.
  - unfold mret, M_ret. eauto.
Qed.

(** X17. When the script text has been materialised, [execute_script_content]
    starts exactly one child, the interpreter of the classified kind on the
    ephemeral file ([python], [bash], [pwsh] or on Windows [powershell]), and
    returns the result of [CommandExecutor.execute] for that command line
    unchanged. *)
Theorem execute_script_content_runs_interpreter
    (h : host) (cfg : config) (script_content : pystr) (user working_dir : option pystr)
    (env : option (gmap pystr pystr)) (w : world) path w2 :
  let t := ScriptExecutor._detect_script_type_from_content script_content in
  ScriptExecutor._create_temp_script h cfg script_content t
    (add_logged INFO (py "执行动态脚本内容") w) = (Return path, w2) ->
  exists r w3 w',
    CommandExecutor.execute h cfg (script_command h t path) user working_dir env w2
      = (Return r, w3)
    /\ ScriptExecutor.execute_script_content h cfg script_content user working_dir env w
       = (Return r, w')
    /\ spawned w'
       = spawned w ++ [execute_child h (script_command h t path) user working_dir env].
Proof.
  intros t Hcreate.
  destruct (execute_by_child h cfg (script_command h t path) user working_dir env w2)
    as (r & w3 & Hex & Hsp & _).
  destruct (cleanup_temp_file_quiet h path w3) as (w4 & Hclean & Hsp4 & _).
  exists r, w3, w4. split; [exact Hex|]. split.
  - unfold ScriptExecutor.execute_script_content.
    unfold mbind at 1. unfold M_bind. unfold log at 1.
    unfold try_except at 1. unfold mbind at 1. unfold M_bind.
    fold t. rewrite Hcreate.
    unfold mbind at 1. unfold M_bind.
    rewrite run_by_type_is_execute, Hex.
    unfold mbind at 1. unfold M_bind. rewrite Hclean. reflexivity.
  - rewrite Hsp4, Hsp.
    destruct (create_temp_script_cases h cfg script_content t
                (add_logged INFO (py "执行动态脚本内容") w))
      as [(w1 & Hc & _ & Hs & _) | (e & w1 & Hc & _)]; rewrite Hc in Hcreate.
    + injection Hcreate as _ <-. rewrite Hs. reflexivity.
    + discriminate Hcreate.
Qed.

Lemma execute_script_content_runs_interpreter_witness :
  exists r w3 w',
    CommandExecutor.execute host_login cfg0
      (py "bash " ++ dq ++ py "/tmp/aiops/tmp_a1b2c3d4.sh" ++ dq) None None None
      (set_fs {[ py "/tmp/aiops/tmp_a1b2c3d4.sh" := {| content := echo_script; mode := 493 |} ]}
         (next_draw (add_logged INFO (py "执行动态脚本内容") world0)))
      = (Return r, w3)
    /\ ScriptExecutor.execute_script_content host_login cfg0 echo_script None None None world0
       = (Return r, w')
    /\ spawned w'
       = [Shell (py "bash " ++ dq ++ py "/tmp/aiops/tmp_a1b2c3d4.sh" ++ dq) None ∅].
Proof.
  destruct (execute_script_content_runs_interpreter host_login cfg0 echo_script
              None None None world0 (py "/tmp/aiops/tmp_a1b2c3d4.sh")
              (set_fs {[ py "/tmp/aiops/tmp_a1b2c3d4.sh"
                           := {| content := echo_script; mode := 493 |} ]}
                 (next_draw (add_logged INFO (py "执行动态脚本内容") world0))))
    as (r & w3 & w' & Hex & Hrun & Hsp).
  - vm_compute. reflexivity.
  - exists r, w3, w'. split; [|split; [exact Hrun|]].
    + rewrite <- Hex. vm_compute. reflexivity.
    + rewrite Hsp. vm_compute. reflexivity.
Defined.

(** X18. When the script text cannot be materialised (it cannot be encoded,
    or opening, writing or chmod is refused), [execute_script_content] starts
    no child and returns a failure with the code -1 and the text of the
    exception. *)
Theorem execute_script_content_not_materialised
    (h : host) (cfg : config) (script_content : pystr) (user working_dir : option pystr)
    (env : option (gmap pystr pystr)) (w : world) e w2 :
  ScriptExecutor._create_temp_script h cfg script_content
    (ScriptExecutor._detect_script_type_from_content script_content)
    (add_logged INFO (py "执行动态脚本内容") w) = (Raise e, w2) ->
  exists w',
    ScriptExecutor.execute_script_content h cfg script_content user working_dir env w
    = (Return {| success := false; output := []; error := exn_str e; return_code := -1 |}, w')
    /\ spawned w' = spawned w.
Proof.
  intros Hcreate.
  unfold ScriptExecutor.execute_script_content.
  unfold mbind at 1. unfold M_bind. unfold log at 1.
  unfold try_except at 1. unfold mbind at 1. unfold M_bind.
  rewrite Hcreate. unfold_monad. eexists. split; [reflexivity|]. cbn.
  destruct (create_temp_script_cases h cfg script_content
              (ScriptExecutor._detect_script_type_from_content script_content)
              (add_logged INFO (py "执行动态脚本内容") w))
    as [(w1 & Hc & _) | (e' & w1 & Hc & Hs & _)]; rewrite Hc in Hcreate.
  - discriminate Hcreate.
  - injection Hcreate as _ <-. exact Hs.
Qed.

Lemma execute_script_content_not_materialised_witness :
  exists w',
    ScriptExecutor.execute_script_content host_chmod_denied cfg0 echo_script
      None None None world0
    = (Return {| success := false; output := [];
                 error := py "[Errno 1] Operation not permitted";
                 return_code := -1 |}, w')
    /\ spawned w' = [].
Proof.
  eapply (execute_script_content_not_materialised host_chmod_denied cfg0 echo_script
            None None None world0 (Exception (py "[Errno 1] Operation not permitted"))).
  vm_compute. reflexivity.
Defined.

(** ** [ScriptExecutor]: the entry points always answer *)

Lemma detect_script_type_returns h path_suffix lower script_path w :
  exists t,
    ScriptExecutor._detect_script_type h path_suffix lower script_path w = (Return t, w)
    /\ t <> ScriptExecutor.generic
    /\ (forall f,
          fs_fault h (OpOpen script_path) = None ->
          fs w !! script_path = Some f ->
          forall t',
            ScriptExecutor.shebang_type (strip (readline (content f))) = Some t' -> t = t').
Proof.
  unfold ScriptExecutor._detect_script_type.
  unfold mbind at 1. unfold M_bind.
  unfold try_except, mbind, M_bind, ScriptExecutor.read_first_line.
  assert (Hsh : forall line t0,
            ScriptExecutor.shebang_type line = Some t0 -> t0 <> ScriptExecutor.generic).
  { intros line t0. unfold ScriptExecutor.shebang_type.
    repeat match goal with |- context [if ?b then _ else _] => destruct b end;
      intros [= <-]; discriminate. }
  assert (Hext : forall w0, exists t,
            (if bool_decide (lower (path_suffix script_path) = py ".py")
             then (mret ScriptExecutor.python : M ScriptExecutor.script_type)
             else if bool_decide (lower (path_suffix script_path) ∈ [py ".sh"; py ".bash"])
             then mret ScriptExecutor.shell
             else if bool_decide (lower (path_suffix script_path) = py ".ps1")
             then mret ScriptExecutor.powershell
             else mret ScriptExecutor.shell) w0 = (Return t, w0)
            /\ t <> ScriptExecutor.generic).
  { intros w0. repeat case_bool_decide; eexists; (split; [reflexivity|discriminate]). }
  destruct (fs_fault h (OpOpen script_path)) as [msg|].
  { unfold mret at 1. unfold M_ret.
    replace (ScriptExecutor.shebang_type []) with (@None ScriptExecutor.script_type)
      by (vm_compute; reflexivity).
    destruct (Hext w) as (t & Ht & Hg). exists t. split; [exact Ht|]. split; [exact Hg|].
    intros f Hf. discriminate Hf. }
  destruct (fs w !! script_path) as [f|].
  - unfold mret at 1. unfold M_ret.
    destruct (ScriptExecutor.shebang_type (strip (readline (content f)))) as [t0|] eqn:Hs.
    + exists t0. split; [reflexivity|]. split; [eapply Hsh; exact Hs|].
      intros f' _ [= <-] t' Ht'. congruence.
    + destruct (Hext w) as (t & Ht & Hg). exists t. split; [exact Ht|]. split; [exact Hg|].
      intros f' _ [= <-] t' Ht'. congruence.
  - unfold mret at 1. unfold M_ret.
    replace (ScriptExecutor.shebang_type []) with (@None ScriptExecutor.script_type)
      by (vm_compute; reflexivity).
    destruct (Hext w) as (t & Ht & Hg). exists t. split; [exact Ht|]. split; [exact Hg|].
    intros f _ Hf. discriminate Hf.
Qed.

Lemma detect_from_content_not_generic (script_content : pystr) :
  ScriptExecutor._detect_script_type_from_content script_content <> ScriptExecutor.generic.
Proof.
  unfold ScriptExecutor._detect_script_type_from_content, ScriptExecutor.shebang_type.
  repeat match goal with
         | |- context [match ?l with [] => _ | _ :: _ => _ end] => destruct l
         | |- context [if ?b then _ else _] => destruct b
         end; discriminate.
Qed.

(** X19. Neither detector ever answers with another kind than python, shell
    or powershell: the branch that runs a script file directly, without an
    interpreter, is never taken by [execute_script_content] or
    [execute_script_file]. *)
Theorem script_kind_is_never_generic
    (h : host) (path_suffix lower : pystr -> pystr) (script_content script_path : pystr)
    (w : world) :
  ScriptExecutor._detect_script_type_from_content script_content <> ScriptExecutor.generic
  /\ exists t,
       ScriptExecutor._detect_script_type h path_suffix lower script_path w = (Return t, w)
       /\ t <> ScriptExecutor.generic.
Proof.
  split; [apply detect_from_content_not_generic|].
  destruct (detect_script_type_returns h path_suffix lower script_path w) as (t & Ht & Hg & _).
  eauto.
Qed.

Lemma execute_always_returns h cfg command user working_dir env :
  always_returns (CommandExecutor.execute h cfg command user working_dir env).
Proof. intros w. apply execute_returns. Qed.

Lemma execute_script_content_returns h cfg script_content user working_dir env :
  always_returns
    (ScriptExecutor.execute_script_content h cfg script_content user working_dir env).
Proof.
  intros w.
  destruct (create_temp_script_cases h cfg script_content
              (ScriptExecutor._detect_script_type_from_content script_content)
              (add_logged INFO (py "执行动态脚本内容") w))
    as [(w1 & Hc & _) | (e & w1 & Hc & _)].
  - destruct (execute_script_content_cleans h cfg script_content user working_dir env w
                _ _ Hc) as (r & w' & Hr & _). eauto.
  - destruct (execute_script_content_not_materialised h cfg script_content user working_dir
                env w e w1 Hc) as (w' & Hr & _). eauto.
Qed.

Lemma execute_dynamic_wrapper_returns h cfg script_content user working_dir env :
  always_returns
    (ScriptExecutor.execute_dynamic_wrapper h cfg script_content user working_dir env).
Proof.
  intros w.
  destruct (create_temp_script_cases h cfg (wrapper_text h cfg script_content w)
              ScriptExecutor.python
              (next_draw (add_logged INFO (py "执行动态脚本封装") w)))
    as [(w1 & Hc & _) | (e & w1 & Hc & _)].
  - destruct (execute_dynamic_wrapper_cleans h cfg script_content user working_dir env w
                _ _ Hc) as (r & w' & Hr & _). eauto.
  - unfold ScriptExecutor.execute_dynamic_wrapper.
    unfold mbind at 1. unfold M_bind. unfold log at 1.
    unfold try_except at 1. unfold mbind at 1. unfold M_bind.
    unfold random_name at 1. cbn [draws add_logged].
    unfold mbind at 1. unfold M_bind.
    unfold ScriptExecutor._execute_python_script_content.
    unfold mbind at 1. unfold M_bind.
    fold (wrapper_target h cfg script_content w).
    fold (wrapper_text h cfg script_content w).
    rewrite Hc. unfold_monad. eauto.
Qed.

Lemma execute_script_file_returns h cfg path_suffix lower script_path user working_dir env :
  always_returns
    (ScriptExecutor.execute_script_file h cfg path_suffix lower script_path
       user working_dir env).
Proof.
  intros w. unfold ScriptExecutor.execute_script_file.
  unfold mbind at 1. unfold M_bind. unfold log at 1.
  unfold mbind at 1. unfold M_bind. unfold path_exists at 1.
  destruct (bool_decide (is_Some _)); cbn [negb]; [|unfold_monad; eauto].
  unfold try_except at 1. unfold mbind at 1. unfold M_bind.
  destruct (detect_script_type_returns h path_suffix lower script_path
              (add_logged INFO (py "执行脚本文件: " ++ script_path) w)) as (t & -> & _).
  unfold mbind at 1. unfold M_bind. rewrite run_by_type_is_execute.
  destruct (execute_returns h cfg (script_command h t script_path) user working_dir env
              (add_logged INFO (py "执行脚本文件: " ++ script_path) w)) as (r & w' & ->).
  unfold_monad. eauto.
Qed.

(** X20. The three entry points of the script executor always answer with a
    result dictionary: no exception leaves [execute_script_content],
    [execute_script_file] or [execute_dynamic_wrapper], and none of them
    waits for ever. *)
Theorem script_executor_always_returns
    (h : host) (cfg : config) (path_suffix lower : pystr -> pystr)
    (script : pystr) (user working_dir : option pystr) (env : option (gmap pystr pystr)) :
  always_returns (ScriptExecutor.execute_script_content h cfg script user working_dir env)
  /\ always_returns
       (ScriptExecutor.execute_script_file h cfg path_suffix lower script user working_dir env)
  /\ always_returns
       (ScriptExecutor.execute_dynamic_wrapper h cfg script user working_dir env).
Proof.
  split; [|split].
  - apply execute_script_content_returns.
  - apply execute_script_file_returns.
  - apply execute_dynamic_wrapper_returns.
Qed.

(** ** [ScriptExecutor]: running a script file *)

(** X21. For a path at which there is no file, [execute_script_file] returns
    a failure with the code -1 that names the path; it starts no child and
    leaves the files as they are. *)
Theorem execute_script_file_missing
    (h : host) (cfg : config) (path_suffix lower : pystr -> pystr) (script_path : pystr)
    (user working_dir : option pystr) (env : option (gmap pystr pystr)) (w : world) :
  fs w !! script_path = None ->
  exists w',
    ScriptExecutor.execute_script_file h cfg path_suffix lower script_path
      user working_dir env w
    = (Return {| success := false; output := [];
                 error := py "脚本文件不存在: " ++ script_path;
                 return_code := -1 |}, w')
    /\ spawned w' = spawned w /\ fs w' = fs w.
Proof.
  intros Hnone. unfold ScriptExecutor.execute_script_file.
  unfold_monad. unfold path_exists. cbn [fs add_logged]. rewrite Hnone.
  rewrite bool_decide_eq_false_2 by (intros [x Hx]; discriminate Hx).
  cbn [negb]. eexists. split; [reflexivity|]. split; reflexivity.
Qed.

Lemma execute_script_file_missing_witness :
  exists w',
    ScriptExecutor.execute_script_file host_quiet cfg0 suffix_of_examples ascii_lower
      (py "/path/to/nonexistent/script.sh") None None None world0
    = (Return {| success := false; output := [];
                 error := py "脚本文件不存在: /path/to/nonexistent/script.sh";
                 return_code := -1 |}, w')
    /\ spawned w' = [] /\ fs w' = ∅.
Proof.
  destruct (execute_script_file_missing host_quiet cfg0 suffix_of_examples ascii_lower
              (py "/path/to/nonexistent/script.sh") None None None world0 eq_refl)
    as (w' & Hex & Hsp & Hfs).
  exists w'. split; [|split; assumption].
  rewrite Hex. vm_compute. reflexivity.
Defined.



(** ** [ScriptExecutor]: the wrapped variant *)

(** X23. Whatever the kind of the script, [execute_dynamic_wrapper] runs one
    child, [python] on the file of the generated program, and returns the
    result of [CommandExecutor.execute] for it unchanged; when the child
    starts, that file holds the generated program with mode 0o755. The
    agent itself does not write the original script: that is left to the
    generated program. *)
Theorem execute_dynamic_wrapper_runs_python
    (h : host) (cfg : config) (script_content : pystr) (user working_dir : option pystr)
    (env : option (gmap pystr pystr)) (w : world) path w2 :
  ScriptExecutor._create_temp_script h cfg (wrapper_text h cfg script_content w)
    ScriptExecutor.python
    (next_draw (add_logged INFO (py "执行动态脚本封装") w)) = (Return path, w2) ->
  exists r w3 w',
    CommandExecutor.execute h cfg (py "python " ++ dq ++ path ++ dq) user working_dir env w2
      = (Return r, w3)
    /\ ScriptExecutor.execute_dynamic_wrapper h cfg script_content user working_dir env w
       = (Return r, w')
    /\ spawned w'
       = spawned w ++ [execute_child h (py "python " ++ dq ++ path ++ dq) user working_dir env]
    /\ fs w2 = <[path := {| content := wrapper_text h cfg script_content w; mode := 493 |}]>
                 (fs w).
Proof.
  intros Hcreate.
  destruct (execute_by_child h cfg (py "python " ++ dq ++ path ++ dq) user working_dir env w2)
    as (r & w3 & Hex & Hsp & _).
  destruct (cleanup_temp_file_quiet h path w3) as (w4 & Hclean & Hsp4 & _).
  destruct (cleanup_temp_file_quiet h (wrapper_target h cfg script_content w) w4)
    as (w5 & Hclean' & Hsp5 & _).
  assert (Hfacts : spawned w2 = spawned w
            /\ fs w2 = <[path := {| content := wrapper_text h cfg script_content w;
                                    mode := 493 |}]> (fs w)).
  { destruct (create_temp_script_cases h cfg (wrapper_text h cfg script_content w)
                ScriptExecutor.python (next_draw (add_logged INFO (py "执行动态脚本封装") w)))
      as [(w1 & Hc & Hfs & Hs & _) | (e & w1 & Hc & _)]; rewrite Hc in Hcreate;
      [|discriminate Hcreate].
    injection Hcreate as <- <-. split; [exact Hs | exact Hfs]. }
  destruct Hfacts as [Hs Hfs].
  exists r, w3, w5. split; [exact Hex|]. split; [|split].
  - unfold ScriptExecutor.execute_dynamic_wrapper.
    unfold mbind at 1. unfold M_bind. unfold log at 1.
    unfold try_except at 1. unfold mbind at 1. unfold M_bind.
    unfold random_name at 1. cbn [draws add_logged].
    unfold mbind at 1. unfold M_bind.
    unfold ScriptExecutor._execute_python_script_content.
    unfold mbind at 1. unfold M_bind.
    fold (wrapper_target h cfg script_content w).
    fold (wrapper_text h cfg script_content w).
    rewrite Hcreate.
    unfold mbind at 1. unfold M_bind.
    unfold ScriptExecutor._execute_python_script, ScriptExecutor._execute_command.
    rewrite Hex.
    unfold mbind at 1. unfold M_bind. rewrite Hclean.
    unfold mret at 1. unfold M_ret.
    unfold mbind at 1. unfold M_bind. rewrite Hclean'. reflexivity.
  - rewrite Hsp5, Hsp4, Hsp, Hs. reflexivity.
  - exact Hfs.
Qed.

Lemma execute_dynamic_wrapper_runs_python_witness :
  exists r w',
    ScriptExecutor.execute_dynamic_wrapper host_login cfg0 echo_script None None None world0
      = (Return r, w')
    /\ spawned w' = [Shell (py "python " ++ dq ++ py "/tmp/aiops/tmp_a1b2c3d4.py" ++ dq) None ∅].
Proof.
  edestruct (execute_dynamic_wrapper_runs_python host_login cfg0 echo_script
               None None None world0 (py "/tmp/aiops/tmp_a1b2c3d4.py"))
    as (r & w3 & w' & _ & Hrun & Hsp & _).
  - vm_compute. reflexivity.
  - exists r, w'. split; [exact Hrun|]. rewrite Hsp. vm_compute. reflexivity.
Defined.

(** ** Tokens: binding, stamping, verification *)

Section MoreTokens.
Import SecurityManager.
Context (h : host) (cfg : config).
Context (hmac_sha256 : pystr -> pystr -> gmap pystr pyval -> pystr).
Context (int_of_str : pystr -> option Z).

Lemma issued_payload_binding user_id permissions api_key t_exp t_iat :
  let p := issued_payload cfg user_id permissions api_key t_exp t_iat in
  p !! py "api_key" = Some (VStr api_key)
  /\ p !! py "type" = Some (VStr (py "api_key"))
  /\ p <> ∅.
Proof.
  unfold issued_payload. split; [|split].
  - repeat (rewrite lookup_insert_ne by py_neq). apply lookup_insert_eq.
  - repeat (rewrite lookup_insert_ne by py_neq). apply lookup_insert_eq.
  - apply insert_non_empty.
Qed.

(** X24. The key and the token that [generate_api_key] returns belong
    together: while the clock is between the issue time and the expiry,
    [verify_api_key] accepts the token with that key and rejects it with any
    other key. *)
Theorem verify_api_key_binds_key_to_token
    (user_id : pystr) (permissions : list pystr) (w wv : world) :
  time_time h (S (ticks w)) <= time_time h (ticks wv) ->
  time_time h (ticks wv) < time_time h (ticks w) + jwt_expire_hours cfg * 3600 ->
  exists api_key t w1,
    generate_api_key h cfg hmac_sha256 user_id permissions w = (Return (api_key, t), w1)
    /\ (verify_api_key h cfg hmac_sha256 int_of_str api_key t wv).1 = Return true
    /\ (forall other, other <> api_key ->
          (verify_api_key h cfg hmac_sha256 int_of_str other t wv).1 = Return false).
Proof.
  intros Hiat Hexp.
  rewrite generate_api_key_returns.
  set (key := urandom_b64 h (draws w)).
  set (p := issued_payload cfg user_id permissions key
              (time_time h (ticks w)) (time_time h (S (ticks w)))).
  destruct (issued_payload_lookups cfg user_id permissions key
              (time_time h (ticks w)) (time_time h (S (ticks w))))
    as (Li & Ln & Le & _ & _).
  destruct (issued_payload_binding user_id permissions key
              (time_time h (ticks w)) (time_time h (S (ticks w))))
    as (Lk & Lt & Hne).
  destruct (issued_payload_unregistered cfg user_id permissions key
              (time_time h (ticks w)) (time_time h (S (ticks w))))
    as (_ & La & Ls & Lj).
  fold p in Li, Ln, Le, Lk, Lt, Hne, La, Ls, Lj.
  assert (Hv : verify_jwt_token h cfg hmac_sha256 int_of_str
                 (jwt_signed hmac_sha256 p (jwt_secret cfg)) wv
               = (Return (Some p), next_tick wv)).
  { apply verify_signed_payload.
    apply (validate_claims_in_window int_of_str p _ _ _ Li Ln Le La Ls Lj). lia. }
  eexists _, _, _. split; [reflexivity|].
  assert (Hcode : forall k,
            (verify_api_key h cfg hmac_sha256 int_of_str k
               (jwt_signed hmac_sha256 p (jwt_secret cfg)) wv).1
            = Return (bool_decide (k = key))).
  { intros k. unfold verify_api_key.
    unfold try_except at 1. unfold mbind at 1. unfold M_bind.
    rewrite Hv. unfold falsy. rewrite (bool_decide_eq_false_2 _ Hne).
    change (default ∅ (Some p)) with p. unfold get. rewrite Lk, Lt.
    rewrite (bool_decide_eq_true_2 (Some (VStr (py "api_key")) = Some (VStr (py "api_key"))))
      by reflexivity.
    cbn [negb].
    destruct (decide (k = key)) as [->|Hk].
    - rewrite !bool_decide_eq_true_2 by reflexivity. reflexivity.
    - rewrite (bool_decide_eq_false_2 (Some (VStr key) = Some (VStr k)))
        by (intros [= Heq]; congruence).
      rewrite (bool_decide_eq_false_2 _ Hk). reflexivity. }
  split.
  - rewrite Hcode. rewrite bool_decide_eq_true_2 by reflexivity. reflexivity.
  - intros other Hother. rewrite Hcode. rewrite (bool_decide_eq_false_2 _ Hother). reflexivity.
Qed.

End MoreTokens.

Lemma verify_api_key_binds_key_to_token_witness :
  exists api_key t w1,
    SecurityManager.generate_api_key host_quiet cfg0 toy_hmac (py "test_user")
      [py "exec:command"] world0 = (Return (api_key, t), w1)
    /\ (SecurityManager.verify_api_key host_quiet cfg0 toy_hmac decimal_int api_key t world0).1
       = Return true
    /\ (SecurityManager.verify_api_key host_quiet cfg0 toy_hmac decimal_int (py "wrong-api-key") t
          world0).1 = Return false.
Proof.
  destruct (verify_api_key_binds_key_to_token host_quiet cfg0 toy_hmac decimal_int (py "test_user")
              [py "exec:command"] world0 world0) as (k & t & w1 & Hgen & Hok & Hbad).
  - vm_compute. discriminate.
  - vm_compute. reflexivity.
  - exists k, t, w1. split; [exact Hgen|]. split; [exact Hok|].
    apply Hbad. intros Heq. subst k. vm_compute in Hgen. discriminate Hgen.
Defined.

Section Stamping.
Import SecurityManager.
Context (h : host) (cfg : config).
Context (hmac_sha256 : pystr -> pystr -> gmap pystr pyval -> pystr).
Context (int_of_str : pystr -> option Z).




End Stamping.


(** A token that the agent signs for a payload with an audience is refused
    by the agent itself. *)
Example token_with_audience_is_refused :
  match SecurityManager.generate_jwt_token host_quiet cfg0 toy_hmac
          (<[py "aud" := SecurityManager.VStr (py "ops")]>
             (<[py "user_id" := SecurityManager.VStr (py "test_user")]> ∅)) world0 with
  | (Return t, _) =>
      SecurityManager.verify_jwt_token host_quiet cfg0 toy_hmac decimal_int t world0
      = (Return None, add_logged WARNING (py "JWT令牌无效: Invalid audience") (next_tick world0))
  | _ => False
  end.
Proof. vm_compute. reflexivity. Qed.

(** A time claim written as a numeral is read as the number. *)
Example numeral_expiry_is_accepted :
  let claims : gmap pystr SecurityManager.pyval :=
    <[py "exp" := SecurityManager.VStr (py "9999999999")]> ∅ in
  (SecurityManager.verify_jwt_token host_quiet cfg0 toy_hmac decimal_int
     (SecurityManager.jwt_signed toy_hmac claims (SecurityManager.jwt_secret cfg0)) world0).1
  = Return (Some claims).
Proof. vm_compute. reflexivity. Qed.

Section LoosePermissions.
Import SecurityManager.
Context (h : host) (cfg : config).
Context (hmac_sha256 : pystr -> pystr -> gmap pystr pyval -> pystr).
Context (int_of_str : pystr -> option Z).

Lemma check_permissions_cases required perms w :
  (exists b w', check_permissions required perms w = (Return b, w'))
  \/ (exists e w', check_permissions required perms w = (Raise e, w')).
Proof.
  revert w. induction required as [|c required IH]; intros w.
  - left. cbn. unfold_monad. eauto.
  - cbn [check_permissions]. unfold mbind at 1. unfold M_bind.
    destruct perms as [s|n|items]; cbn [py_in].
    + unfold mret at 1. unfold M_ret. destruct (contains s c); cbn [negb].
      * apply IH.
      * left. unfold_monad. eauto.
    + right. unfold raise. eauto.
    + unfold mret at 1. unfold M_ret. destruct (bool_decide (c ∈ items)); cbn [negb].
      * apply IH.
      * left. unfold_monad. eauto.
Qed.

Lemma check_permissions_string required s w :
  (check_permissions required (VStr s) w).1
  = Return (forallb (fun c => contains s c) required).
Proof.
  revert w. induction required as [|c required IH]; intros w; [reflexivity|].
  cbn [check_permissions py_in forallb]. unfold_monad.
  destruct (contains s c); cbn [negb andb]; [apply IH | reflexivity].
Qed.

(** X26. What the capability check does when the [permissions] entry of an
    accepted token is not a list. For a single string it tests whether each
    required capability occurs somewhere inside that string; for a number
    every requirement that is not empty fails, and the empty one passes. *)
Theorem validate_token_permissions_loose_entry
    (t : token) (w w1 : world) (payload : gmap pystr pyval) (required : list pystr) :
  verify_jwt_token h cfg hmac_sha256 int_of_str t w = (Return (Some payload), w1) ->
  payload <> ∅ ->
  (forall s, payload !! py "permissions" = Some (VStr s) ->
     (validate_token_permissions h cfg hmac_sha256 int_of_str t required w).1
     = Return (forallb (fun c => contains s c) required))
  /\ (forall n, payload !! py "permissions" = Some (VInt n) ->
        (validate_token_permissions h cfg hmac_sha256 int_of_str t required w).1
        = Return (match required with [] => true | _ => false end)).
Proof.
  intros Hv Hne.
  assert (Hcode : forall perms, payload !! py "permissions" = Some perms ->
            validate_token_permissions h cfg hmac_sha256 int_of_str t required w
            = try_except (check_permissions required perms)
                (fun e => log ERROR (py "权限验证失败: " ++ exn_str e);; mret false) w1).
  { intros perms Hp. unfold validate_token_permissions.
    unfold try_except at 1. unfold mbind at 1. unfold M_bind.
    rewrite Hv. unfold falsy. rewrite (bool_decide_eq_false_2 _ Hne).
    unfold get. change (default ∅ (Some payload)) with payload. rewrite Hp.
    reflexivity. }
  split.
  - intros s Hp. rewrite (Hcode _ Hp). unfold try_except.
    pose proof (check_permissions_string required s w1) as Hs.
    destruct (check_permissions required (VStr s) w1) as [[b|e|] w2];
      cbn in Hs; try discriminate Hs. exact Hs.
  - intros n Hp. rewrite (Hcode _ Hp). unfold try_except.
    destruct required as [|c required]; [reflexivity|].
    cbn [check_permissions py_in]. unfold_monad. reflexivity.
Qed.

End LoosePermissions.

Lemma validate_token_permissions_loose_entry_witness :
  (SecurityManager.validate_token_permissions host_quiet cfg0 toy_hmac decimal_int loose_token
     [py "exec"] world0).1 = Return true.
Proof.
  edestruct (validate_token_permissions_loose_entry host_quiet cfg0 toy_hmac decimal_int loose_token
               world0) as [Hstr _].
  - vm_compute. reflexivity.
  - intros Hempty. apply (f_equal (fun m => m !! py "user_id")) in Hempty.
    vm_compute in Hempty. discriminate Hempty.
  - rewrite (Hstr (py "exec:command")) by (vm_compute; reflexivity).
    vm_compute. reflexivity.
Defined.

Section Verification.
Import SecurityManager.
Context (h : host) (cfg : config).
Context (hmac_sha256 : pystr -> pystr -> gmap pystr pyval -> pystr).
Context (int_of_str : pystr -> option Z).

Lemma verify_jwt_token_returns t : always_returns (verify_jwt_token h cfg hmac_sha256 int_of_str t).
Proof.
  intros w. unfold verify_jwt_token, jwt_decode.
  destruct t as [alg claims signature|raw]; [|unfold_monad; eauto].
  destruct (bool_decide (alg = py "HS256")); cbn [negb]; [|unfold_monad; eauto].
  destruct (bool_decide (signature = _)); cbn [negb]; [|unfold_monad; eauto].
  unfold_monad. unfold time_now.
  destruct (validate_claims int_of_str claims (time_time h (ticks w))) as [[|msg|msg]|p];
    eauto.
Qed.

(** X27. Verification never fails with an exception and never waits:
    [verify_jwt_token], [verify_api_key] and [validate_token_permissions]
    answer for every token, also for a malformed one and for one whose
    [permissions] entry cannot be searched. *)
Theorem token_checks_always_return
    (t : token) (api_key : pystr) (required : list pystr) :
  always_returns (verify_jwt_token h cfg hmac_sha256 int_of_str t)
  /\ always_returns (verify_api_key h cfg hmac_sha256 int_of_str api_key t)
  /\ always_returns (validate_token_permissions h cfg hmac_sha256 int_of_str t required).
Proof.
  split; [apply verify_jwt_token_returns|]. split.
  - intros w. unfold verify_api_key.
    unfold try_except at 1. unfold mbind at 1. unfold M_bind.
    destruct (verify_jwt_token_returns t w) as (p & w1 & ->).
    destruct (falsy p); [unfold_monad; eauto|].
    repeat match goal with |- context [negb (bool_decide ?P)] =>
             destruct (bool_decide P); cbn [negb] end; unfold_monad; eauto.
  - intros w. unfold validate_token_permissions.
    unfold try_except at 1. unfold mbind at 1. unfold M_bind.
    destruct (verify_jwt_token_returns t w) as (p & w1 & ->).
    destruct (falsy p); [unfold_monad; eauto|].
    destruct (check_permissions_cases required
                (default (VList []) (get (default ∅ p) (py "permissions"))) w1)
      as [(b & w2 & ->) | (e & w2 & ->)]; unfold_monad; eauto.
Qed.

End Verification.

(** ** File encryption *)

Lemma replace_go_skip_all (old new s : pystr) :
  replace_go old new (length s) s = [].
Proof. induction s as [|c s IH]; [reflexivity|]. cbn [length replace_go]. exact IH. Qed.

Lemma startswith_nil (s : pystr) : startswith s [] = true.
Proof. destruct s; reflexivity. Qed.

Lemma startswith_enc_after (q : pystr) :
  startswith (q ++ py ".enc") (py ".enc") = true ->
  q = [] \/ startswith q (py ".enc") = true.
Proof.
  change (py ".enc") with [46%N; 101%N; 110%N; 99%N].
  destruct q as [|a [|b [|c [|d q]]]]; [left; reflexivity|..]; intros H; right.
  - cbn in H. rewrite ?andb_false_r in H. discriminate H.
  - cbn in H. rewrite ?andb_false_r in H. discriminate H.
  - cbn in H. rewrite ?andb_false_r in H. discriminate H.
  - cbn [startswith app] in H |- *. rewrite startswith_nil in H |- *. exact H.
Qed.

Lemma replace_enc_suffix (p : pystr) :
  contains p (py ".enc") = false ->
  replace (p ++ py ".enc") (py ".enc") [] = p.
Proof.
  unfold replace. induction p as [|c p IH]; intros Hno.
  - change ([] ++ py ".enc") with [46%N; 101%N; 110%N; 99%N].
    change (py ".enc") with [46%N; 101%N; 110%N; 99%N]. reflexivity.
  - cbn [contains] in Hno. apply orb_false_iff in Hno as [Hs Hc].
    cbn [app replace_go].
    destruct (startswith (c :: p ++ py ".enc") (py ".enc")) eqn:E.
    + apply (startswith_enc_after (c :: p)) in E as [E|E]; [discriminate E|congruence].
    + f_equal. apply IH. exact Hc.
Qed.

Lemma app_enc_neq (p : pystr) : p <> p ++ py ".enc".
Proof.
  intros H. apply (f_equal length) in H. rewrite length_app in H.
  change (length (py ".enc")) with 4%nat in H. lia.
Qed.

(** X28. [encrypt_file] without an output path writes the token of the
    content to the path of the source plus [.enc]: it returns that path, the
    source and every other file stay as they are. When there is no file at
    the source path it raises, and no file is created. *)
Theorem encrypt_file_writes_beside_source
    (h : host) (fernet_token : pystr -> nat -> Z -> pystr) (file_path : pystr) (w : world) :
  (forall f,
     fs w !! file_path = Some f ->
     fs_fault h (OpOpen file_path) = None ->
     fs_fault h (OpOpen (file_path ++ py ".enc")) = None ->
     fs_fault h (OpWrite (file_path ++ py ".enc")) = None ->
     exists w' m,
       SecurityManager.encrypt_file h fernet_token file_path None w
         = (Return (file_path ++ py ".enc"), w')
       /\ fs w' !! (file_path ++ py ".enc")
          = Some {| content := fernet_token (content f) (draws w) (time_time h (ticks w));
                    mode := m |}
       /\ (forall q, q <> file_path ++ py ".enc" -> fs w' !! q = fs w !! q))
  /\ (forall output_path,
        fs w !! file_path = None ->
        exists e w',
          SecurityManager.encrypt_file h fernet_token file_path output_path w = (Raise e, w')
          /\ fs w' = fs w).
Proof.
  split.
  - intros f Hf Ho Hoo How.
    unfold SecurityManager.encrypt_file. cbn [truthy].
    unfold try_except, mbind, M_bind, SecurityManager.read_bytes,
      SecurityManager.fernet_encrypt, SecurityManager.write_bytes.
    rewrite Ho, Hf. cbn [fs next_tick next_draw]. rewrite Hoo, How.
    unfold mret, M_ret. eexists _, _. split; [reflexivity|]. cbn [fs set_fs]. split.
    + apply lookup_insert_eq.
    + intros q Hq. apply lookup_insert_ne. congruence.
  - intros output_path Hnone.
    unfold SecurityManager.encrypt_file.
    unfold try_except, mbind, M_bind, SecurityManager.read_bytes.
    rewrite Hnone.
    destruct (fs_fault h (OpOpen file_path)); unfold log, raise; eexists _, _;
      (split; [reflexivity|reflexivity]).
Qed.

Lemma encrypt_file_writes_beside_source_witness :
  exists w' m,
    SecurityManager.encrypt_file host_quiet toy_fernet_token (py "/data/report.txt") None
      world_with_report
    = (Return (py "/data/report.txt.enc"), w')
    /\ fs w' !! py "/data/report.txt.enc"
       = Some {| content := 128%N :: py "q3 figures"; mode := m |}
    /\ fs w' !! py "/data/report.txt" = Some {| content := py "q3 figures"; mode := 420 |}.
Proof.
  destruct (encrypt_file_writes_beside_source host_quiet toy_fernet_token
              (py "/data/report.txt") world_with_report) as [Hok _].
  destruct (Hok {| content := py "q3 figures"; mode := 420 |})
    as (w' & m & Hrun & Hout & Hrest); [vm_compute; reflexivity | reflexivity..|].
  exists w', m. split; [|split].
  - rewrite Hrun. vm_compute. reflexivity.
  - change (py "/data/report.txt.enc") with (py "/data/report.txt" ++ py ".enc").
    exact Hout.
  - rewrite Hrest by (vm_compute; discriminate). vm_compute. reflexivity.
Defined.

(** X29. A file that Fernet does not accept, or that is not there, makes
    [decrypt_file] raise before anything is written: the files are left as
    they were, whatever output path was given. *)
Theorem decrypt_file_fails_closed
    (h : host) (fernet_open : pystr -> option pystr) (encrypted_file_path : pystr)
    (output_path : option pystr) (w : world) :
  fs w !! encrypted_file_path = None
  \/ (exists f, fs w !! encrypted_file_path = Some f /\ fernet_open (content f) = None) ->
  exists e w',
    SecurityManager.decrypt_file h fernet_open encrypted_file_path output_path w
      = (Raise e, w')
    /\ fs w' = fs w.
Proof.
  intros Hbad. unfold SecurityManager.decrypt_file.
  unfold try_except, mbind, M_bind, SecurityManager.read_bytes,
    SecurityManager.fernet_decrypt.
  destruct (fs_fault h (OpOpen encrypted_file_path)).
  { unfold log, raise. eexists _, _. split; reflexivity. }
  destruct Hbad as [-> | (f & -> & Hopen)].
  - unfold log, raise. eexists _, _. split; reflexivity.
  - rewrite Hopen. unfold log, raise. eexists _, _. split; reflexivity.
Qed.

Lemma decrypt_file_fails_closed_witness :
  exists e w',
    SecurityManager.decrypt_file host_quiet toy_fernet_open (py "/data/report.txt.enc")
      (Some (py "/data/report.txt")) world_with_damaged = (Raise e, w')
    /\ fs w' = fs world_with_damaged.
Proof.
  apply (decrypt_file_fails_closed host_quiet toy_fernet_open (py "/data/report.txt.enc")
           (Some (py "/data/report.txt")) world_with_damaged).
  right. exists {| content := py "garbage"; mode := 420 |}. split.
  - vm_compute. reflexivity.
  - vm_compute. reflexivity.
Defined.

(** X30. [decrypt_file] without an output path writes to the path with every
    [.enc] removed. For the path that [encrypt_file] chose for a source
    whose own path has no [.enc] in it, that is the path of the source: the
    plaintext Fernet recovers is written there. *)
Theorem decrypt_file_restores_source_path
    (h : host) (fernet_open : pystr -> option pystr) (file_path : pystr) (w : world)
    f plain :
  contains file_path (py ".enc") = false ->
  fs w !! (file_path ++ py ".enc") = Some f ->
  fernet_open (content f) = Some plain ->
  fs_fault h (OpOpen (file_path ++ py ".enc")) = None ->
  fs_fault h (OpOpen file_path) = None ->
  fs_fault h (OpWrite file_path) = None ->
  exists w' m,
    SecurityManager.decrypt_file h fernet_open (file_path ++ py ".enc") None w
      = (Return file_path, w')
    /\ fs w' !! file_path = Some {| content := plain; mode := m |}
    /\ fs w' !! (file_path ++ py ".enc") = Some f.
Proof.
  intros Hno Hf Hopen Ho Hoo How.
  unfold SecurityManager.decrypt_file. cbn [truthy].
  rewrite (replace_enc_suffix file_path Hno).
  unfold try_except, mbind, M_bind, SecurityManager.read_bytes,
    SecurityManager.fernet_decrypt, SecurityManager.write_bytes.
  rewrite Ho, Hf, Hopen. unfold mret at 1. unfold M_ret. rewrite Hoo, How.
  unfold mret, M_ret. eexists _, _. split; [reflexivity|]. cbn [fs set_fs]. split.
  - apply lookup_insert_eq.
  - rewrite lookup_insert_ne by apply app_enc_neq. exact Hf.
Qed.

Lemma decrypt_file_restores_source_path_witness :
  exists w' m,
    SecurityManager.decrypt_file host_quiet toy_fernet_open (py "/data/a.txt" ++ py ".enc") None
      (set_fs {[ py "/data/a.txt.enc" := {| content := 128%N :: py "hello"; mode := 420 |} ]}
         world0)
    = (Return (py "/data/a.txt"), w')
    /\ fs w' !! py "/data/a.txt" = Some {| content := py "hello"; mode := m |}
    /\ fs w' !! (py "/data/a.txt" ++ py ".enc")
       = Some {| content := 128%N :: py "hello"; mode := 420 |}.
Proof.
  apply (decrypt_file_restores_source_path host_quiet toy_fernet_open (py "/data/a.txt")
           (set_fs {[ py "/data/a.txt.enc"
                        := {| content := 128%N :: py "hello"; mode := 420 |} ]} world0));
    vm_compute; reflexivity.
Defined.

(** Where the path of the source has [.enc] in it, the default output of
    [decrypt_file] is another path than the source. *)
Example decrypt_file_mangles_inner_enc :
  (SecurityManager.decrypt_file host_quiet toy_fernet_open
     (py "/data/old.encrypted/a.txt.enc") None world_with_nested).1
  = Return (py "/data/oldrypted/a.txt").
Proof. vm_compute. reflexivity. Qed.
